(** * Bulk spreadsheet validation (looperrorsolve.py): a shallow embedding

    The development follows the Python module function by function.
    Python values are modelled by the inductive [cell]; strings are Rocq
    strings over the ASCII range; dictionaries are [gmap]s or, where the
    insertion order is observable, association lists; the module-level
    dictionaries [_link_cache] and [_link_cache_sizes] are the fields of an
    explicit [state] threaded through a state-and-exception monad.  The
    backing store ([frappe.db], [frappe.get_all], [frappe.get_meta]), the
    wall clock and the few library primitives on floats are parameters. *)

From Stdlib Require Import String Ascii ZArith QArith List Bool Lia DecimalString.
From stdpp Require Import gmap strings list.
Import ListNotations.
Open Scope string_scope.

(** ** Python string primitives *)

Module PyStr.

Definition chars : string -> list ascii := list_ascii_of_string.
Definition of_chars : list ascii -> string := string_of_list_ascii.

(** [c in s] for a character. *)
Definition char_in (c : ascii) (s : string) : bool :=
  existsb (Ascii.eqb c) (chars s).

Definition digits : string := "0123456789".
Definition upper_letters : string := "ABCDEFGHIJKLMNOPQRSTUVWXYZ".
Definition lower_letters : string := "abcdefghijklmnopqrstuvwxyz".

(** [str.isspace] on the ASCII range: TAB..CR, FS..US and the space. *)
Definition is_space (c : ascii) : bool :=
  existsb (Ascii.eqb c)
    ["009"; "010"; "011"; "012"; "013"; "028"; "029"; "030"; "031"; " "]%char.

Definition is_digit (c : ascii) : bool := char_in c digits.

Definition is_upper (c : ascii) : bool := char_in c upper_letters.

Definition is_lower (c : ascii) : bool := char_in c lower_letters.

Definition is_alpha (c : ascii) : bool := is_upper c || is_lower c.

(** [\w] of the [re] module on the ASCII range. *)
Definition is_word (c : ascii) : bool :=
  is_alpha c || is_digit c || Ascii.eqb c "_".

(** The character of [to] at the place [c] has in [from]; [c] itself when
    it is not in [from]. *)
Fixpoint translate (from to : list ascii) (c : ascii) : ascii :=
  match from, to with
  | f :: from', t :: to' => if Ascii.eqb c f then t else translate from' to' c
  | _, _ => c
  end.

Definition lower_char (c : ascii) : ascii :=
  translate (chars upper_letters) (chars lower_letters) c.

Definition upper_char (c : ascii) : ascii :=
  translate (chars lower_letters) (chars upper_letters) c.

Fixpoint drop_spaces (l : list ascii) : list ascii :=
  match l with
  | c :: r => if is_space c then drop_spaces r else l
  | [] => []
  end.

(** [s.strip()] *)
Definition strip (s : string) : string :=
  of_chars (rev (drop_spaces (rev (drop_spaces (chars s))))).

(** [s.lower()] *)
Definition lower (s : string) : string :=
  of_chars (map lower_char (chars s)).

(** [s.replace(" ", "")] *)
Definition remove_spaces (s : string) : string :=
  of_chars (filter (fun c => negb (Ascii.eqb c " ")) (chars s)).

(** [s.replace("_", " ")] *)
Definition underscores_to_spaces (s : string) : string :=
  of_chars (map (fun c => if Ascii.eqb c "_" then " "%char else c) (chars s)).

Fixpoint title_from (prev_cased : bool) (l : list ascii) : list ascii :=
  match l with
  | [] => []
  | c :: r =>
      if is_alpha c
      then (if prev_cased then lower_char c else upper_char c) :: title_from true r
      else c :: title_from false r
  end.

(** [s.title()] *)
Definition title (s : string) : string := of_chars (title_from false (chars s)).

(** [s.startswith(p)] *)
Definition startswith (s p : string) : bool := String.prefix p s.

(** [s.endswith(p)] *)
Definition endswith (s p : string) : bool :=
  String.prefix (of_chars (rev (chars p))) (of_chars (rev (chars s))).

(** [sub in s] *)
Fixpoint contains (s sub : string) : bool :=
  String.prefix sub s ||
  match s with
  | EmptyString => false
  | String _ r => contains r sub
  end.

(** [re.fullmatch(r"\d{4}", s)] *)
Definition four_digits (s : string) : bool :=
  (String.length s =? 4)%nat && forallb is_digit (chars s).

Fixpoint index_of (c : ascii) (l : list ascii) (i : Z) : Z :=
  match l with
  | [] => 0
  | d :: r => if Ascii.eqb c d then i else index_of c r (i + 1)
  end.

(** The value of a decimal digit. *)
Definition digit_value (c : ascii) : Z := index_of c (chars digits) 0.

(** [int(s)] for a string of decimal digits. *)
Definition int_of_digits (s : string) : Z :=
  fold_left (fun acc c => acc * 10 + digit_value c)%Z (chars s) 0%Z.

(** [str(n)] for an [int]. *)
Definition of_Z (z : Z) : string := NilZero.string_of_int (Z.to_int z).

(** [str(n)] for an index or a count. *)
Definition of_nat (n : nat) : string := of_Z (Z.of_nat n).

Fixpoint zeros (n : nat) : string :=
  match n with O => "" | S k => String "0" (zeros k) end.

(** ["%0*d"]: decimal rendering padded with zeros on the left. *)
Definition zero_pad (width : nat) (z : Z) : string :=
  let d := of_Z z in zeros (width - String.length d) ++ d.

(** [sep.join(l)] *)
Fixpoint join (sep : string) (l : list string) : string :=
  match l with
  | [] => ""
  | [x] => x
  | x :: r => x ++ sep ++ join sep r
  end.

(** The tail of a match of [\(.*\)$]: an opening parenthesis, any
    characters but a newline, and a closing parenthesis that ends the
    string. *)
Definition paren_tail (l : list ascii) : bool :=
  match l with
  | "("%char :: rest =>
      match rev rest with
      | ")"%char :: mid => forallb (fun c => negb (Ascii.eqb c "010")) mid
      | _ => false
      end
  | _ => false
  end.

(** [re.sub(r"\s*\(.*\)$", "", s)] on a stripped string: everything from
    the leftmost position at which the pattern matches is removed. *)
Fixpoint sub_paren (l : list ascii) : list ascii :=
  if paren_tail (drop_spaces l) then []
  else match l with
       | [] => []
       | c :: r => c :: sub_paren r
       end.

Definition boundary_after (l : list ascii) : bool :=
  match l with
  | [] => true
  | c :: _ => negb (is_word c)
  end.

Definition word_at (ws : list string) (l : list ascii) : bool :=
  existsb (fun w => String.prefix w (of_chars l)
                    && boundary_after (drop (String.length w) l)) ws.

Fixpoint word_search_from (ws : list string) (prev_word : bool) (l : list ascii) : bool :=
  (negb prev_word && word_at ws l) ||
  match l with
  | [] => false
  | c :: r => word_search_from ws (is_word c) r
  end.

(** [re.search(r"\b(w1|...|wn)\b", s)] for non-empty alphabetic words. *)
Definition word_search (ws : list string) (s : string) : bool :=
  word_search_from ws false (chars s).

End PyStr.

(** [x in (a, b, ...)] for strings. *)
Definition str_in (s : string) (l : list string) : bool :=
  existsb (String.eqb s) l.

(** ** Results of fallible operations *)

(** What a call into a library or into the backing store gives back: a
    value, or a raised [Exception] with its message. *)
Inductive outcome (A : Type) : Type :=
| Ok (a : A)
| Raised (msg : string).
Arguments Ok {A} a.
Arguments Raised {A} msg.

(** The exceptions the module distinguishes: its own
    [ValidationTimeout], and every other [Exception]. *)
Inductive pyexn : Type :=
| ValidationTimeout (msg : string)
| PyException (msg : string).

(** How a function of the module ends: it returns or it raises. *)
Inductive result (A : Type) : Type :=
| Return (a : A)
| Throw (e : pyexn).
Arguments Return {A} a.
Arguments Throw {A} e.

(** ** The Python runtime the module relies on

    Floats, [datetime.datetime.fromisoformat] and the iteration order of a
    [set] are library behaviour, not code of the module: they are taken as
    an interface.  [fromisoformat_digits] records the one fact about ISO
    8601 parsing the development uses: an accepted string starts with the
    four digits of a year. *)
Class PyRuntime : Type := {
  pyfloat : Type;
  (** [bool(x)] *)
  float_truthy : pyfloat -> bool;
  (** [x.is_integer()] *)
  float_is_integer : pyfloat -> bool;
  (** [int(x)], which raises on an infinity or a NaN *)
  float_to_int : pyfloat -> outcome Z;
  (** [str(x)] *)
  float_str : pyfloat -> string;
  (** [float(s)]; [None] stands for [ValueError] *)
  float_of_str : string -> option pyfloat;
  (** [datetime.datetime.fromisoformat(s).year]; [None] stands for [ValueError] *)
  fromisoformat_year : string -> option Z;
  (** the order in which [set(l)] is iterated *)
  set_iter : list string -> list string;
  fromisoformat_digits :
    forall s y, fromisoformat_year s = Some y ->
      forallb PyStr.is_digit (take 4 (PyStr.chars s)) = true
      /\ (4 <= String.length s)%nat
}.

(** ** Data model *)

Record pydate : Type := { d_year : Z; d_month : Z; d_day : Z }.

Record pydatetime : Type := {
  dt_date : pydate;
  dt_hour : Z; dt_minute : Z; dt_second : Z; dt_micro : Z
}.

Section Validation.

Context {RT : PyRuntime}.

(** A cell value as [openpyxl] hands it over with [values_only=True]. *)
Inductive cell : Type :=
| CNone
| CStr (s : string)
| CInt (z : Z)
| CBool (b : bool)
| CFloat (f : pyfloat)
| CDate (d : pydate)
| CDateTime (d : pydatetime).

Definition str_of_date (d : pydate) : string :=
  PyStr.zero_pad 4 (d_year d) ++ "-" ++ PyStr.zero_pad 2 (d_month d)
  ++ "-" ++ PyStr.zero_pad 2 (d_day d).

Definition str_of_datetime (d : pydatetime) : string :=
  str_of_date (dt_date d) ++ " " ++ PyStr.zero_pad 2 (dt_hour d) ++ ":"
  ++ PyStr.zero_pad 2 (dt_minute d) ++ ":" ++ PyStr.zero_pad 2 (dt_second d)
  ++ (if (dt_micro d =? 0)%Z then "" else "." ++ PyStr.zero_pad 6 (dt_micro d)).

(** [str(v)] *)
Definition py_str (v : cell) : string :=
  match v with
  | CNone => "None"
  | CStr s => s
  | CInt z => PyStr.of_Z z
  | CBool b => if b then "True" else "False"
  | CFloat f => float_str f
  | CDate d => str_of_date d
  | CDateTime d => str_of_datetime d
  end.

(** [bool(v)], the truth value tested by [if v] and [not v]. *)
Definition truthy (v : cell) : bool :=
  match v with
  | CNone => false
  | CStr s => negb (String.eqb s "")
  | CInt z => negb (z =? 0)%Z
  | CBool b => b
  | CFloat f => float_truthy f
  | CDate _ | CDateTime _ => true
  end.

(** [v in (None, "", "NA", "N/A")]: only [None] and the three strings
    compare equal to a member of the tuple. *)
Definition in_blank_tuple (v : cell) : bool :=
  match v with
  | CNone => true
  | CStr s => str_in s [""; "NA"; "N/A"]
  | _ => false
  end.

(** A field descriptor ([meta.fields] entry, or the [SimpleField] that
    [build_field_map] makes up from a header). *)
Record docfield : Type := {
  label : option string;
  fieldname : option string;
  fieldtype : string;
  reqd : bool;
  unique : bool;
  options : option string
}.

(** [if x] for an optional string attribute. *)
Definition str_truthy (o : option string) : bool :=
  match o with
  | Some s => negb (String.eqb s "")
  | None => false
  end.

Record meta : Type := { fields : list docfield }.

(** ** The environment: backing store, schema provider, clock *)

Record frappe : Type := {
  (** [frappe.db.exists(doctype, name)], as a truth value *)
  db_exists : string -> cell -> outcome bool;
  (** [frappe.db.count(doctype)] *)
  db_count : string -> outcome Z;
  (** [frappe.get_all(doctype, pluck="name")] *)
  get_all : string -> outcome (list string);
  (** [frappe.get_meta(doctype)] *)
  get_meta : string -> outcome meta
}.

(** Readings of [time.time()] and of [datetime.date.today()], given as the
    elapsed seconds seen at each place the module compares them with a
    budget: before sheet number [k], and at the checkpoint of row [row_idx]
    of sheet number [k]. *)
Record clock : Type := {
  elapsed_total : nat -> Q;
  elapsed_sheet : nat -> nat -> Q;
  today_year : Z
}.

Definition MAX_FILE_SIZE_MB : Z := 20.
Definition VALIDATION_TIMEOUT : Q := 120.
Definition SHEET_TIMEOUT : Q := 60.
Definition LINK_CACHE_LIMIT : Z := 5000.

(** [a > b] on clock readings. *)
Definition Qgt_bool (a b : Q) : bool := negb (Qle_bool a b).

(** ** Module state and the monad of the module's functions *)

Inductive db_call : Type :=
| CallExists (doctype : string) (name : cell)
| CallCount (doctype : string)
| CallGetAll (doctype : string)
| CallGetMeta (doctype : string).

(** [_link_cache], [_link_cache_sizes], and the calls made to the backing
    store so far (most recent last). *)
Record state : Type := {
  link_cache : gmap string (list string);
  link_cache_sizes : gmap string Z;
  db_log : list db_call
}.

Definition empty_state : state :=
  {| link_cache := ∅; link_cache_sizes := ∅; db_log := [] |}.

(** A computation reads and updates the module state and either returns
    or raises; the updates made before a raise stay. *)
Definition M (A : Type) : Type := state -> result A * state.

Definition ret {A} (a : A) : M A := fun s => (Return a, s).

Definition bind {A B} (m : M A) (f : A -> M B) : M B :=
  fun s => match m s with
           | (Return a, s') => f a s'
           | (Throw e, s') => (Throw e, s')
           end.

Definition raise {A} (e : pyexn) : M A := fun s => (Throw e, s).

(** [try: m  except Exception: h] — [ValidationTimeout] derives from
    [Exception], so it is caught as well. *)
Definition try_except {A} (m : M A) (h : pyexn -> M A) : M A :=
  fun s => match m s with
           | (Return a, s') => (Return a, s')
           | (Throw e, s') => h e s'
           end.

Notation "'let*' x ':=' m 'in' k" := (bind m (fun x => k))
  (at level 10, x name, m at level 100, k at level 200).
Notation "'run' m 'in' k" := (bind m (fun _ => k))
  (at level 10, m at level 100, k at level 200).

Definition log_call (c : db_call) : M unit :=
  fun s => (Return tt, {| link_cache := link_cache s;
                          link_cache_sizes := link_cache_sizes s;
                          db_log := db_log s ++ [c] |}).

Definition lift_outcome {A} (o : outcome A) : M A :=
  match o with
  | Ok a => ret a
  | Raised msg => raise (PyException msg)
  end.

Definition cache_get (dt : string) : M (option (list string)) :=
  fun s => (Return (link_cache s !! dt), s).

Definition cache_set (dt : string) (names : list string) : M unit :=
  fun s => (Return tt, {| link_cache := <[dt := names]> (link_cache s);
                          link_cache_sizes := link_cache_sizes s;
                          db_log := db_log s |}).

Definition sizes_get (dt : string) : M (option Z) :=
  fun s => (Return (link_cache_sizes s !! dt), s).

Definition sizes_set (dt : string) (n : Z) : M unit :=
  fun s => (Return tt, {| link_cache := link_cache s;
                          link_cache_sizes := <[dt := n]> (link_cache_sizes s);
                          db_log := db_log s |}).

(** ** Error taxonomy and structured errors *)

Definition ERROR_CODE_LABELS : list (string * string) :=
  [ ("LINK_NOT_FOUND", "Data Not Found");
    ("INVALID_YEAR_RANGE", "Invalid Year Range");
    ("REQUIRED_FIELD_EMPTY", "Required Field Empty");
    ("INVALID_INT", "Must Be a Number");
    ("DUPLICATE_ROW", "Duplicate Row");
    ("EMPTY_ROW", "Empty Row");
    ("INVALID_FLOAT", "Must Be a Decimal Number");
    ("INVALID_DATE", "Invalid Date");
    ("INVALID_DATETIME", "Invalid Date/Time");
    ("INVALID_YEAR", "Invalid Year Format");
    ("INVALID_TEXT", "Invalid Text Format");
    ("INVALID_SELECT", "Invalid Selection");
    ("INVALID_LINK", "Invalid Link");
    ("DUPLICATE_PRIMARY_KEY", "Duplicate ID");
    ("DUPLICATE_UNIQUE", "Duplicate Value");
    ("NO_FILE", "No File Uploaded");
    ("INVALID_FILE_TYPE", "Invalid File Type (Use .xlsx)");
    ("FILE_TOO_LARGE", "File Too Large");
    ("PASSWORD_PROTECTED", "Password Protected File");
    ("UNREADABLE_FILE", "Corrupted File");
    ("SHEET_NOT_FOUND", "Worksheet Not Found");
    ("NO_HEADER", "Header Row Missing");
    ("EMPTY_HEADERS", "Empty Header Row");
    ("DUPLICATE_HEADERS", "Duplicate Headers");
    ("NO_DATA_ROWS", "No Data Rows");
    ("MISSING_REQUIRED_COLUMNS", "Missing Required Columns");
    ("DOCTYPE_NOT_FOUND", "DocType Not Found");
    ("NO_PERMISSION", "No Permission");
    ("DOCTYPE_ERROR", "DocType Error");
    ("LINK_CONFIG_ERROR", "Configuration Error");
    ("INVALID_LINK_TYPE", "Invalid Link Type");
    ("LINK_DOCTYPE_NOT_FOUND", "Target Type Not Found");
    ("LINK_PERMISSION_ERROR", "Permission Denied");
    ("LINK_VALIDATION_ERROR", "Link Validation Error");
    ("TIMEOUT_ERROR", "Processing Timeout") ].

(** [d.get(k)] for a dictionary literal. *)
Fixpoint assoc_get {A} (k : string) (d : list (string * A)) : option A :=
  match d with
  | [] => None
  | (k', v) :: r => if String.eqb k k' then Some v else assoc_get k r
  end.

Definition get_readable_error_code (code : string) : string :=
  match assoc_get code ERROR_CODE_LABELS with
  | Some l => l
  | None => PyStr.underscores_to_spaces code
  end.

Definition get_formatted_error_type (code : string) : string :=
  match assoc_get code ERROR_CODE_LABELS with
  | Some l => l
  | None => PyStr.title (PyStr.underscores_to_spaces code)
  end.

(** One entry of [json_errors]; [je_suggestions] is the optional
    ["suggestions"] key. *)
Record json_error : Type := {
  je_sheet : string;
  je_row : nat;
  je_column : string;
  je_code : string;
  je_message : string;
  je_value_entered : string;
  je_error_type : string;
  je_suggestions : option (list string)
}.

(** The dictionary a sheet is summarised by; [sr_error] and [sr_message]
    are the keys only [create_error_sheet] sets. *)
Record sheet_result : Type := {
  sr_sheet_name : string;
  sr_success : bool;
  sr_error : option string;
  sr_message : option string;
  sr_error_count : nat;
  sr_total_rows : nat;
  sr_json_errors : list json_error
}.

Definition create_error_sheet (sheet_name error_code error_message : string)
  : sheet_result :=
  let json_error :=
    {| je_sheet := sheet_name;
       je_row := 0;
       je_column := "Sheet";
       je_code := get_readable_error_code error_code;
       je_message := error_message;
       je_value_entered := "";
       je_error_type := get_formatted_error_type error_code;
       je_suggestions := None |} in
  {| sr_sheet_name := sheet_name;
     sr_success := false;
     sr_error := Some error_code;
     sr_message := Some error_message;
     sr_error_count := 1;
     sr_total_rows := 0;
     sr_json_errors := [json_error] |}.

(** ** Header normalisation and field mappings *)

Definition clean_header (h : string) : string :=
  let base := PyStr.of_chars (PyStr.sub_paren (PyStr.chars (PyStr.strip h))) in
  PyStr.remove_spaces (PyStr.lower base).

(** [clean_header(x) if x else ""] *)
Definition norm_attr (o : option string) : string :=
  match o with
  | Some s => if String.eqb s "" then "" else clean_header s
  | None => ""
  end.

(** A dictionary built by successive assignments: the last one wins. *)
Definition dict_of {A} (l : list (string * A)) : gmap string A :=
  fold_left (fun m kv => <[fst kv := snd kv]> m) l ∅.

(** [{clean_header(h): h for h in headers}] *)
Definition headers_norm_of (headers : list string) : gmap string string :=
  dict_of (map (fun h => (clean_header h, h)) headers).

(** The column a field is bound to: its label if a header matches it,
    else its field name. *)
Definition bound_column (hn : gmap string string) (df : docfield) : option string :=
  match hn !! norm_attr (label df) with
  | Some h => Some h
  | None => hn !! norm_attr (fieldname df)
  end.

Definition is_break (ft : string) : bool :=
  str_in ft ["Section Break"; "Column Break"; "Tab Break"].

(** The [required_columns] loop of [process_sheet_with_validation]. *)
Definition required_columns_of (m : meta) (headers : list string) : list string :=
  let hn := headers_norm_of headers in
  flat_map (fun df =>
              if reqd df && negb (is_break (fieldtype df))
              then match bound_column hn df with Some h => [h] | None => [] end
              else []) (fields m).

Definition get_unique_columns (m : meta) (headers : list string) : list string :=
  let hn := headers_norm_of headers in
  flat_map (fun df =>
              if unique df
              then match bound_column hn df with Some h => [h] | None => [] end
              else []) (fields m).

Fixpoint primary_key_in (hn : gmap string string) (l : list docfield) : option string :=
  match l with
  | [] => None
  | df :: r =>
      if (match fieldname df with Some f => String.eqb f "name" | None => false end)
      then match hn !! norm_attr (label df) with
           | Some h => Some h
           | None => match hn !! "name" with
                     | Some h => Some h
                     | None => primary_key_in hn r
                     end
           end
      else primary_key_in hn r
  end.

Definition get_primary_key (m : meta) (headers : list string) : option string :=
  primary_key_in (headers_norm_of headers) (fields m).

(** The field type [build_field_map] guesses from a header. *)
Definition guess_fieldtype (h : string) : string :=
  let key := clean_header h in
  let h_lower := PyStr.lower h in
  if String.eqb key "year" then "Int"
  else if PyStr.contains h_lower "date" then "Date"
  else if PyStr.word_search
            ["financial"; "budget"; "amount"; "cost"; "price"; "rate"] h_lower
  then (if PyStr.contains h_lower "rate" || PyStr.contains h_lower "price"
           || PyStr.contains h_lower "financial"
        then "Currency" else "Float")
  else if PyStr.word_search
            ["count"; "total"; "value"; "qty"; "quantity"; "ranking"; "index";
             "strength"; "position"; "vacant"; "ratio"; "currency"] h_lower
  then (if PyStr.contains h_lower "&" || PyStr.contains h_lower "title"
           || PyStr.contains h_lower "case" || PyStr.contains h_lower "name"
        then "Data" else "Float")
  else "Data".

Definition simple_field (h : string) : docfield :=
  {| label := Some h;
     fieldname := Some (clean_header h);
     fieldtype := guess_fieldtype h;
     reqd := false;
     unique := false;
     options := None |}.

(** One iteration of the first loop of [build_field_map]. *)
Definition add_field (fm : gmap string docfield) (df : docfield)
  : gmap string docfield :=
  let fm1 := if str_truthy (label df)
             then <[clean_header (default "" (label df)) := df]> fm
             else fm in
  if str_truthy (fieldname df)
  then (let k := clean_header (default "" (fieldname df)) in
        match fm1 !! k with
        | Some _ => fm1
        | None => <[k := df]> fm1
        end)
  else fm1.

Definition build_field_map (m : meta) (headers : list string)
  : gmap string docfield :=
  let field_map := fold_left add_field (fields m) ∅ in
  if bool_decide (field_map = ∅) && negb (bool_decide (headers = []))
  then fold_left (fun fm h => <[clean_header h := simple_field h]> fm) headers ∅
  else field_map.

Section Env.

Variable env : frappe.
Variable clk : clock.

Definition frappe_db_exists (dt : string) (name : cell) : M bool :=
  run log_call (CallExists dt name) in lift_outcome (db_exists env dt name).

Definition frappe_db_count (dt : string) : M Z :=
  run log_call (CallCount dt) in lift_outcome (db_count env dt).

Definition frappe_get_all (dt : string) : M (list string) :=
  run log_call (CallGetAll dt) in lift_outcome (get_all env dt).

Definition frappe_get_meta (dt : string) : M meta :=
  run log_call (CallGetMeta dt) in lift_outcome (get_meta env dt).

(** ** Reference cache and reference resolution *)

(** [link_doctypes]: the targets of the [Link] fields that name one. *)
Definition link_doctypes (m : meta) : list string :=
  flat_map (fun df =>
              if String.eqb (fieldtype df) "Link" && str_truthy (options df)
              then [default "" (options df)] else []) (fields m).

(** The body of the loop of [prefetch_link_caches] with its [try]. *)
Definition prefetch_one (linked_dt : string) : M unit :=
  try_except
    (let* count := frappe_db_count linked_dt in
     run sizes_set linked_dt count in
     if (LINK_CACHE_LIMIT <? count)%Z then ret tt
     else
       let* names := frappe_get_all linked_dt in
       cache_set linked_dt names)
    (fun _ => ret tt).

Fixpoint for_each {A} (l : list A) (body : A -> M unit) : M unit :=
  match l with
  | [] => ret tt
  | x :: r => run body x in for_each r body
  end.

Definition prefetch_link_caches (m : meta) : M unit :=
  for_each (set_iter (link_doctypes m)) prefetch_one.

(** The cache-building block of [link_exists]: [Some b] when the block
    returns [b], [None] when control falls through to the lookup. *)
Definition link_exists_fill (doctype : string) (name : cell) : M (option bool) :=
  try_except
    (let* count := frappe_db_count doctype in
     if (LINK_CACHE_LIMIT <? count)%Z then
       run sizes_set doctype count in
       let* result := frappe_db_exists doctype name in
       ret (Some result)
     else
       let* names := frappe_get_all doctype in
       run cache_set doctype names in
       ret None)
    (fun _ => ret (Some false)).

Definition link_exists (doctype : string) (name : cell) (case_sensitive : bool)
  : M bool :=
  if String.eqb doctype "" || negb (truthy name) then ret false
  else
    try_except
      (let* is_doctype := frappe_db_exists "DocType" (CStr doctype) in
       if negb is_doctype then ret false
       else
         let* size := sizes_get doctype in
         let is_large := match size with
                         | Some n => (LINK_CACHE_LIMIT <? n)%Z
                         | None => false
                         end in
         if is_large then
           let name_str := PyStr.strip (py_str name) in
           frappe_db_exists doctype (CStr name_str)
         else
           let* cached := cache_get doctype in
           let* early := match cached with
                         | Some _ => ret None
                         | None => link_exists_fill doctype name
                         end in
           match early with
           | Some b => ret b
           | None =>
               let* entry := cache_get doctype in
               match entry with
               | None => raise (PyException "KeyError")
               | Some names =>
                   let name_str := PyStr.strip (py_str name) in
                   if case_sensitive
                   then ret (bool_decide (name_str ∈ names))
                   else
                     let name_lower := PyStr.lower name_str in
                     ret (existsb (fun cached_name =>
                                     String.eqb (PyStr.lower cached_name) name_lower)
                            (set_iter names))
               end
           end)
      (fun _ => ret false).

(** The loop of [get_link_suggestions], with its [break]. *)
Fixpoint collect_suggestions (max_suggestions : nat) (name_lower : string)
    (names acc : list string) : list string :=
  match names with
  | [] => acc
  | cached_name :: r =>
      if PyStr.contains (PyStr.lower cached_name) name_lower
         || PyStr.contains name_lower (PyStr.lower cached_name)
      then let acc' := (acc ++ [cached_name])%list in
           if (max_suggestions <=? length acc')%nat then acc'
           else collect_suggestions max_suggestions name_lower r acc'
      else collect_suggestions max_suggestions name_lower r acc
  end.

Definition get_link_suggestions (doctype name : string) (max_suggestions : nat)
  : M (list string) :=
  let* cached := cache_get doctype in
  let* ready := match cached with
                | Some _ => ret true
                | None =>
                    try_except
                      (run link_exists doctype (CStr "__init__") false in ret true)
                      (fun _ => ret false)
                end in
  if negb ready then ret []
  else
    let name_lower := PyStr.lower name in
    let* entry := cache_get doctype in
    match entry with
    | Some names =>
        ret (collect_suggestions max_suggestions name_lower (set_iter names) [])
    | None => ret []
    end.

(** An entry of the list [validate_datatypes] returns. *)
Record dt_error : Type := {
  de_row : nat;
  de_column : string;
  de_code : string;
  de_message : string;
  de_suggestions : option (list string)
}.

Definition validate_link_field (df : docfield) (value : cell) (label : string)
    (row_idx : nat) (skip_link_validation : bool) (original_value : cell)
  : M (option dt_error) :=
  if skip_link_validation || negb (truthy value) then ret None
  else if negb (str_truthy (options df)) then
    ret (Some {| de_row := row_idx; de_column := label;
                 de_code := "LINK_CONFIG_ERROR";
                 de_message := "No target DocType";
                 de_suggestions := None |})
  else
    let linked_doctype := default "" (options df) in
    let value_str := PyStr.strip (py_str value) in
    let* found := frappe_db_exists linked_doctype (CStr value_str) in
    if found then ret None
    else
      let* existing := cache_get linked_doctype in
      let scanned := match existing with
                     | Some (n :: names) => set_iter (n :: names)
                     | _ => []
                     end in
      if existsb (fun v => String.eqb (PyStr.lower (PyStr.strip v))
                                       (PyStr.lower value_str)) scanned
      then ret None
      else
        let* suggestions := get_link_suggestions linked_doctype value_str 3 in
        ret (Some {| de_row := row_idx; de_column := label;
                     de_code := "LINK_NOT_FOUND";
                     de_message := label ++ ": '" ++ py_str original_value
                                   ++ "' not found in " ++ linked_doctype;
                     de_suggestions := Some suggestions |}).

(** ** Type rules *)

Definition validate_year_value (value : cell) : M (option Z) :=
  match value with
  | CDate d => ret (Some (d_year d))
  | CDateTime d => ret (Some (d_year (dt_date d)))
  | CInt z => ret (Some z)
  | CBool b => ret (Some (if b then 1 else 0)%Z)
  | CFloat f => let* y := lift_outcome (float_to_int f) in ret (Some y)
  | CStr s =>
      if PyStr.four_digits (PyStr.strip s)
      then ret (Some (PyStr.int_of_digits (PyStr.strip s)))
      else ret (fromisoformat_year s)
  | CNone => ret (fromisoformat_year (py_str CNone))
  end.

Definition optional_columns : list string :=
  ["id"; "institute"; "notes"; "description"; "brief"; "details"; "remarks";
   "comments"].

(** [DummyField], the stand-in for a year column the schema does not know. *)
Definition dummy_field : docfield :=
  {| label := None; fieldname := Some "year"; fieldtype := "Int";
     reqd := false; unique := false; options := None |}.

Definition mk_error (row_idx : nat) (column code message : string) : dt_error :=
  {| de_row := row_idx; de_column := column; de_code := code;
     de_message := message; de_suggestions := None |}.

(** The integer test of the [Int]/[Check] branch. *)
Definition is_valid_int (value : cell) : bool :=
  match value with
  | CInt _ | CBool _ => true
  | CFloat f => float_is_integer f
  | CStr s => match float_of_str (PyStr.strip s) with
              | Some num_val => float_is_integer num_val
              | None => false
              end
  | _ => false
  end.

(** The number test of the [Float]/[Currency]/[Percent] branch. *)
Definition is_valid_float (value : cell) : bool :=
  match value with
  | CInt _ | CBool _ | CFloat _ => true
  | CStr s => match float_of_str (PyStr.strip s) with
              | Some _ => true
              | None => false
              end
  | _ => false
  end.

(** The [Numeric/Date checks] that end an iteration of [validate_datatypes]. *)
Definition numeric_date_checks (ft : string) (value : cell) (label : string)
    (row_idx : nat) : list dt_error :=
  if str_in ft ["Int"; "Check"] then
    (if is_valid_int value then []
     else [mk_error row_idx label "INVALID_INT"
             ("'" ++ py_str value ++ "' is not a valid number")])
  else if str_in ft ["Float"; "Currency"; "Percent"] then
    (if is_valid_float value then []
     else [mk_error row_idx label "INVALID_FLOAT"
             ("'" ++ py_str value ++ "' is not a valid number")])
  else if String.eqb ft "Date" then
    (match value with
     | CDate _ | CDateTime _ => []
     | _ => [mk_error row_idx label "INVALID_DATE" "Invalid date format"]
     end)
  else if String.eqb ft "Datetime" then
    (match value with
     | CDateTime _ => []
     | _ => [mk_error row_idx label "INVALID_DATETIME" "Invalid datetime format"]
     end)
  else [].

(** The value is blank for [validate_datatypes]: [None], or a string form
    that is empty or a placeholder once stripped. *)
Definition blank_for_datatypes (value : cell) : bool :=
  let str_val := match value with
                 | CNone => ""
                 | _ => PyStr.strip (py_str value)
                 end in
  String.eqb str_val "" || str_in str_val ["NA"; "N/A"; "na"; "n/a"].

Definition option_list {A} (o : option A) : list A :=
  match o with
  | Some a => [a]
  | None => []
  end.

(** [is_optional]: the column may stay empty. *)
Definition is_optional_column (label : string) : bool :=
  str_in (clean_header label) optional_columns
  || PyStr.startswith (PyStr.lower label) "id ".

(** One iteration of the loop of [validate_datatypes]: the errors it
    appends. *)
Definition validate_item (field_map : gmap string docfield)
    (skip_link_validation : bool) (row_idx : nat) (label : string) (value : cell)
  : M (list dt_error) :=
  let key := clean_header label in
  if blank_for_datatypes value then
    ret (if is_optional_column label then []
         else [mk_error row_idx label "REQUIRED_FIELD_EMPTY"
                 ("Field '" ++ label ++ "' is empty")])
  else
    let is_year_by_name := PyStr.contains (PyStr.lower label) "year"
                           && (String.length label <? 15)%nat in
    let df_opt := match field_map !! key with
                  | Some df => Some df
                  | None => if is_year_by_name then Some dummy_field else None
                  end in
    match df_opt with
    | None => ret []
    | Some df =>
        let ft := fieldtype df in
        let is_year_field :=
          String.eqb key "year" || PyStr.endswith key "_year"
          || (match fieldname df with
              | Some f => String.eqb f "year"
              | None => false
              end)
          || is_year_by_name in
        let* year_step :=
          (if is_year_field then
             let* y := validate_year_value value in
             match y with
             | None =>
                 ret ([mk_error row_idx label "INVALID_YEAR"
                         ("Invalid year: " ++ py_str value)], true)
             | Some y =>
                 ret (if (1900 <=? y)%Z && (y <=? today_year clk + 1)%Z then []
                      else [mk_error row_idx label "INVALID_YEAR_RANGE"
                              ("Year " ++ PyStr.of_Z y
                               ++ " out of allowed range 1900-"
                               ++ PyStr.of_Z (today_year clk + 1))],
                      negb (String.eqb ft "Link"))
             end
           else ret ([], false)) in
        let '(year_errors, done) := year_step in
        if done then ret year_errors
        else if String.eqb ft "Link" then
          let* link_err :=
            validate_link_field df value label row_idx skip_link_validation value in
          ret (year_errors ++ option_list link_err)%list
        else ret (year_errors ++ numeric_date_checks ft value label row_idx)%list
    end.

Fixpoint validate_items (field_map : gmap string docfield)
    (skip_link_validation : bool) (row_idx : nat) (items : list (string * cell))
  : M (list dt_error) :=
  match items with
  | [] => ret []
  | (label, value) :: r =>
      let* errs := validate_item field_map skip_link_validation row_idx label value in
      let* rest := validate_items field_map skip_link_validation row_idx r in
      ret (errs ++ rest)%list
  end.

(** [validate_datatypes(doctype, row_dict, row_idx, headers, meta,
    skip_link_validation, field_map)] with the field map supplied, as its
    one caller does. *)
Definition validate_datatypes (row_dict : list (string * cell)) (row_idx : nat)
    (skip_link_validation : bool) (field_map : gmap string docfield)
  : M (list dt_error) :=
  validate_items field_map skip_link_validation row_idx row_dict.

(** ** Row validation *)

(** The three duplicate-detection sets of one sheet.  The loop only adds
    to them and tests membership, so each set is kept as the list of the
    values added, the latest first. *)
Record tracker : Type := {
  seen_rows : list (list string);
  seen_unique : gmap string (list string);
  seen_primary : list string
}.

(** What one iteration of the row loop produces: the entries it appends to
    [json_errors], and the row it writes to the output sheet
    ([error_val], [error_count], [detail_val], the original columns) with
    the columns it highlights. *)
Record row_report : Type := {
  rr_json_errors : list json_error;
  rr_short_errors : list string;
  rr_detailed_errors : list string;
  rr_failed_columns : list string;
  rr_has_error : bool;
  rr_error_count : nat;
  rr_error_val : string;
  rr_detail_val : string;
  rr_values : list cell
}.

(** What is fixed for all rows of a sheet. *)
Record sheet_ctx : Type := {
  cx_doctype : string;
  cx_headers : list string;
  cx_required_columns : list string;
  cx_unique_columns : list string;
  cx_primary_key : option string;
  cx_field_map : gmap string docfield;
  cx_skip_links : bool
}.

Fixpoint odict_set {A} (k : string) (v : A) (d : list (string * A))
  : list (string * A) :=
  match d with
  | [] => [(k, v)]
  | (k', v') :: r =>
      if String.eqb k k' then (k, v) :: r else (k', v') :: odict_set k v r
  end.

(** [dict(zip(headers, row))]: insertion order, last value for a repeated
    key. *)
Definition dict_zip (headers : list string) (row : list cell)
  : list (string * cell) :=
  fold_left (fun d kv => odict_set (fst kv) (snd kv) d) (combine headers row) [].

(** [row_dict.get(col)] *)
Definition row_get (row_dict : list (string * cell)) (col : string) : cell :=
  default CNone (assoc_get col row_dict).

(** The test of the empty-row check on one cell. *)
Definition is_empty_cell (v : cell) : bool :=
  match v with
  | CNone => true
  | _ => str_in (PyStr.strip (py_str v)) [""; "NA"; "N/A"; "na"; "n/a"]
  end.

(** One component of the whole-row signature. *)
Definition signature_cell (v : cell) : string :=
  if in_blank_tuple v then "" else py_str v.

Definition row_signature (row_dict : list (string * cell)) : list string :=
  map (fun kv => signature_cell (snd kv)) row_dict.

Definition mk_json (sheet : string) (row : nat) (column code message value etype : string)
  : json_error :=
  {| je_sheet := sheet; je_row := row; je_column := column; je_code := code;
     je_message := message; je_value_entered := value; je_error_type := etype;
     je_suggestions := None |}.

(** The lists an iteration of the row loop fills. *)
Record row_acc : Type := {
  short_errors : list string;
  detailed_errors : list string;
  failed_columns : list string;
  new_json_errors : list json_error
}.

Definition acc_empty : row_acc :=
  {| short_errors := []; detailed_errors := []; failed_columns := [];
     new_json_errors := [] |}.

Definition acc_add (a : row_acc) (short detail : string) (failed : option string)
    (je : json_error) : row_acc :=
  {| short_errors := short_errors a ++ [short];
     detailed_errors := detailed_errors a ++ [detail];
     failed_columns := failed_columns a ++ option_list failed;
     new_json_errors := new_json_errors a ++ [je] |}.

(** The entry the [Required fields] loop appends for a column. *)
Definition required_error (cx : sheet_ctx) (row_idx : nat) (col : string)
  : json_error :=
  mk_json (cx_doctype cx) row_idx col
    (get_readable_error_code "REQUIRED_FIELD_EMPTY")
    ("Required field '" ++ col ++ "' is empty") ""
    (get_formatted_error_type "REQUIRED_FIELD_EMPTY").

(** The body of the [Required fields] loop. *)
Definition required_step (cx : sheet_ctx) (row_idx : nat)
    (row_dict : list (string * cell)) (a : row_acc) (col : string) : row_acc :=
  if in_blank_tuple (row_get row_dict col) then
    acc_add a (col ++ ": Required field empty")
      ("Required field '" ++ col ++ "' is empty") (Some col)
      (required_error cx row_idx col)
  else a.

(** [err_object]: the entry made from an error of [validate_datatypes]. *)
Definition dtype_json (cx : sheet_ctx) (row_idx : nat)
    (row_dict : list (string * cell)) (err : dt_error) : json_error :=
  let col := de_column err in
  let code := de_code err in
  let has_col := negb (String.eqb col "") in
  let suggestions := default [] (de_suggestions err) in
  let value_entered := if has_col
                       then match row_get row_dict col with
                            | CNone => ""
                            | v => py_str v
                            end
                       else "" in
  {| je_sheet := cx_doctype cx; je_row := row_idx; je_column := col;
     je_code := get_readable_error_code code; je_message := de_message err;
     je_value_entered := value_entered;
     je_error_type := get_formatted_error_type code;
     je_suggestions := if bool_decide (suggestions = []) then None
                       else Some suggestions |}.

(** The body of the loop over [dtype_errors]. *)
Definition dtype_step (cx : sheet_ctx) (row_idx : nat)
    (row_dict : list (string * cell)) (a : row_acc) (err : dt_error) : row_acc :=
  let col := de_column err in
  let raw_msg := de_message err in
  let readable_code := PyStr.strip (get_readable_error_code (de_code err)) in
  let has_col := negb (String.eqb col "") in
  let suggestions := default [] (de_suggestions err) in
  let detail1 := if bool_decide (suggestions = []) then raw_msg
                 else raw_msg ++ " Suggest: " ++ PyStr.join ", " suggestions in
  let detail_msg := if has_col then col ++ ": " ++ detail1 else detail1 in
  acc_add a (if has_col then col ++ ": " ++ readable_code else readable_code)
    detail_msg (if has_col then Some col else None)
    (dtype_json cx row_idx row_dict err).

(** The entry the duplicate-row check appends. *)
Definition duplicate_row_error (cx : sheet_ctx) (row_idx : nat) : json_error :=
  mk_json (cx_doctype cx) row_idx "Entire Row"
    (get_readable_error_code "DUPLICATE_ROW")
    "This row is a duplicate of a previous row" "Row Data"
    (get_formatted_error_type "DUPLICATE_ROW").

(** [Duplicate row check]: the membership test, then the insertion. *)
Definition duplicate_row_step (cx : sheet_ctx) (row_idx : nat)
    (row_dict : list (string * cell)) (st : row_acc * tracker) : row_acc * tracker :=
  let '(a, tr) := st in
  let row_values := row_signature row_dict in
  let a' :=
    if negb (bool_decide (row_values = [])) && bool_decide (row_values ∈ seen_rows tr)
    then acc_add a "Duplicate row" "Duplicate row" None
           (duplicate_row_error cx row_idx)
    else a in
  (a', {| seen_rows := row_values :: seen_rows tr;
          seen_unique := seen_unique tr;
          seen_primary := seen_primary tr |}).

(** The entry the primary-key check appends. *)
Definition duplicate_key_error (cx : sheet_ctx) (row_idx : nat)
    (primary_key : string) (pk_val : cell) : json_error :=
  mk_json (cx_doctype cx) row_idx primary_key
    (get_readable_error_code "DUPLICATE_PRIMARY_KEY")
    (primary_key ++ ": Duplicate ID (" ++ py_str pk_val ++ ")")
    (py_str pk_val)
    (get_formatted_error_type "DUPLICATE_PRIMARY_KEY").

(** [Primary key duplicate] *)
Definition primary_key_step (cx : sheet_ctx) (row_idx : nat)
    (row_dict : list (string * cell)) (st : row_acc * tracker) : row_acc * tracker :=
  let '(a, tr) := st in
  match cx_primary_key cx with
  | None => (a, tr)
  | Some primary_key =>
      if String.eqb primary_key "" then (a, tr)
      else
        let pk_val := row_get row_dict primary_key in
        if truthy pk_val && negb (in_blank_tuple pk_val) then
          let pk_str := PyStr.strip (py_str pk_val) in
          let a' :=
            if bool_decide (pk_str ∈ seen_primary tr) then
              acc_add a (primary_key ++ ": Duplicate ID")
                (primary_key ++ ": Duplicate ID (" ++ py_str pk_val ++ ")")
                (Some primary_key)
                (duplicate_key_error cx row_idx primary_key pk_val)
            else a in
          (a', {| seen_rows := seen_rows tr;
                  seen_unique := seen_unique tr;
                  seen_primary := pk_str :: seen_primary tr |})
        else (a, tr)
  end.

(** The entry the unique-column check appends. *)
Definition duplicate_value_error (cx : sheet_ctx) (row_idx : nat) (col : string)
    (val : cell) : json_error :=
  mk_json (cx_doctype cx) row_idx col
    (get_readable_error_code "DUPLICATE_UNIQUE")
    (col ++ ": Duplicate value (" ++ py_str val ++ ")") (py_str val)
    (get_formatted_error_type "DUPLICATE_UNIQUE").

(** The body of the [Unique value duplicate] loop.  [seen_unique] has a
    key for every unique column from its initialisation. *)
Definition unique_step (cx : sheet_ctx) (row_idx : nat)
    (row_dict : list (string * cell)) (st : row_acc * tracker) (col : string)
  : row_acc * tracker :=
  let '(a, tr) := st in
  let val := row_get row_dict col in
  if truthy val && negb (in_blank_tuple val) then
    let val_str := PyStr.strip (py_str val) in
    let seen := default [] (seen_unique tr !! col) in
    let a' :=
      if bool_decide (val_str ∈ seen) then
        acc_add a (col ++ ": Duplicate value")
          (col ++ ": Duplicate value (" ++ py_str val ++ ")") (Some col)
          (duplicate_value_error cx row_idx col val)
      else a in
    (a', {| seen_rows := seen_rows tr;
            seen_unique := <[col := val_str :: seen]> (seen_unique tr);
            seen_primary := seen_primary tr |})
  else (a, tr).

(** [Write row]: the annotated row made from the lists of the iteration. *)
Definition report_of (cx : sheet_ctx) (row_dict : list (string * cell))
    (a : row_acc) : row_report :=
  let has_error := (0 <? length (short_errors a))%nat in
  {| rr_json_errors := new_json_errors a;
     rr_short_errors := short_errors a;
     rr_detailed_errors := detailed_errors a;
     rr_failed_columns := failed_columns a;
     rr_has_error := has_error;
     rr_error_count := length (short_errors a);
     rr_error_val := if has_error then "Error" else "No Error";
     rr_detail_val := match detailed_errors a with
                      | [] => "No Error"
                      | l => PyStr.join "; " l
                      end;
     rr_values := map (row_get row_dict) (cx_headers cx) |}.

(** The entry an empty row appends to [json_errors]. *)
Definition empty_row_error (doctype : string) (row_idx : nat) : json_error :=
  mk_json doctype row_idx "Entire Row" "Empty Row" "Row is completely empty" ""
    "Empty Row".

(** One iteration of the row loop, after its timeout check. *)
Definition validate_row (cx : sheet_ctx) (row_idx : nat) (row : list cell)
    (tr : tracker) : M (row_report * tracker) :=
  let row_dict := dict_zip (cx_headers cx) row in
  if forallb (fun kv => is_empty_cell (snd kv)) row_dict then
    ret (report_of cx row_dict
           (acc_add acc_empty "Empty row" "Row is completely empty" None
              (empty_row_error (cx_doctype cx) row_idx)),
         tr)
  else
    let a1 := fold_left (required_step cx row_idx row_dict)
                (cx_required_columns cx) acc_empty in
    let* dtype_errors :=
      validate_datatypes row_dict row_idx (cx_skip_links cx) (cx_field_map cx) in
    let a2 := fold_left (dtype_step cx row_idx row_dict) dtype_errors a1 in
    let st3 := duplicate_row_step cx row_idx row_dict (a2, tr) in
    let st4 := primary_key_step cx row_idx row_dict st3 in
    let st5 := fold_left (unique_step cx row_idx row_dict)
                 (cx_unique_columns cx) st4 in
    ret (report_of cx row_dict (fst st5), snd st5).

(** The timeout check that opens an iteration of the row loop. *)
Definition timeout_check (cx : sheet_ctx) (sheet_no row_idx : nat) : M unit :=
  if (row_idx mod 100 =? 0)%nat then
    if Qgt_bool (elapsed_sheet clk sheet_no row_idx) SHEET_TIMEOUT
    then raise (ValidationTimeout ("Sheet " ++ cx_doctype cx ++ " timeout"))
    else ret tt
  else ret tt.

(** [for row_idx, row in enumerate(all_rows, start=2)] *)
Fixpoint process_rows (cx : sheet_ctx) (sheet_no row_idx : nat)
    (rows : list (list cell)) (tr : tracker) : M (list row_report) :=
  match rows with
  | [] => ret []
  | row :: rest =>
      run timeout_check cx sheet_no row_idx in
      let* rt := validate_row cx row_idx row tr in
      let* reports := process_rows cx sheet_no (S row_idx) rest (snd rt) in
      ret (fst rt :: reports)
  end.

(** ** Sheet processor *)

(** A worksheet of the loaded workbook: its title and its rows of cell
    values, the header row first. *)
Record worksheet : Type := {
  ws_title : string;
  ws_rows : list (list cell)
}.

Definition workbook : Type := list worksheet.

Definition sheetnames (wb : workbook) : list string := map ws_title wb.

(** [wb_input[title]]; [None] stands for [KeyError]. *)
Definition workbook_get (wb : workbook) (title : string) : option worksheet :=
  find (fun ws => String.eqb (ws_title ws) title) wb.

Definition sheet_key (s : string) : string := PyStr.remove_spaces (PyStr.lower s).

Definition safe_get_meta (doctype : string) : M (option meta) :=
  try_except (let* m := frappe_get_meta doctype in ret (Some m))
             (fun _ => ret None).

(** [any(c is not None and str(c).strip() != "" for c in r)] *)
Definition is_valid_row (r : list cell) : bool :=
  existsb (fun c => match c with
                    | CNone => false
                    | _ => negb (String.eqb (PyStr.strip (py_str c)) "")
                    end) r.

(** [h is None or str(h).strip() == ""] *)
Definition is_blank_header (h : cell) : bool :=
  match h with
  | CNone => true
  | _ => String.eqb (PyStr.strip (py_str h)) ""
  end.

Definition new_tracker (unique_columns : list string) : tracker :=
  {| seen_rows := [];
     seen_unique := dict_of (map (fun c => (c, [])) unique_columns);
     seen_primary := [] |}.

(** The part of [process_sheet_with_validation] that follows the header
    checks. *)
Definition process_validated_sheet (doctype : string) (skip_links : bool)
    (sheet_no : nat) (headers : list string) (all_rows : list (list cell))
  : M sheet_result :=
  let* meta_opt := safe_get_meta doctype in
  match meta_opt with
  | None =>
      ret (create_error_sheet doctype "DOCTYPE_ERROR"
             "Failed to load DocType metadata")
  | Some m =>
      run (if skip_links then ret tt else prefetch_link_caches m) in
      let cx := {| cx_doctype := doctype;
                   cx_headers := headers;
                   cx_required_columns := required_columns_of m headers;
                   cx_unique_columns := get_unique_columns m headers;
                   cx_primary_key := get_primary_key m headers;
                   cx_field_map := build_field_map m headers;
                   cx_skip_links := skip_links |} in
      if bool_decide (filter is_valid_row all_rows = []) then
        ret (create_error_sheet doctype "NO_DATA_ROWS"
               "The file contains no data rows.")
      else
        let* reports :=
          process_rows cx sheet_no 2 all_rows
            (new_tracker (cx_unique_columns cx)) in
        let json_errors := flat_map rr_json_errors reports in
        ret {| sr_sheet_name := doctype;
               sr_success := true;
               sr_error := None;
               sr_message := None;
               sr_error_count := length json_errors;
               sr_total_rows := length all_rows;
               sr_json_errors := json_errors |}
  end.

Definition process_sheet_with_validation (wb_input : workbook) (doctype : string)
    (skip_links : bool) (sheet_no : nat) : M sheet_result :=
  try_except
    (let sheet_map := dict_of (map (fun s => (sheet_key s, s)) (sheetnames wb_input)) in
     match sheet_map !! sheet_key doctype with
     | None =>
         ret (create_error_sheet doctype "SHEET_NOT_FOUND"
                ("Worksheet '" ++ doctype ++ "' not found."))
     | Some title =>
         match workbook_get wb_input title with
         | None => raise (PyException "KeyError")
         | Some sheet_input =>
             match ws_rows sheet_input with
             | [] | [] :: _ =>
                 ret (create_error_sheet doctype "NO_HEADER" "Header row missing")
             | header_row :: all_rows =>
                 let headers := map (fun h => PyStr.strip (py_str h))
                                    (filter truthy header_row) in
                 if bool_decide (headers = []) then
                   ret (create_error_sheet doctype "EMPTY_HEADERS"
                          "The header row is empty or the sheet is blank.")
                 else if existsb is_blank_header header_row then
                   ret (create_error_sheet doctype "EMPTY_HEADERS"
                          "The header row contains blank cells between columns.")
                 else if negb (bool_decide (NoDup headers)) then
                   ret (create_error_sheet doctype "DUPLICATE_HEADERS"
                          "The header row contains duplicate column names.")
                 else
                   process_validated_sheet doctype skip_links sheet_no headers
                     all_rows
             end
         end
     end)
    (fun e => match e with
              | ValidationTimeout _ => raise e
              | PyException msg =>
                  ret (create_error_sheet doctype "PROCESSING_ERROR"
                         ("Unexpected error: " ++ msg))
              end).

(** ** Batch coordinator *)

Record overall_stats : Type := {
  total_sheets : nat;
  validated_sheets : nat;
  total_errors : nat;
  total_rows : nat;
  sheet_results : list sheet_result;
  all_json_errors : list json_error
}.

Definition check_doctype_exists (doctype_name : string) : M bool :=
  try_except (frappe_db_exists "DocType" (CStr doctype_name))
             (fun _ => ret false).

(** The sheet result is recorded and its errors join the flat list; the
    counters are left alone ([DOCTYPE_NOT_FOUND] branch). *)
Definition record_unknown (st : overall_stats) (r : sheet_result) : overall_stats :=
  {| total_sheets := total_sheets st;
     validated_sheets := validated_sheets st;
     total_errors := total_errors st;
     total_rows := total_rows st;
     sheet_results := sheet_results st ++ [r];
     all_json_errors := all_json_errors st ++ sr_json_errors r |}.

(** The statements of the [try] block that follow the call of
    [process_sheet_with_validation]. *)
Definition record_processed (st : overall_stats) (r : sheet_result) : overall_stats :=
  {| total_sheets := total_sheets st;
     validated_sheets := if sr_success r then S (validated_sheets st)
                         else validated_sheets st;
     total_errors := total_errors st + sr_error_count r;
     total_rows := total_rows st + sr_total_rows r;
     sheet_results := sheet_results st ++ [r];
     all_json_errors := all_json_errors st ++ sr_json_errors r |}.

(** The two [except] handlers: the sheet result is recorded, nothing else. *)
Definition record_aborted (st : overall_stats) (r : sheet_result) : overall_stats :=
  {| total_sheets := total_sheets st;
     validated_sheets := validated_sheets st;
     total_errors := total_errors st;
     total_rows := total_rows st;
     sheet_results := sheet_results st ++ [r];
     all_json_errors := all_json_errors st |}.

(** One iteration of the sheet loop, after the overall timeout check. *)
Definition process_one_sheet (wb_input : workbook) (skip_links : bool)
    (sheet_idx : nat) (sheet_name : string) (st : overall_stats) : M overall_stats :=
  let* doctype_exists := check_doctype_exists sheet_name in
  if negb doctype_exists then
    ret (record_unknown st
           (create_error_sheet sheet_name "DOCTYPE_NOT_FOUND"
              ("DocType '" ++ sheet_name ++ "' not found in Frappe")))
  else
    try_except
      (let* sheet_result :=
         process_sheet_with_validation wb_input sheet_name skip_links sheet_idx in
       ret (record_processed st sheet_result))
      (fun e => match e with
                | ValidationTimeout _ =>
                    ret (record_aborted st
                           (create_error_sheet sheet_name "TIMEOUT_ERROR"
                              "Sheet processing exceeded 60s timeout"))
                | PyException msg =>
                    ret (record_aborted st
                           (create_error_sheet sheet_name "PROCESSING_ERROR"
                              ("Error: " ++ msg)))
                end).

(** [for sheet_idx, sheet_name in enumerate(wb_input.sheetnames, 1)] *)
Fixpoint process_sheets (wb_input : workbook) (skip_links : bool) (sheet_idx : nat)
    (names : list string) (st : overall_stats) : M overall_stats :=
  match names with
  | [] => ret st
  | sheet_name :: rest =>
      if Qgt_bool (elapsed_total clk sheet_idx) VALIDATION_TIMEOUT then ret st
      else
        let* st' := process_one_sheet wb_input skip_links sheet_idx sheet_name st in
        process_sheets wb_input skip_links (S sheet_idx) rest st'
  end.

(** The response of [validate_and_add_error_columns], without the file
    URL and the processing time. *)
Record report : Type := {
  structure_valid : bool;
  r_total_sheets : nat;
  r_validated_sheets : nat;
  r_total_errors : nat;
  r_total_rows : nat;
  r_errors : list json_error;
  r_sheet_results : list sheet_result
}.

Inductive response : Type :=
| Report (r : report)
| Failure (code message error_type : string).

Definition fail (code message : string) : response :=
  Failure code message (default code (assoc_get code ERROR_CODE_LABELS)).

Definition exn_message (e : pyexn) : string :=
  match e with
  | ValidationTimeout msg | PyException msg => msg
  end.

(** The text of the [IndexError] openpyxl raises on saving a workbook
    that has no sheet. *)
Definition SAVE_EMPTY_MESSAGE : string := "At least one sheet must be visible".

(** [wb_output.save(tmp.name)].  The output workbook starts without a
    sheet, and every iteration of the sheet loop that is not cut by the
    overall timeout creates one ([create_error_sheet], or the sheet made
    after the header checks) and records one sheet result: the workbook
    has no sheet exactly when no result was recorded, and then the save
    raises.  Writing the file and storing it are output. *)
Definition save_output (st : overall_stats) : M unit :=
  if bool_decide (sheet_results st = [])
  then raise (PyException SAVE_EMPTY_MESSAGE)
  else ret tt.

(** [validate_and_add_error_columns] from the loaded workbook on: the file
    checks and the loading are input. *)
Definition validate_and_add_error_columns (wb_input : workbook)
    (skip_link_validation : string) : M response :=
  let skip_links := String.eqb skip_link_validation "1" in
  try_except
    (let overall_stats :=
       {| total_sheets := length (sheetnames wb_input);
          validated_sheets := 0; total_errors := 0; total_rows := 0;
          sheet_results := []; all_json_errors := [] |} in
     let* st := process_sheets wb_input skip_links 1 (sheetnames wb_input)
                  overall_stats in
     run save_output st in
     ret (Report {| structure_valid := (total_errors st =? 0)%nat;
                    r_total_sheets := total_sheets st;
                    r_validated_sheets := validated_sheets st;
                    r_total_errors := total_errors st;
                    r_total_rows := total_rows st;
                    r_errors := all_json_errors st;
                    r_sheet_results := sheet_results st |}))
    (fun e => ret (fail "PROCESSING_ERROR" ("Unexpected error: " ++ exn_message e))).

End Env.
End Validation.

Notation "'let*' x ':=' m 'in' k" := (bind m (fun x => k))
  (at level 10, x name, m at level 100, k at level 200).
Notation "'run' m 'in' k" := (bind m (fun _ => k))
  (at level 10, m at level 100, k at level 200).

(** The string functions are computed on demand only. *)
Arguments clean_header : simpl never.
Arguments is_optional_column : simpl never.
Arguments PyStr.strip : simpl never.
Arguments PyStr.lower : simpl never.
Arguments PyStr.contains : simpl never.
Arguments PyStr.startswith : simpl never.
Arguments PyStr.endswith : simpl never.

(** ** A runtime for the worked examples

    Floats are plain decimal numbers [mantissa / 10^scale]; ISO parsing
    accepts [YYYY-MM-DD], alone or followed by a separator and a time;
    a set is iterated in order of first insertion. *)
Module ExampleRuntime.

Record dec : Type := { mant : Z; scale : nat }.

Definition pow10 (n : nat) : Z := (10 ^ Z.of_nat n)%Z.

Definition dec_is_integer (d : dec) : bool :=
  (mant d mod pow10 (scale d) =? 0)%Z.

Definition dec_to_int (d : dec) : outcome Z :=
  Ok (Z.quot (mant d) (pow10 (scale d))).

Definition dec_str (d : dec) : string :=
  let ip := Z.quot (mant d) (pow10 (scale d)) in
  let fp := Z.abs (Z.rem (mant d) (pow10 (scale d))) in
  (if (mant d <? 0)%Z && (ip =? 0)%Z then "-" else "")
  ++ PyStr.of_Z ip ++ "."
  ++ (if (scale d =? 0)%nat then "0" else PyStr.zero_pad (scale d) fp).

Fixpoint leading_digits (l : list ascii) : list ascii * list ascii :=
  match l with
  | c :: r =>
      if PyStr.is_digit c
      then (c :: fst (leading_digits r), snd (leading_digits r))
      else ([], l)
  | [] => ([], [])
  end.

(** digits, then optionally a point and digits *)
Definition parse_unsigned (l : list ascii) : option dec :=
  match fst (leading_digits l), snd (leading_digits l) with
  | [], _ => None
  | ip, [] => Some {| mant := PyStr.int_of_digits (PyStr.of_chars ip); scale := 0 |}
  | ip, "."%char :: fp =>
      if forallb PyStr.is_digit fp
      then Some {| mant := PyStr.int_of_digits (PyStr.of_chars (ip ++ fp));
                   scale := length fp |}
      else None
  | _, _ => None
  end.

Definition dec_of_str (s : string) : option dec :=
  match PyStr.chars (PyStr.strip s) with
  | "-"%char :: l =>
      match parse_unsigned l with
      | Some d => Some {| mant := - mant d; scale := scale d |}
      | None => None
      end
  | "+"%char :: l => parse_unsigned l
  | l => parse_unsigned l
  end.

(** The characters [start .. start + len) of a string. *)
Definition field_at (l : list ascii) (start len : nat) : list ascii :=
  take len (drop start l).

Definition is_char (l : list ascii) (c : ascii) : bool :=
  match l with
  | [x] => Ascii.eqb x c
  | _ => false
  end.

Definition number_at (l : list ascii) (start len : nat) : Z :=
  PyStr.int_of_digits (PyStr.of_chars (field_at l start len)).

(** [HH:MM:SS] *)
Definition time_ok (l : list ascii) : bool :=
  (length l =? 8)%nat
  && forallb PyStr.is_digit (field_at l 0 2 ++ field_at l 3 2 ++ field_at l 6 2)
  && is_char (field_at l 2 1) ":" && is_char (field_at l 5 1) ":"
  && (number_at l 0 2 <? 24)%Z && (number_at l 3 2 <? 60)%Z
  && (number_at l 6 2 <? 60)%Z.

(** [YYYY-MM-DD], alone or followed by a separator and a time. *)
Definition iso_year (s : string) : option Z :=
  let l := PyStr.chars s in
  if forallb PyStr.is_digit (take 4 l)
     && (10 <=? length l)%nat
     && forallb PyStr.is_digit (field_at l 5 2 ++ field_at l 8 2)
     && is_char (field_at l 4 1) "-" && is_char (field_at l 7 1) "-"
     && (1 <=? number_at l 0 4)%Z
     && (1 <=? number_at l 5 2)%Z && (number_at l 5 2 <=? 12)%Z
     && (1 <=? number_at l 8 2)%Z && (number_at l 8 2 <=? 31)%Z
     && match drop 10 l with
        | [] => true
        | _ :: t => time_ok t
        end
  then Some (number_at l 0 4)
  else None.

Lemma iso_year_digits s y :
  iso_year s = Some y ->
  forallb PyStr.is_digit (take 4 (PyStr.chars s)) = true
  /\ (4 <= String.length s)%nat.
Proof.
  unfold iso_year.
  assert (Hlen : String.length s = length (PyStr.chars s)).
  { unfold PyStr.chars. induction s; simpl; congruence. }
  rewrite Hlen.
  destruct (forallb PyStr.is_digit (take 4 (PyStr.chars s))); [|discriminate].
  destruct (10 <=? length (PyStr.chars s))%nat eqn:H10; [|discriminate].
  intros _. apply Nat.leb_le in H10. split; [reflexivity | lia].
Qed.

#[export] Instance runtime : PyRuntime := {|
  pyfloat := dec;
  float_truthy := fun d => negb (mant d =? 0)%Z;
  float_is_integer := dec_is_integer;
  float_to_int := dec_to_int;
  float_str := dec_str;
  float_of_str := dec_of_str;
  fromisoformat_year := iso_year;
  set_iter := remove_dups;
  fromisoformat_digits := iso_year_digits
|}.

End ExampleRuntime.

(** ** Conversion to the import-log format *)

(** [s.replace(old, new)] for a non-empty [old]: the occurrences are
    replaced from the left, without overlap.  [skip] counts the characters
    of an occurrence still to pass. *)
Fixpoint replace_from (old new : string) (skip : nat) (s : string) : string :=
  match s with
  | EmptyString => EmptyString
  | String c r =>
      match skip with
      | S k => replace_from old new k r
      | O =>
          if String.prefix old s
          then new ++ replace_from old new (String.length old - 1) r
          else String c (replace_from old new 0 r)
      end
  end.

Definition str_replace (s old new : string) : string := replace_from old new 0 s.

(** The digits of a decimal literal: groups of digits joined by single
    underscores. *)
Fixpoint int_body (prev_digit : bool) (l : list ascii) : bool :=
  match l with
  | [] => prev_digit
  | c :: r =>
      if PyStr.is_digit c then int_body true r
      else if Ascii.eqb c "_" then prev_digit && int_body false r
      else false
  end.

(** [int(s)] on the ASCII range; [ValueError] when the text is no decimal
    literal. *)
Definition py_int (s : string) : outcome Z :=
  let parse (sign : Z) (body : list ascii) : outcome Z :=
    if int_body false body
    then Ok (sign * PyStr.int_of_digits
                      (PyStr.of_chars
                         (filter (fun c => negb (Ascii.eqb c "_")) body)))%Z
    else Raised ("invalid literal for int() with base 10: '" ++ s ++ "'") in
  match PyStr.chars (PyStr.strip s) with
  | "+"%char :: body => parse 1%Z body
  | "-"%char :: body => parse (-1)%Z body
  | body => parse 1%Z body
  end.

(** An entry of [logs] and an entry of [warnings]. *)
Record import_log : Type := {
  il_rows : list nat;
  il_status : string;
  il_document : option string;
  il_message : string
}.

Record import_warning : Type := {
  iw_col : Z;
  iw_message : string;
  iw_type : string
}.

(** The value [message] holds for a sheet. *)
Record sheet_import : Type := {
  si_data_import : string;
  si_status : string;
  si_logs : list import_log;
  si_warnings : list import_warning
}.

(** The loop over the errors of a sheet: an entry with a positive row is
    logged, any other one becomes a warning on a column number. *)
Fixpoint convert_errors (errors : list json_error) (logs : list import_log)
    (warnings : list import_warning)
  : outcome (list import_log * list import_warning) :=
  match errors with
  | [] => Ok (logs, warnings)
  | err :: rest =>
      if (0 <? je_row err)%nat then
        convert_errors rest
          (logs ++ [{| il_rows := [je_row err]; il_status := "error";
                       il_document := None; il_message := je_message err |}])
          warnings
      else
        let col := je_column err in
        match (if PyStr.contains col "Column"
               then py_int (str_replace col "Column " "")
               else Ok 0%Z) with
        | Ok col_num =>
            convert_errors rest logs
              (warnings ++ [{| iw_col := col_num; iw_message := je_message err;
                               iw_type := "warning" |}])
        | Raised e => Raised e
        end
  end.

(** The loop over the sheet results; [now k] is the text of the time read
    for the [k]-th of them. *)
Fixpoint convert_sheets (now : nat -> string) (k : nat)
    (results : list sheet_result) (message : list (string * sheet_import))
  : outcome (list (string * sheet_import)) :=
  match results with
  | [] => Ok message
  | sheet_result :: rest =>
      let sheet_name := sr_sheet_name sheet_result in
      let errors := sr_json_errors sheet_result in
      match convert_errors errors [] [] with
      | Raised e => Raised e
      | Ok (logs, warnings) =>
          convert_sheets now (S k) rest
            (odict_set sheet_name
               {| si_data_import := sheet_name ++ " Import on " ++ now k;
                  si_status := if bool_decide (errors = []) then "Success"
                               else "Error";
                  si_logs := logs;
                  si_warnings := warnings |}
               message)
      end
  end.

(** [validation_result.get("sheet_results", [])] *)
Definition results_of (validation_result : response) : list sheet_result :=
  match validation_result with
  | Report rep => r_sheet_results rep
  | Failure _ _ _ => []
  end.

Definition convert_to_frappe_format (now : nat -> string)
    (validation_result : response) : outcome (list (string * sheet_import)) :=
  convert_sheets now 0 (results_of validation_result) [].

(** ** Predicates used in the statements *)


(** ** A site of towns, for any runtime

    The entity type [Student] refers to a [City]; the site holds four
    cities whose names start alike, and the one data row of the workbook
    names none of them. *)
Section Towns.
Context {RT : PyRuntime}.

Definition town_names : list string :=
  ["Kanpur"; "Kannauj"; "Kanchipuram"; "Kanyakumari"].

Definition town_meta : meta :=
  {| fields := [ {| label := Some "Name"; fieldname := Some "student_name";
                    fieldtype := "Data"; reqd := false; unique := false;
                    options := None |};
                 {| label := Some "City"; fieldname := Some "city";
                    fieldtype := "Link"; reqd := false; unique := false;
                    options := Some "City" |} ] |}.

Definition town_listing (dt : string) : option (list string) :=
  if String.eqb dt "DocType" then Some ["Student"; "City"]
  else if String.eqb dt "City" then Some town_names
  else if String.eqb dt "Student" then Some []
  else None.

Definition town_site : frappe :=
  {| db_exists := fun dt name =>
       match town_listing dt with
       | Some l => Ok (bool_decide (py_str name ∈ l))
       | None => Raised ("DocType " ++ dt ++ " not found")
       end;
     db_count := fun dt =>
       match town_listing dt with
       | Some l => Ok (Z.of_nat (length l))
       | None => Raised ("DocType " ++ dt ++ " not found")
       end;
     get_all := fun dt =>
       match town_listing dt with
       | Some l => Ok l
       | None => Raised ("DocType " ++ dt ++ " not found")
       end;
     get_meta := fun dt =>
       if String.eqb dt "Student" then Ok town_meta
       else Raised ("DocType " ++ dt ++ " not found") |}.

Definition town_book : workbook :=
  [ {| ws_title := "Student";
       ws_rows := [[CStr "Name"; CStr "City"]; [CStr "Asha"; CStr "Kan"]] |} ].

(** The suggestions of the errors of a report, in the order of the
    flattened list; [None] for a failure response or a raise. *)
Definition response_suggestions (r : result response * state)
  : option (list (option (list string))) :=
  match fst r with
  | Return (Report rep) => Some (map je_suggestions (r_errors rep))
  | _ => None
  end.

End Towns.

(** ** A small site for the worked examples *)
Module Examples.
Import ExampleRuntime.

Definition field (lbl fname ftype : string) (required : bool)
    (target : option string) : docfield :=
  {| label := Some lbl; fieldname := Some fname; fieldtype := ftype;
     reqd := required; unique := false; options := target |}.

(** The schema of the entity type [Student]. *)
Definition student_meta : meta :=
  {| fields := [ field "Name" "student_name" "Data" false None;
                 field "Email" "email" "Data" true None;
                 field "Country" "country" "Link" false (Some "Country");
                 field "City" "city" "Link" false (Some "City");
                 field "Year" "year" "Int" false None ] |}.

(** [Country] holds 6000 records, [City] three; [Broken] is registered
    as an entity type but every query on it raises. *)
Definition country_names : list string :=
  map (fun i => "Country " ++ PyStr.of_nat i) (seq 1 (Z.to_nat 6000)).

Definition city_names : list string := ["Delhi"; "Mumbai"; "Kanpur"].

Definition names_of (dt : string) : option (list string) :=
  if String.eqb dt "DocType" then Some ["Student"; "Country"; "City"; "Broken"]
  else if String.eqb dt "Country" then Some country_names
  else if String.eqb dt "City" then Some city_names
  else if String.eqb dt "Student" then Some []
  else None.

Definition site : frappe :=
  {| db_exists := fun dt name =>
       match names_of dt with
       | Some l => Ok (bool_decide (py_str name ∈ l))
       | None => Raised ("DocType " ++ dt ++ " not found")
       end;
     db_count := fun dt =>
       match names_of dt with
       | Some l => Ok (Z.of_nat (length l))
       | None => Raised ("DocType " ++ dt ++ " not found")
       end;
     get_all := fun dt =>
       match names_of dt with
       | Some l => Ok l
       | None => Raised ("DocType " ++ dt ++ " not found")
       end;
     get_meta := fun dt =>
       if String.eqb dt "Student" then Ok student_meta
       else Raised ("DocType " ++ dt ++ " not found") |}.

(** The context of a [Student] sheet with the given header row. *)
Definition student_ctx (headers : list string) (skip_links : bool) : sheet_ctx :=
  {| cx_doctype := "Student";
     cx_headers := headers;
     cx_required_columns := required_columns_of student_meta headers;
     cx_unique_columns := get_unique_columns student_meta headers;
     cx_primary_key := get_primary_key student_meta headers;
     cx_field_map := build_field_map student_meta headers;
     cx_skip_links := skip_links |}.

(** A sheet whose column "ID" is the primary key. *)
Definition keyed_ctx : sheet_ctx :=
  {| cx_doctype := "Student";
     cx_headers := ["ID"; "Name"];
     cx_required_columns := [];
     cx_unique_columns := [];
     cx_primary_key := Some "ID";
     cx_field_map := ∅;
     cx_skip_links := true |}.

(** A sheet [Student] of [n] data rows with a name and a blank e-mail. *)
Definition roster (n : nat) : list (list cell) :=
  map (fun i => [CStr ("Student " ++ PyStr.of_nat i); CStr ""]) (seq 1 n).

Definition roster_book : workbook :=
  [ {| ws_title := "Student";
       ws_rows := [CStr "Name"; CStr "Email"] :: roster 500 |} ].

(** A sheet of an entity type the site does not know, then a sheet of two
    valid rows. *)
Definition mixed_book : workbook :=
  [ {| ws_title := "Ghost"; ws_rows := [[CStr "Name"]; [CStr "x"]] |};
    {| ws_title := "Student";
       ws_rows := [[CStr "Name"; CStr "Email"];
                   [CStr "Asha"; CStr "a@x.in"];
                   [CStr "Bina"; CStr "b@x.in"]] |} ].

(** A clock on which a sheet has used 10 seconds up to row 349 and 61
    seconds from row 350 on. *)
Definition slow_clock : clock :=
  {| elapsed_total := fun _ => 1%Q;
     elapsed_sheet := fun _ r => if (r <? 350)%nat then 10%Q else 61%Q;
     today_year := 2025 |}.

(** A [Student] sheet of 120 data rows, and a clock on which every sheet
    is over its budget at its first checkpoint. *)
Definition short_book : workbook :=
  [ {| ws_title := "Student";
       ws_rows := [CStr "Name"; CStr "Email"] :: roster 120 |} ].

Definition expired_clock : clock :=
  {| elapsed_total := fun _ => 1%Q;
     elapsed_sheet := fun _ _ => 61%Q;
     today_year := 2025 |}.

(** A clock that never runs out, in the year 2025. *)
Definition calm_clock : clock :=
  {| elapsed_total := fun _ => 1%Q;
     elapsed_sheet := fun _ _ => 1%Q;
     today_year := 2025 |}.

(** A [Student] sheet whose rows name a city: one the site holds, one it
    does not. *)
Definition link_book : workbook :=
  [ {| ws_title := "Student";
       ws_rows := [[CStr "Name"; CStr "Email"; CStr "City"];
                   [CStr "Asha"; CStr "a@x.in"; CStr "Delhi"];
                   [CStr "Bina"; CStr "b@x.in"; CStr "Kanpu"]] |} ].

(** A [Student] sheet whose header row names a column twice. *)
Definition twin_book : workbook :=
  [ {| ws_title := "Student";
       ws_rows := [[CStr "Name"; CStr "Name"]; [CStr "Asha"; CStr "Bina"]] |} ].

(** A sheet whose column "Code" is unique. *)
Definition coded_ctx : sheet_ctx :=
  {| cx_doctype := "Student";
     cx_headers := ["Code"; "Name"];
     cx_required_columns := [];
     cx_unique_columns := ["Code"];
     cx_primary_key := None;
     cx_field_map := ∅;
     cx_skip_links := true |}.

(** The runtime of another worker process: as [runtime], but a set is
    iterated in the opposite order. *)
Definition reseeded : PyRuntime :=
  {| pyfloat := dec;
     float_truthy := fun d => negb (mant d =? 0)%Z;
     float_is_integer := dec_is_integer;
     float_to_int := dec_to_int;
     float_str := dec_str;
     float_of_str := dec_of_str;
     fromisoformat_year := iso_year;
     set_iter := fun l => rev (remove_dups l);
     fromisoformat_digits := iso_year_digits |}.

(** A clock on which the overall budget is used up from the start. *)
Definition late_clock : clock :=
  {| elapsed_total := fun _ => 121%Q;
     elapsed_sheet := fun _ _ => 1%Q;
     today_year := 2025 |}.

End Examples.

(** The call raises on the given site. *)
Definition call_raises `{RT : PyRuntime} (env : frappe) (c : db_call) : bool :=
  match c with
  | CallExists dt n => match db_exists env dt n with Raised _ => true | Ok _ => false end
  | CallCount dt => match db_count env dt with Raised _ => true | Ok _ => false end
  | CallGetAll dt => match get_all env dt with Raised _ => true | Ok _ => false end
  | CallGetMeta dt => match get_meta env dt with Raised _ => true | Ok _ => false end
  end.

(** The calls made to the backing store between two states. *)
Definition calls_since `{RT : PyRuntime} (s s' : state) : list db_call :=
  drop (length (db_log s)) (db_log s').

(** The forms the empty-row check takes for a placeholder, once the cell
    is stripped. *)
Definition placeholder_forms : list string := [""; "NA"; "N/A"; "na"; "n/a"].

(** A cell is blank or a placeholder: [None], or a value whose string
    form, stripped, is one of [placeholder_forms]. *)
Definition blank_or_placeholder `{RT : PyRuntime} (v : cell) : Prop :=
  v = CNone \/ PyStr.strip (py_str v) ∈ placeholder_forms.

(** The reading of "blank or placeholder" that ignores letter case:
    [None], or a value whose string form, stripped and lower-cased, is
    empty, "na" or "n/a". *)
Definition caseless_placeholder `{RT : PyRuntime} (v : cell) : bool :=
  match v with
  | CNone => true
  | _ => str_in (PyStr.lower (PyStr.strip (py_str v))) [""; "na"; "n/a"]
  end.

(** The codes of the entries a row appended to [json_errors]; [None] when
    the row raised. *)
Definition row_codes `{RT : PyRuntime} (r : result (row_report * tracker) * state)
  : option (list string) :=
  match fst r with
  | Return (rep, _) => Some (map je_code (rr_json_errors rep))
  | Throw _ => None
  end.

(** The codes [validate_datatypes] gives its errors. *)
Definition dt_codes : list string :=
  ["REQUIRED_FIELD_EMPTY"; "INVALID_YEAR"; "INVALID_YEAR_RANGE";
   "LINK_CONFIG_ERROR"; "LINK_NOT_FOUND"; "INVALID_INT"; "INVALID_FLOAT";
   "INVALID_DATE"; "INVALID_DATETIME"].

(** An error of [validate_datatypes] for a column: its column and its code. *)
Definition item_error (label : string) (e : dt_error) : Prop :=
  de_column e = label /\ de_code e ∈ dt_codes.

(** The accumulator [a'] is [a] with the entries [extra] appended, one
    short message for each. *)
Definition acc_grows (a a' : row_acc) (extra : list json_error) : Prop :=
  new_json_errors a' = (new_json_errors a ++ extra)%list
  /\ length (short_errors a') = (length (short_errors a) + length extra)%nat.

(** The entries the required-field loop appends for a row. *)
Definition required_entries `{RT : PyRuntime} (cx : sheet_ctx) (row_idx : nat)
    (row_dict : list (string * cell)) : list json_error :=
  flat_map (fun col => if in_blank_tuple (row_get row_dict col)
                       then [required_error cx row_idx col] else [])
    (cx_required_columns cx).

(** An entry of the primary-key or unique-column check: it is for a column
    whose cell is truthy. *)
Definition key_entry `{RT : PyRuntime} (cx : sheet_ctx) (row_idx : nat)
    (row_dict : list (string * cell)) (je : json_error) : Prop :=
  exists col, truthy (row_get row_dict col) = true
    /\ (je = duplicate_key_error cx row_idx col (row_get row_dict col)
        \/ je = duplicate_value_error cx row_idx col (row_get row_dict col)).

(** The row is sent to the empty-row branch. *)
Definition is_empty_row `{RT : PyRuntime} (cx : sheet_ctx) (row : list cell) : bool :=
  forallb (fun kv => is_empty_cell (snd kv)) (dict_zip (cx_headers cx) row).

(** The whole-row signature of a row of the sheet. *)
Definition signature_of `{RT : PyRuntime} (cx : sheet_ctx) (row : list cell)
  : list string :=
  row_signature (dict_zip (cx_headers cx) row).

(** What a row reports: [has_error], [error_count], and the column and
    code of each entry it appended; [None] when the row raised. *)
Definition row_summary `{RT : PyRuntime} (r : result (row_report * tracker) * state)
  : option (bool * nat * list (string * string)) :=
  match fst r with
  | Return (rep, _) =>
      Some (rr_has_error rep, rr_error_count rep,
            map (fun je => (je_column je, je_code je)) (rr_json_errors rep))
  | Throw _ => None
  end.

(** The row was given a [DUPLICATE_ROW] entry. *)
Definition flagged_duplicate `{RT : PyRuntime} (rep : row_report) : bool :=
  existsb (fun je => String.eqb (je_code je) (get_readable_error_code "DUPLICATE_ROW"))
    (rr_json_errors rep).


(** The computation never raises [ValidationTimeout]. *)
Definition no_timeout `{RT : PyRuntime} {A} (m : M A) : Prop :=
  forall s msg s', m s <> (Throw (ValidationTimeout msg), s').

(** The sheet budget is found exceeded at the checkpoint of row [r] of
    sheet number [k]. *)
Definition checkpoint_trips (clk : clock) (k r : nat) : Prop :=
  (r mod 100 = 0)%nat /\ (2 <= r)%nat
  /\ Qgt_bool (elapsed_sheet clk k r) SHEET_TIMEOUT = true.

(** What a sheet result says, entry by entry: name, success, error code,
    error count, row count, and the row, column and code of its errors. *)
Definition sheet_summary (r : sheet_result)
  : string * bool * option string * nat * nat * list (nat * string * string) :=
  (sr_sheet_name r, sr_success r, sr_error r, sr_error_count r, sr_total_rows r,
   map (fun je => (je_row je, je_column je, je_code je)) (sr_json_errors r)).

(** What a response says: [structure_valid], the totals, the flattened
    errors and the sheet results; [None] for a failure response or a raise. *)
Definition response_summary `{RT : PyRuntime} (r : result response * state)
  : option (bool * nat * nat * list (nat * string * string)
            * list (string * bool * option string * nat * nat
                    * list (nat * string * string))) :=
  match fst r with
  | Return (Report rep) =>
      Some (structure_valid rep, r_total_errors rep, r_total_rows rep,
            map (fun je => (je_row je, je_column je, je_code je)) (r_errors rep),
            map sheet_summary (r_sheet_results rep))
  | _ => None
  end.

(** The sheet result is one the coordinator leaves out of its totals: that
    of an unknown entity type or of a timeout. *)
Definition uncounted_result (r : sheet_result) : bool :=
  match sr_error r with
  | Some c => str_in c ["DOCTYPE_NOT_FOUND"; "TIMEOUT_ERROR"]
  | None => false
  end.

(** The error counts of the sheet results that are counted, summed. *)
Fixpoint counted_errors (l : list sheet_result) : nat :=
  match l with
  | [] => 0
  | r :: rest =>
      (if uncounted_result r then 0 else sr_error_count r) + counted_errors rest
  end.

(** The counters of the batch agree with its sheet results. *)
Definition stats_ok (st : overall_stats) : Prop :=
  total_errors st = counted_errors (sheet_results st)
  /\ forall r, r ∈ sheet_results st -> sr_error r = Some "DOCTYPE_NOT_FOUND" ->
       forall je, je ∈ sr_json_errors r -> je ∈ all_json_errors st.

(** A site that knows no entity type, and a workbook of one empty sheet. *)
Definition bare_site `{RT : PyRuntime} : frappe :=
  {| db_exists := fun _ _ => Ok false;
     db_count := fun _ => Ok 0%Z;
     get_all := fun _ => Ok [];
     get_meta := fun _ => Raised "not found" |}.

Definition ghost_book `{RT : PyRuntime} : workbook :=
  [ {| ws_title := "Ghost"; ws_rows := [] |} ].

(** The computation returned. *)
Definition returned `{RT : PyRuntime} {A} (r : result A * state) : bool :=
  match fst r with
  | Return _ => true
  | Throw _ => false
  end.

(** ** The reference cache against an unchanged backing store *)

(** What the cache holds for an entity type once it is materialised: the
    listed names, when the count and the listing succeed and the count is
    within the limit. *)
Definition canonical `{RT : PyRuntime} (env : frappe) (dt : string)
  : option (list string) :=
  match db_count env dt, get_all env dt with
  | Ok c, Ok names => if (LINK_CACHE_LIMIT <? c)%Z then None else Some names
  | _, _ => None
  end.

(** The module state agrees with the backing store: a cached entry is the
    canonical one, a recorded size is the count. *)
Definition consistent `{RT : PyRuntime} (env : frappe) (s : state) : Prop :=
  (forall dt l, link_cache s !! dt = Some l -> canonical env dt = Some l)
  /\ (forall dt c, link_cache_sizes s !! dt = Some c -> db_count env dt = Ok c).

(** The state is consistent, and the entity types of [D] are settled: the
    cache holds for each what it can ever hold. *)
Definition good `{RT : PyRuntime} (env : frappe) (D : list string) (s : state)
  : Prop :=
  consistent env s /\ forall dt, dt ∈ D -> link_cache s !! dt = canonical env dt.

(** On states that are good for [D] the computation gives the same result,
    and it keeps them good. *)
Definition rel `{RT : PyRuntime} {A} (env : frappe) (D : list string) (m : M A)
  : Prop :=
  forall s1 s2, good env D s1 -> good env D s2 ->
    fst (m s1) = fst (m s2) /\ good env D (snd (m s1)) /\ good env D (snd (m s2)).

(** The states the module can be in over a site: the initial one, and the
    one any run of the validation leaves. *)
Inductive populated `{RT : PyRuntime} (env : frappe) : state -> Prop :=
| populated_empty : populated env empty_state
| populated_run s clk wb skip :
    populated env s ->
    populated env (snd (validate_and_add_error_columns env clk wb skip s)).

(** The targets a field map can send a reference check to are in [D]. *)
Definition links_in (fm : gmap string docfield) (D : list string) : Prop :=
  forall k df, fm !! k = Some df -> fieldtype df = "Link" ->
    str_truthy (options df) = true -> default "" (options df) ∈ D.

(** The computation keeps the states that are good for [D] good. *)
Definition keeps `{RT : PyRuntime} {A} (env : frappe) (D : list string) (m : M A)
  : Prop :=
  forall s, good env D s -> good env D (snd (m s)).

(** The computation leaves the module state as it found it: no call to
    the store, no change of the cache. *)
Definition silent `{RT : PyRuntime} {A} (m : M A) : Prop :=
  forall s, snd (m s) = s.

(** The worksheet [process_sheet_with_validation] reads for an entity
    type: the one whose title the sheet map gives for the normalised
    name. *)
Definition sheet_of `{RT : PyRuntime} (wb : workbook) (doctype : string)
  : option worksheet :=
  match dict_of (map (fun s => (sheet_key s, s)) (sheetnames wb)) !! sheet_key doctype with
  | Some title => workbook_get wb title
  | None => None
  end.

(** The column names read off a header row. *)
Definition header_names `{RT : PyRuntime} (header_row : list cell) : list string :=
  map (fun h => PyStr.strip (py_str h)) (filter truthy header_row).

(** The computation ended in the timeout of the sheet budget. *)
Definition timed_out `{RT : PyRuntime} {A} (r : result A * state) : bool :=
  match fst r with
  | Throw (ValidationTimeout _) => true
  | _ => false
  end.

(** The state [s] after one call to the store. *)
Definition logged `{RT : PyRuntime} (s : state) (c : db_call) : state :=
  {| link_cache := link_cache s; link_cache_sizes := link_cache_sizes s;
     db_log := db_log s ++ [c] |}.

(** The entries of a sheet's error list fall in groups, one for each data
    row in order, the group of the [i]-th row holding entries of
    spreadsheet row [i + 2] of the sheet. *)
Definition grouped_by_row (doctype : string) (n : nat) (l : list json_error)
  : Prop :=
  exists groups : list (list json_error),
    length groups = n /\ l = concat groups
    /\ forall i g, groups !! i = Some g ->
         Forall (fun je => je_row je = (i + 2)%nat /\ je_sheet je = doctype) g.

(** A key of the field map is bound to a field by the field's label. *)
Definition by_label (fm : gmap string docfield) (k : string) : Prop :=
  exists d, fm !! k = Some d /\ str_truthy (label d) = true
            /\ clean_header (default "" (label d)) = k.

(** The key under which a field enters the field map: that of its label
    or that of its field name. *)
Definition by_attr (k : string) (d : docfield) : Prop :=
  (str_truthy (label d) = true /\ k = clean_header (default "" (label d)))
  \/ (str_truthy (fieldname d) = true /\ k = clean_header (default "" (fieldname d))).

(** An entry of an error list is for a data row, or it is the sheet-level
    entry of a failed sheet. *)
Definition entry_ok (je : json_error) : Prop :=
  (2 <= je_row je)%nat \/ (je_row je = 0%nat /\ je_column je = "Sheet").

(** The error count of a sheet result is the length of its error list,
    and the entries of the list are of the two kinds. *)
Definition result_ok (r : sheet_result) : Prop :=
  sr_error_count r = length (sr_json_errors r)
  /\ Forall entry_ok (sr_json_errors r).

(** The entry [e] of the import log under [name] renders the sheet result
    [r]: its status says whether the sheet has errors, its logs and
    warnings are as many as the errors, a log is for one data row, a
    warning is on column 0. *)
Definition converted (r : sheet_result) (name : string) (e : sheet_import) : Prop :=
  name = sr_sheet_name r
  /\ si_status e = (if (sr_error_count r =? 0)%nat then "Success" else "Error")
  /\ (length (si_logs e) + length (si_warnings e) = sr_error_count r)%nat
  /\ Forall (fun l => il_status l = "error" /\ il_document l = None
                      /\ exists row, il_rows l = [row] /\ (2 <= row)%nat) (si_logs e)
  /\ Forall (fun w => iw_col w = 0%Z /\ iw_type w = "warning") (si_warnings e).

(** ** Primary keys over a sheet *)

(** The cell of a row in the primary-key column. *)
Definition key_cell `{RT : PyRuntime} (cx : sheet_ctx) (row : list cell) : cell :=
  match cx_primary_key cx with
  | Some pk => row_get (dict_zip (cx_headers cx) row) pk
  | None => CNone
  end.

(** The row takes part in the primary-key check: it is not an empty row,
    the sheet has a primary-key column, and the key cell is truthy and no
    placeholder. *)
Definition keyed_row `{RT : PyRuntime} (cx : sheet_ctx) (row : list cell) : bool :=
  negb (is_empty_row cx row)
  && match cx_primary_key cx with
     | Some pk => negb (String.eqb pk "") && truthy (key_cell cx row)
                  && negb (in_blank_tuple (key_cell cx row))
     | None => false
     end.

(** The key that is compared and recorded. *)
Definition key_of `{RT : PyRuntime} (cx : sheet_ctx) (row : list cell) : string :=
  PyStr.strip (py_str (key_cell cx row)).

(** The report of the row holds a duplicate-key entry. *)
Definition flagged_key `{RT : PyRuntime} (rep : row_report) : bool :=
  existsb (fun je => String.eqb (je_code je)
                       (get_readable_error_code "DUPLICATE_PRIMARY_KEY"))
    (rr_json_errors rep).

(** ** Unique columns over a sheet *)

(** The cell of a row in a column. *)
Definition cell_at `{RT : PyRuntime} (cx : sheet_ctx) (col : string)
    (row : list cell) : cell :=
  row_get (dict_zip (cx_headers cx) row) col.

(** The row takes part in the uniqueness check of the column: it is not an
    empty row and its cell is truthy and no placeholder. *)
Definition valued_row `{RT : PyRuntime} (cx : sheet_ctx) (col : string)
    (row : list cell) : bool :=
  negb (is_empty_row cx row)
  && truthy (cell_at cx col row) && negb (in_blank_tuple (cell_at cx col row)).

(** The value that is compared and recorded. *)
Definition value_of `{RT : PyRuntime} (cx : sheet_ctx) (col : string)
    (row : list cell) : string :=
  PyStr.strip (py_str (cell_at cx col row)).

(** The report of the row holds a duplicate-value entry for the column. *)
Definition flagged_value `{RT : PyRuntime} (col : string) (rep : row_report) : bool :=
  existsb (fun je => String.eqb (je_code je)
                       (get_readable_error_code "DUPLICATE_UNIQUE")
                     && String.eqb (je_column je) col)
    (rr_json_errors rep).

(** The values recorded for a unique column. *)
Definition seen_values (col : string) (tr : tracker) : list string :=
  default [] (seen_unique tr !! col).

(** ** Year fields *)








(** ** Sheets that reach the row loop *)

(** The header row passes the checks of the sheet processor: it names a
    column, has no blank cell and names no column twice. *)
Definition headers_ok `{RT : PyRuntime} (header_row : list cell) : bool :=
  negb (bool_decide (header_names header_row = []))
  && negb (existsb is_blank_header header_row)
  && bool_decide (NoDup (header_names header_row)).

(** What is fixed for the rows of a sheet, from its schema and headers. *)
Definition sheet_context `{RT : PyRuntime} (doctype : string) (skip_links : bool)
    (m : meta) (headers : list string) : sheet_ctx :=
  {| cx_doctype := doctype;
     cx_headers := headers;
     cx_required_columns := required_columns_of m headers;
     cx_unique_columns := get_unique_columns m headers;
     cx_primary_key := get_primary_key m headers;
     cx_field_map := build_field_map m headers;
     cx_skip_links := skip_links |}.

(** The state in which the row loop of a sheet starts, from the state [s]
    in which the sheet processor is called: the schema is loaded and,
    unless the reference checks are off, the caches are prefetched. *)
Definition rows_start `{RT : PyRuntime} (env : frappe) (doctype : string)
    (skip_links : bool) (m : meta) (s : state) : state :=
  snd ((if skip_links then ret tt else prefetch_link_caches env m)
         (logged s (CallGetMeta doctype))).

(** * Properties *)

(** ** Strings: decimal renderings are never blank *)

Lemma chars_of_chars l : PyStr.chars (PyStr.of_chars l) = l.
Proof. apply list_ascii_of_string_of_list_ascii. Qed.








Lemma str_in_elem s l : str_in s l = true <-> s ∈ l.
Proof.
  unfold str_in. rewrite existsb_exists. split.
  - intros (x & Hx & E). apply String.eqb_eq in E as ->. now apply list_elem_of_In.
  - intros H. exists s. split; [now apply list_elem_of_In | apply String.eqb_refl].
Qed.

(** ** Calls to the backing store *)

Section Calls.
Context {RT : PyRuntime}.

Lemma calls_since_app s l c q :
  calls_since s {| link_cache := c; link_cache_sizes := q;
                   db_log := db_log s ++ l |} = l.
Proof. unfold calls_since. simpl. apply drop_app_length. Qed.

Lemma calls_since_log s s' calls :
  db_log s' = (db_log s ++ calls)%list -> calls_since s s' = calls.
Proof. intros H. unfold calls_since. rewrite H. apply drop_app_length. Qed.

Lemma calls_since_refl s : calls_since s s = [].
Proof. unfold calls_since. apply drop_all. Qed.

End Calls.

(** ** Year fields *)

Section YearRule.
Context {RT : PyRuntime}.
Variable env : frappe.
Variable clk : clock.


Lemma fromisoformat_short s :
  (String.length s < 4)%nat -> fromisoformat_year s = None.
Proof.
  intros Hlen. destruct (fromisoformat_year s) as [y|] eqn:E; [|reflexivity].
  apply fromisoformat_digits in E. lia.
Qed.






End YearRule.


(** ** The reference existence check never raises *)

Section LinkExists.
Context {RT : PyRuntime}.
Variable env : frappe.

(** Closes a path of [link_exists]: the result is read off, and a call
    that raised on the path contradicts the outcome recorded for it. *)
Ltac close_path :=
  eexists _, _; split; [reflexivity|];
  split; [intros [?|?]; congruence|];
  split; [intros ?; try reflexivity; congruence|];
  intros c Hin Hr; try reflexivity;
  rewrite <- ?app_assoc in Hin;
  rewrite calls_since_app in Hin; simpl in Hin;
  repeat (apply elem_of_cons in Hin as [-> | Hin]);
  try (apply elem_of_nil in Hin; contradiction);
  simpl in Hr;
  repeat match goal with
    | H : db_exists env _ _ = _ |- _ => rewrite H in Hr; clear H
    | H : db_count env _ = _ |- _ => rewrite H in Hr; clear H
    | H : get_all env _ = _ |- _ => rewrite H in Hr; clear H
    end;
  discriminate.

(** C10.  [link_exists] always returns: it gives [False] when the entity
    type or the candidate is empty (and then touches nothing), when the
    entity type is not registered, and whenever a query it issued to the
    backing store raised. *)
Theorem link_exists_total doctype name case_sensitive s :
  exists b s',
    link_exists env doctype name case_sensitive s = (Return b, s')
    /\ (doctype = "" \/ truthy name = false -> b = false /\ s' = s)
    /\ (db_exists env "DocType" (CStr doctype) = Ok false -> b = false)
    /\ (forall c, c ∈ calls_since s s' -> call_raises env c = true -> b = false).
Proof.
  unfold link_exists.
  destruct (String.eqb doctype "") eqn:Hd.
  { simpl. exists false, s. repeat split; auto. }
  destruct (truthy name) eqn:Ht; simpl.
  2:{ exists false, s. repeat split; auto. }
  apply String.eqb_neq in Hd.
  unfold try_except, bind, frappe_db_exists, log_call, lift_outcome, ret, raise,
    sizes_get, cache_get. simpl.
  destruct (db_exists env "DocType" (CStr doctype)) as [[]|msg] eqn:Hdt; simpl;
    [|close_path|close_path].
  destruct (match link_cache_sizes s !! doctype with
            | Some n => (LINK_CACHE_LIMIT <? n)%Z
            | None => false
            end) eqn:Hlarge; simpl.
  { destruct (db_exists env doctype (CStr (PyStr.strip (py_str name))))
      as [b|msg] eqn:Hq; simpl; close_path. }
  destruct (link_cache s !! doctype) as [names|] eqn:Hc; simpl.
  { rewrite Hc. destruct case_sensitive; close_path. }
  unfold link_exists_fill, try_except, bind, frappe_db_count, frappe_db_exists,
    frappe_get_all, log_call, lift_outcome, ret, raise, sizes_set, cache_set. simpl.
  destruct (db_count env doctype) as [count|msg] eqn:Hcount; simpl; [|close_path].
  destruct (LINK_CACHE_LIMIT <? count)%Z eqn:Hlim; simpl.
  { destruct (db_exists env doctype name) as [b|msg] eqn:Hq; simpl; close_path. }
  destruct (get_all env doctype) as [names|msg] eqn:Hall; simpl; [|close_path].
  rewrite lookup_insert_eq. destruct case_sensitive; close_path.
Qed.
End LinkExists.

(** On the example site every query on [Broken] raises: the lookup answers
    [False]. *)
Lemma link_exists_total_witness :
  fst (link_exists Examples.site "Broken" (CStr "x") false empty_state) = Return false.
Proof.
  destruct (link_exists_total Examples.site "Broken" (CStr "x") false empty_state)
    as (b & s' & Heq & _ & _ & Hraise).
  rewrite Heq. simpl. f_equal.
  apply (Hraise (CallCount "Broken")); [|reflexivity].
  replace s' with (snd (link_exists Examples.site "Broken" (CStr "x") false empty_state))
    by (rewrite Heq; reflexivity).
  apply list_elem_of_In. hnf. right. hnf. left. reflexivity.
Defined.

(** ** Reference targets above the cache limit *)

Section LargeTarget.
Context {RT : PyRuntime}.
Variable env : frappe.

Ltac close_large :=
  eexists _, _, _; split; [reflexivity|];
  split; [reflexivity|];
  split; [simpl; rewrite <- ?app_assoc; reflexivity|];
  intros dt' Hin;
  repeat (apply elem_of_cons in Hin as [Hin | Hin]; [discriminate Hin|]);
  apply elem_of_nil in Hin; contradiction.

(** On a target above the cache limit that is not cached, [link_exists]
    leaves the cache alone and never lists the target. *)
Lemma link_exists_large dt name case_sensitive count s :
  db_count env dt = Ok count -> (LINK_CACHE_LIMIT < count)%Z ->
  link_cache s !! dt = None ->
  exists b s' calls,
    link_exists env dt name case_sensitive s = (Return b, s')
    /\ link_cache s' = link_cache s
    /\ db_log s' = (db_log s ++ calls)%list
    /\ forall dt', CallGetAll dt' ∉ calls.
Proof.
  intros Hcount Hgt Hc. apply Z.ltb_lt in Hgt.
  unfold link_exists.
  destruct (String.eqb dt "" || negb (truthy name)).
  { exists false, s, []. rewrite app_nil_r. repeat split; auto. intros dt'. apply not_elem_of_nil. }
  unfold try_except, bind, frappe_db_exists, log_call, lift_outcome, ret, raise,
    sizes_get, cache_get. simpl.
  destruct (db_exists env "DocType" (CStr dt)) as [[]|msg]; simpl;
    [|close_large|close_large].
  destruct (match link_cache_sizes s !! dt with
            | Some n => (LINK_CACHE_LIMIT <? n)%Z
            | None => false
            end); simpl.
  { destruct (db_exists env dt (CStr (PyStr.strip (py_str name)))) as [b|msg];
      simpl; close_large. }
  rewrite Hc. simpl.
  unfold link_exists_fill, try_except, bind, frappe_db_count, frappe_db_exists,
    log_call, lift_outcome, ret, raise, sizes_set. simpl.
  rewrite Hcount. simpl. rewrite Hgt. simpl.
  destruct (db_exists env dt name) as [b|msg]; simpl; close_large.
Qed.

Lemma suggestions_large dt name max count s :
  db_count env dt = Ok count -> (LINK_CACHE_LIMIT < count)%Z ->
  link_cache s !! dt = None ->
  exists s' calls,
    get_link_suggestions env dt name max s = (Return [], s')
    /\ link_cache s' = link_cache s
    /\ db_log s' = (db_log s ++ calls)%list
    /\ forall dt', CallGetAll dt' ∉ calls.
Proof.
  intros Hcount Hgt Hc.
  destruct (link_exists_large dt (CStr "__init__") false count s Hcount Hgt Hc)
    as (b & s' & calls & Hle & Hcache & Hlog & Hno).
  exists s', calls.
  unfold get_link_suggestions, bind, cache_get, try_except, ret. simpl.
  rewrite Hc. simpl. rewrite Hle. simpl. rewrite Hcache, Hc. auto.
Qed.

(** C3.  For a reference target whose record count exceeds the cache limit
    and that is not in the cache, resolving a candidate the backing store
    does not hold asks the store directly, lists or caches nothing, and
    yields [LINK_NOT_FOUND] with no suggestion. *)
Theorem large_target_direct_query df value label row_idx original dt count s :
  options df = Some dt -> dt <> "" -> truthy value = true ->
  db_count env dt = Ok count -> (LINK_CACHE_LIMIT < count)%Z ->
  db_exists env dt (CStr (PyStr.strip (py_str value))) = Ok false ->
  link_cache s !! dt = None ->
  exists s',
    validate_link_field env df value label row_idx false original s
    = (Return (Some {| de_row := row_idx; de_column := label;
                       de_code := "LINK_NOT_FOUND";
                       de_message := label ++ ": '" ++ py_str original
                                     ++ "' not found in " ++ dt;
                       de_suggestions := Some [] |}), s')
    /\ link_cache s' = link_cache s
    /\ CallExists dt (CStr (PyStr.strip (py_str value))) ∈ calls_since s s'
    /\ forall dt', CallGetAll dt' ∉ calls_since s s'.
Proof.
  intros Hopt Hne Ht Hcount Hgt Hex Hc.
  unfold validate_link_field. rewrite Ht, Hopt. simpl.
  apply String.eqb_neq in Hne. rewrite Hne. simpl.
  unfold bind, frappe_db_exists, bind, log_call, lift_outcome, ret, cache_get.
  simpl. rewrite Hex. simpl. rewrite Hc. simpl.
  set (s1 := {| link_cache := link_cache s; link_cache_sizes := link_cache_sizes s;
                db_log := db_log s ++ [CallExists dt (CStr (PyStr.strip (py_str value)))] |}).
  destruct (suggestions_large dt (PyStr.strip (py_str value)) 3 count s1 Hcount Hgt Hc)
    as (s' & calls & Hsug & Hcache & Hlog & Hno).
  exists s'. rewrite Hsug. simpl. split; [reflexivity|]. split; [exact Hcache|].
  assert (Hcalls : calls_since s s'
                   = CallExists dt (CStr (PyStr.strip (py_str value))) :: calls).
  { apply calls_since_log. rewrite Hlog. simpl. rewrite <- app_assoc. reflexivity. }
  rewrite Hcalls. split; [apply elem_of_cons; auto|].
  intros dt' Hin. apply elem_of_cons in Hin as [Hin|Hin]; [discriminate|].
  exact (Hno dt' Hin).
Qed.

End LargeTarget.

(** [Country] has 6000 records: after the prefetch for [Student], "Narnia"
    is looked up directly and comes back without suggestions. *)
Lemma large_target_direct_query_witness :
  let s := snd (prefetch_link_caches Examples.site Examples.student_meta empty_state) in
  exists s',
    validate_link_field Examples.site
      (Examples.field "Country" "country" "Link" false (Some "Country"))
      (CStr "Narnia") "Country" 2 false (CStr "Narnia") s
    = (Return (Some {| de_row := 2; de_column := "Country";
                       de_code := "LINK_NOT_FOUND";
                       de_message := "Country: 'Narnia' not found in Country";
                       de_suggestions := Some [] |}), s')
    /\ link_cache s' = link_cache s
    /\ CallExists "Country" (CStr "Narnia") ∈ calls_since s s'
    /\ forall dt', CallGetAll dt' ∉ calls_since s s'.
Proof.
  intros s.
  apply (large_target_direct_query Examples.site _ (CStr "Narnia") "Country" 2
           (CStr "Narnia") "Country" 6000 s).
  - reflexivity.
  - discriminate.
  - reflexivity.
  - vm_compute. reflexivity.
  - reflexivity.
  - vm_compute. reflexivity.
  - vm_compute. reflexivity.
Defined.

(** ** Row dictionaries *)

Section RowDict.
Context {A : Type}.
Implicit Types (d : list (string * A)) (k : string) (v : A).

Lemma odict_set_keys k v d :
  map fst (odict_set k v d)
  = if bool_decide (k ∈ map fst d) then map fst d else (map fst d ++ [k])%list.
Proof.
  induction d as [|[k' v'] d IH]; simpl; [reflexivity|].
  destruct (String.eqb k k') eqn:E.
  - apply String.eqb_eq in E as ->. simpl.
    rewrite bool_decide_eq_true_2 by (apply elem_of_cons; auto). reflexivity.
  - apply String.eqb_neq in E. simpl. rewrite IH.
    destruct (bool_decide (k ∈ map fst d)) eqn:B.
    + apply bool_decide_eq_true_1 in B.
      rewrite bool_decide_eq_true_2 by (apply elem_of_cons; auto). reflexivity.
    + apply bool_decide_eq_false_1 in B.
      rewrite bool_decide_eq_false_2; [reflexivity|].
      intros [?|?]%elem_of_cons; congruence.
Qed.

Lemma odict_set_NoDup k v d : NoDup (map fst d) -> NoDup (map fst (odict_set k v d)).
Proof.
  intros H. rewrite odict_set_keys. case_bool_decide as B; [exact H|].
  apply NoDup_app. split; [exact H|]. split.
  - intros x Hx [->|[]%elem_of_nil]%elem_of_cons. contradiction.
  - apply NoDup_singleton.
Qed.

Lemma odict_set_elem k v d kv :
  kv ∈ odict_set k v d -> kv = (k, v) \/ kv ∈ d.
Proof.
  induction d as [|[k' v'] d IH]; simpl.
  - intros [->|[]%elem_of_nil]%elem_of_cons. auto.
  - destruct (String.eqb k k').
    + intros [->|H]%elem_of_cons; [auto|]. right. apply elem_of_cons. auto.
    + intros [->|H]%elem_of_cons.
      * right. apply elem_of_cons. auto.
      * destruct (IH H) as [->|H']; [auto|]. right. apply elem_of_cons. auto.
Qed.

Lemma fold_odict_NoDup (l : list (string * A)) d :
  NoDup (map fst d) ->
  NoDup (map fst (fold_left (fun d kv => odict_set (fst kv) (snd kv) d) l d)).
Proof.
  revert d. induction l as [|kv l IH]; simpl; intros d H; [exact H|].
  apply IH. now apply odict_set_NoDup.
Qed.

Lemma fold_odict_elem (l : list (string * A)) d kv :
  kv ∈ fold_left (fun d kv => odict_set (fst kv) (snd kv) d) l d ->
  kv ∈ l \/ kv ∈ d.
Proof.
  revert d. induction l as [|[k v] l IH]; simpl; intros d H; [auto|].
  destruct (IH _ H) as [H'|H'].
  - left. apply elem_of_cons. auto.
  - destruct (odict_set_elem _ _ _ _ H') as [->|H'']; [|auto].
    left. apply elem_of_cons. auto.
Qed.

Lemma assoc_get_elem k v d : assoc_get k d = Some v -> (k, v) ∈ d.
Proof.
  induction d as [|[k' v'] d IH]; simpl; [discriminate|].
  destruct (String.eqb k k') eqn:E.
  - apply String.eqb_eq in E as ->. intros [= ->]. apply elem_of_cons. auto.
  - intros H. apply elem_of_cons. auto.
Qed.

Lemma assoc_get_NoDup k v d :
  NoDup (map fst d) -> (k, v) ∈ d -> assoc_get k d = Some v.
Proof.
  induction d as [|[k' v'] d IH]; simpl.
  - intros _ []%elem_of_nil.
  - intros Hnd Hin. apply NoDup_cons in Hnd as [Hk Hnd].
    apply elem_of_cons in Hin as [[= <- <-]|Hin].
    + now rewrite String.eqb_refl.
    + destruct (String.eqb k k') eqn:E; [|auto].
      apply String.eqb_eq in E as ->. exfalso. apply Hk.
      apply list_elem_of_fmap. exists (k', v). auto.
Qed.

End RowDict.

Section RowFacts.
Context {RT : PyRuntime}.

Lemma dict_zip_NoDup headers row : NoDup (map fst (dict_zip headers row)).
Proof. apply fold_odict_NoDup. constructor. Qed.

Lemma dict_zip_values headers row k v :
  (k, v) ∈ dict_zip headers row -> v ∈ row.
Proof.
  intros H. apply fold_odict_elem in H as [H|[]%elem_of_nil].
  apply list_elem_of_In in H. apply in_combine_r in H. now apply list_elem_of_In.
Qed.

End RowFacts.

(** ** Empty rows *)

Section EmptyRow.
Context {RT : PyRuntime}.
Variable env : frappe.
Variable clk : clock.

Lemma is_empty_cell_spec v : is_empty_cell v = true <-> blank_or_placeholder v.
Proof.
  unfold blank_or_placeholder, placeholder_forms.
  destruct v; unfold is_empty_cell; rewrite ?str_in_elem;
    intuition (try discriminate; auto).
Qed.

(** C5 (amended).  A row whose every cell is [None] or, once stripped, one
    of "", "NA", "N/A", "na", "n/a" yields exactly one error, [EMPTY_ROW],
    and leaves the duplicate tracker and the module state untouched. *)
Theorem empty_row_outcome cx row_idx row tr s :
  Forall blank_or_placeholder row ->
  exists rep,
    validate_row env clk cx row_idx row tr s = (Return (rep, tr), s)
    /\ rr_json_errors rep = [empty_row_error (cx_doctype cx) row_idx]
    /\ rr_error_count rep = 1%nat
    /\ rr_has_error rep = true.
Proof.
  intros Hrow. unfold validate_row.
  assert (Hall : forallb (fun kv => is_empty_cell (snd kv))
                   (dict_zip (cx_headers cx) row) = true).
  { apply forallb_forall. intros [k v] Hin. simpl.
    apply is_empty_cell_spec. rewrite Forall_forall in Hrow. apply Hrow.
    apply list_elem_of_In in Hin. eapply dict_zip_values; eauto. }
  rewrite Hall. eexists. split; [reflexivity|]. repeat split.
Qed.

End EmptyRow.

(** A row of a padded lower-case placeholder and an empty cell. *)
Lemma empty_row_outcome_witness :
  row_codes (validate_row Examples.site Examples.calm_clock
               (Examples.student_ctx ["Name"; "Email"] false) 2
               [CStr " na "; CNone] (new_tracker []) empty_state)
  = Some ["Empty Row"].
Proof.
  destruct (empty_row_outcome Examples.site Examples.calm_clock
              (Examples.student_ctx ["Name"; "Email"] false) 2
              [CStr " na "; CNone] (new_tracker []) empty_state) as (rep & Heq & Herr & _).
  - apply Forall_cons. split.
    + right. apply list_elem_of_In. vm_compute. tauto.
    + apply Forall_cons. split; [left; reflexivity | constructor].
  - unfold row_codes. rewrite Heq. simpl. rewrite Herr. reflexivity.
Defined.

(** C5 as stated fails: "Na" and "n/A" are placeholders up to letter case,
    yet the row is not reported as empty (it carries no error at all). *)
Lemma empty_row_counterexample :
  forallb (caseless_placeholder (RT := ExampleRuntime.runtime))
    [CStr "Na"; CStr "n/A"] = true
  /\ row_codes (validate_row Examples.site Examples.calm_clock
                  (Examples.student_ctx ["Name"; "Email"] false) 2
                  [CStr "Na"; CStr "n/A"] (new_tracker []) empty_state)
     = Some [].
Proof. split; vm_compute; reflexivity. Qed.

(** ** Computations *)

Section Monad.
Context {RT : PyRuntime}.

Lemma bind_inv {A B} (m : M A) (f : A -> M B) s b s' :
  bind m f s = (Return b, s') ->
  exists a s1, m s = (Return a, s1) /\ f a s1 = (Return b, s').
Proof. unfold bind. destruct (m s) as [[a|e] s1]; [eauto | discriminate]. Qed.

Lemma ret_inv {A} (a b : A) s s' : ret a s = (Return b, s') -> a = b /\ s = s'.
Proof. unfold ret. intros [= -> ->]. auto. Qed.

End Monad.

Lemma filter_none {A} (P : A -> Prop) `{!forall x, Decision (P x)} (l : list A) :
  (forall x, x ∈ l -> ~ P x) -> filter P l = [].
Proof.
  induction l as [|x l IH]; intros Hall; [reflexivity|].
  rewrite filter_cons_False by (apply Hall, elem_of_cons; auto).
  apply IH. intros y Hy. apply Hall, elem_of_cons. auto.
Qed.

(** ** Errors of the type rules *)

Section ItemShape.
Context {RT : PyRuntime}.
Variable env : frappe.
Variable clk : clock.

Lemma item_error_mk row_idx label code msg :
  code ∈ dt_codes -> item_error label (mk_error row_idx label code msg).
Proof. intros H. split; [reflexivity | exact H]. Qed.

Ltac code_in := apply list_elem_of_In; simpl; tauto.

Lemma validate_link_field_shape df value label row_idx skip original s e s' :
  validate_link_field env df value label row_idx skip original s = (Return (Some e), s') ->
  item_error label e.
Proof.
  unfold validate_link_field.
  destruct (skip || negb (truthy value)); [intros [= ]|].
  destruct (negb (str_truthy (options df))).
  { intros [= <- _]. split; [reflexivity | code_in]. }
  intros H. apply bind_inv in H as (found & s1 & _ & H).
  destruct found; [discriminate|].
  apply bind_inv in H as (existing & s2 & _ & H).
  match type of H with (if ?c then _ else _) _ = _ => destruct c end; [discriminate|].
  apply bind_inv in H as (sugg & s3 & _ & H).
  injection H as <- _. split; [reflexivity | code_in].
Qed.

Lemma numeric_date_checks_shape ft value label row_idx :
  Forall (item_error label) (numeric_date_checks ft value label row_idx).
Proof.
  unfold numeric_date_checks.
  repeat match goal with
    | |- context [if ?c then _ else _] => destruct c
    | |- context [match ?v with CNone => _ | _ => _ end] => destruct v
    end;
    repeat constructor; try code_in.
Qed.

Lemma validate_item_shape fm skip row_idx label value s errs s' :
  validate_item env clk fm skip row_idx label value s = (Return errs, s') ->
  Forall (item_error label) errs.
Proof.
  unfold validate_item.
  destruct (blank_for_datatypes value).
  { intros H. apply ret_inv in H as [<- _].
    destruct (is_optional_column label); repeat constructor; try code_in. }
  match goal with |- context [match ?d with Some _ => _ | None => _ end] => destruct d as [df|] end.
  2:{ intros [= <- _]. constructor. }
  intros H. apply bind_inv in H as ([year_errors done] & s1 & Hy & H).
  assert (Hye : Forall (item_error label) year_errors).
  { match type of Hy with (if ?c then _ else _) _ = _ => destruct c end.
    - apply bind_inv in Hy as (y & s0 & _ & Hy).
      destruct y as [y|]; injection Hy as <- _ _.
      + destruct (_ && _); repeat constructor; try code_in.
      + repeat constructor; try code_in.
    - injection Hy as <- _ _. constructor. }
  destruct done; [injection H as <- _; exact Hye|].
  destruct (String.eqb (fieldtype df) "Link").
  - apply bind_inv in H as (le & s2 & Hl & H). injection H as <- _.
    apply Forall_app. split; [exact Hye|].
    destruct le as [e|]; simpl; [|constructor].
    constructor; [eapply validate_link_field_shape; eauto | constructor].
  - injection H as <- _. apply Forall_app. split; [exact Hye|].
    apply numeric_date_checks_shape.
Qed.

Lemma validate_item_blank fm skip row_idx label value s :
  blank_for_datatypes value = true ->
  validate_item env clk fm skip row_idx label value s
  = (Return (if is_optional_column label then []
             else [mk_error row_idx label "REQUIRED_FIELD_EMPTY"
                     ("Field '" ++ label ++ "' is empty")]), s).
Proof. intros H. unfold validate_item. rewrite H. reflexivity. Qed.

Lemma validate_items_shape fm skip row_idx items s errs s' :
  validate_items env clk fm skip row_idx items s = (Return errs, s') ->
  Forall (fun e => exists label, label ∈ map fst items /\ item_error label e) errs.
Proof.
  revert s errs s'. induction items as [|[label value] items IH]; simpl; intros s errs s' H.
  - injection H as <- _. constructor.
  - apply bind_inv in H as (es & s1 & Hi & H).
    apply bind_inv in H as (rest & s2 & Hr & H). injection H as <- _.
    apply Forall_app. split.
    + eapply Forall_impl; [eapply validate_item_shape; eauto|].
      intros e He. exists label. split; [apply elem_of_cons; auto | exact He].
    + eapply Forall_impl; [eapply IH; eauto|].
      intros e (l & Hl & He). exists l. split; [apply elem_of_cons; auto | exact He].
Qed.

(** The errors of a blank cell among those of the row. *)
Lemma validate_items_blank_column fm skip row_idx items s errs s' col value :
  validate_items env clk fm skip row_idx items s = (Return errs, s') ->
  NoDup (map fst items) -> (col, value) ∈ items ->
  blank_for_datatypes value = true ->
  filter (fun e => de_column e = col) errs
  = if is_optional_column col then []
    else [mk_error row_idx col "REQUIRED_FIELD_EMPTY" ("Field '" ++ col ++ "' is empty")].
Proof.
  revert s errs s'. induction items as [|[label v] items IH];
    cbn [validate_items map fst]; intros s errs s' H Hnd Hin Hb.
  - apply elem_of_nil in Hin as [].
  - apply NoDup_cons in Hnd as [Hl Hnd].
    apply bind_inv in H as (es & s1 & Hi & H).
    apply bind_inv in H as (rest & s2 & Hr & H). injection H as <- _.
    rewrite filter_app.
    apply elem_of_cons in Hin as [[= <- <-]|Hin].
    + rewrite validate_item_blank in Hi by exact Hb. apply ret_inv in Hi as [<- _].
      assert (Hrest : filter (fun e => de_column e = col) rest = []).
      { apply filter_none. apply validate_items_shape in Hr.
        rewrite Forall_forall in Hr. intros e He Hc.
        destruct (Hr e He) as (l & Hlin & Hcol & _). apply Hl. congruence. }
      rewrite Hrest, app_nil_r.
      destruct (is_optional_column col); [reflexivity|].
      rewrite filter_cons_True by reflexivity. reflexivity.
    + assert (Hne : label <> col).
      { intros ->. apply Hl. apply list_elem_of_fmap. exists (col, value). auto. }
      assert (Hes : filter (fun e => de_column e = col) es = []).
      { apply filter_none. apply validate_item_shape in Hi.
        rewrite Forall_forall in Hi. intros e He Hc.
        destruct (Hi e He) as (Hcol & _). congruence. }
      rewrite Hes, app_nil_l. eapply IH; eauto.
Qed.

End ItemShape.

(** ** What a row appends to the error list *)

Section RowSteps.
Context {RT : PyRuntime}.
Variable env : frappe.
Variable clk : clock.

Lemma acc_grows_refl a : acc_grows a a [].
Proof. split; [now rewrite app_nil_r | simpl; lia]. Qed.

Lemma acc_grows_add a short detail failed je :
  acc_grows a (acc_add a short detail failed je) [je].
Proof. split; simpl; [reflexivity | rewrite length_app; simpl; lia]. Qed.

Lemma acc_grows_trans a b c x y :
  acc_grows a b x -> acc_grows b c y -> acc_grows a c (x ++ y).
Proof.
  intros [H1 L1] [H2 L2]. split.
  - rewrite H2, H1, app_assoc. reflexivity.
  - rewrite L2, L1, length_app. lia.
Qed.

Lemma required_fold cx row_idx rd cols a :
  acc_grows a (fold_left (required_step cx row_idx rd) cols a)
    (flat_map (fun col => if in_blank_tuple (row_get rd col)
                          then [required_error cx row_idx col] else []) cols).
Proof.
  revert a. induction cols as [|col cols IH]; intros a; simpl.
  - apply acc_grows_refl.
  - eapply acc_grows_trans; [|apply IH].
    unfold required_step. destruct (in_blank_tuple (row_get rd col)).
    + apply acc_grows_add.
    + apply acc_grows_refl.
Qed.

Lemma dtype_fold cx row_idx rd errs a :
  acc_grows a (fold_left (dtype_step cx row_idx rd) errs a)
    (map (dtype_json cx row_idx rd) errs).
Proof.
  revert a. induction errs as [|e errs IH]; intros a; simpl.
  - apply acc_grows_refl.
  - change (dtype_json cx row_idx rd e :: map (dtype_json cx row_idx rd) errs)
      with ([dtype_json cx row_idx rd e] ++ map (dtype_json cx row_idx rd) errs)%list.
    eapply acc_grows_trans; [|apply IH]. apply acc_grows_add.
Qed.

Lemma duplicate_row_step_spec cx row_idx rd a tr :
  let sig := row_signature rd in
  exists a',
    duplicate_row_step cx row_idx rd (a, tr)
    = (a', {| seen_rows := sig :: seen_rows tr;
              seen_unique := seen_unique tr;
              seen_primary := seen_primary tr |})
    /\ acc_grows a a'
         (if negb (bool_decide (sig = [])) && bool_decide (sig ∈ seen_rows tr)
          then [duplicate_row_error cx row_idx] else []).
Proof.
  intros sig. unfold duplicate_row_step. fold sig.
  destruct (negb (bool_decide (sig = [])) && bool_decide (sig ∈ seen_rows tr));
    eexists; (split; [reflexivity|]); [apply acc_grows_add | apply acc_grows_refl].
Qed.

Lemma primary_key_step_spec cx row_idx rd a tr :
  exists a' tr' extra,
    primary_key_step cx row_idx rd (a, tr) = (a', tr')
    /\ acc_grows a a' extra
    /\ Forall (key_entry cx row_idx rd) extra
    /\ seen_rows tr' = seen_rows tr.
Proof.
  unfold primary_key_step.
  destruct (cx_primary_key cx) as [pk|].
  2:{ exists a, tr, []. split; [reflexivity|]. split; [apply acc_grows_refl|]. split; [constructor | reflexivity]. }
  destruct (String.eqb pk "").
  { exists a, tr, []. split; [reflexivity|]. split; [apply acc_grows_refl|]. split; [constructor | reflexivity]. }
  destruct (truthy (row_get rd pk)) eqn:Ht; simpl.
  2:{ exists a, tr, []. split; [reflexivity|]. split; [apply acc_grows_refl|]. split; [constructor | reflexivity]. }
  destruct (negb (in_blank_tuple (row_get rd pk))).
  2:{ exists a, tr, []. split; [reflexivity|]. split; [apply acc_grows_refl|]. split; [constructor | reflexivity]. }
  destruct (bool_decide (PyStr.strip (py_str (row_get rd pk)) ∈ seen_primary tr)).
  - eexists _, _, [_]. split; [reflexivity|]. split; [apply acc_grows_add|].
    split; [|reflexivity]. repeat constructor. exists pk. auto.
  - eexists _, _, []. split; [reflexivity|]. split; [apply acc_grows_refl|]. split; [constructor | reflexivity].
Qed.

Lemma unique_step_spec cx row_idx rd a tr col :
  exists a' tr' extra,
    unique_step cx row_idx rd (a, tr) col = (a', tr')
    /\ acc_grows a a' extra
    /\ Forall (key_entry cx row_idx rd) extra
    /\ seen_rows tr' = seen_rows tr.
Proof.
  unfold unique_step.
  destruct (truthy (row_get rd col)) eqn:Ht; simpl.
  2:{ exists a, tr, []. split; [reflexivity|]. split; [apply acc_grows_refl|]. split; [constructor | reflexivity]. }
  destruct (negb (in_blank_tuple (row_get rd col))).
  2:{ exists a, tr, []. split; [reflexivity|]. split; [apply acc_grows_refl|]. split; [constructor | reflexivity]. }
  destruct (bool_decide (_ ∈ _)).
  - eexists _, _, [_]. split; [reflexivity|]. split; [apply acc_grows_add|].
    split; [|reflexivity]. repeat constructor. exists col. auto.
  - eexists _, _, []. split; [reflexivity|]. split; [apply acc_grows_refl|]. split; [constructor | reflexivity].
Qed.

Lemma unique_fold cx row_idx rd cols a tr :
  exists a' tr' extra,
    fold_left (unique_step cx row_idx rd) cols (a, tr) = (a', tr')
    /\ acc_grows a a' extra
    /\ Forall (key_entry cx row_idx rd) extra
    /\ seen_rows tr' = seen_rows tr.
Proof.
  revert a tr. induction cols as [|col cols IH]; intros a tr; cbn [fold_left].
  - exists a, tr, []. split; [reflexivity|]. split; [apply acc_grows_refl|]. split; [constructor | reflexivity].
  - destruct (unique_step_spec cx row_idx rd a tr col)
      as (a1 & tr1 & x1 & -> & G1 & F1 & S1).
    destruct (IH a1 tr1) as (a2 & tr2 & x2 & -> & G2 & F2 & S2).
    exists a2, tr2, (x1 ++ x2)%list. split; [reflexivity|].
    split; [eapply acc_grows_trans; eauto|].
    split; [apply Forall_app; auto | congruence].
Qed.

(** A row that is not empty: the entries it appends, in order, and the
    signature it adds to the tracker. *)
Lemma validate_row_inv cx row_idx row tr s rep tr' s' :
  is_empty_row cx row = false ->
  validate_row env clk cx row_idx row tr s = (Return (rep, tr'), s') ->
  let rd := dict_zip (cx_headers cx) row in
  exists errs late,
    validate_datatypes env clk rd row_idx (cx_skip_links cx) (cx_field_map cx) s
    = (Return errs, s')
    /\ rr_json_errors rep
       = (required_entries cx row_idx rd
          ++ map (dtype_json cx row_idx rd) errs
          ++ (if bool_decide (signature_of cx row ∈ seen_rows tr)
              then [duplicate_row_error cx row_idx] else [])
          ++ late)%list
    /\ Forall (key_entry cx row_idx rd) late
    /\ seen_rows tr' = signature_of cx row :: seen_rows tr
    /\ rr_error_count rep = length (rr_json_errors rep)
    /\ rr_has_error rep = (0 <? rr_error_count rep)%nat.
Proof.
  intros Hne H rd. unfold validate_row in H. unfold is_empty_row in Hne.
  rewrite Hne in H. fold rd in H.
  apply bind_inv in H as (errs & s1 & Hdt & H).
  apply ret_inv in H as [H ->].
  pose proof (f_equal fst H) as Hrep. pose proof (f_equal snd H) as Htr.
  cbn [fst snd] in Hrep, Htr. clear H. subst rep tr'.
  set (a1 := fold_left (required_step cx row_idx rd) (cx_required_columns cx) acc_empty).
  set (a2 := fold_left (dtype_step cx row_idx rd) errs a1).
  pose proof (required_fold cx row_idx rd (cx_required_columns cx) acc_empty) as G1.
  pose proof (dtype_fold cx row_idx rd errs a1) as G2. fold a1 in G1. fold a2 in G2.
  destruct (duplicate_row_step_spec cx row_idx rd a2 tr) as (a3 & -> & G3).
  match goal with |- context [primary_key_step _ _ _ (a3, ?t)] =>
    destruct (primary_key_step_spec cx row_idx rd a3 t) as (a4 & tr4 & x4 & -> & G4 & F4 & S4)
  end.
  destruct (unique_fold cx row_idx rd (cx_unique_columns cx) a4 tr4)
    as (a5 & tr5 & x5 & -> & G5 & F5 & S5).
  simpl in S4. simpl.
  assert (Hsig : negb (bool_decide (row_signature rd = [])) = true).
  { apply negb_true_iff, bool_decide_eq_false_2. unfold row_signature.
    intros Hnil. apply map_eq_nil in Hnil. unfold rd in Hnil.
    rewrite Hnil in Hne. discriminate Hne. }
  rewrite Hsig in G3. simpl in G3.
  pose proof (acc_grows_trans _ _ _ _ _ G1
               (acc_grows_trans _ _ _ _ _ G2
                  (acc_grows_trans _ _ _ _ _ G3
                     (acc_grows_trans _ _ _ _ _ G4 G5)))) as [Hj Hl].
  exists errs, (x4 ++ x5)%list. split; [exact Hdt|]. split; [exact Hj|].
  split; [apply Forall_app; auto|].
  split; [cbn [fst snd]; rewrite S5, S4; reflexivity|].
  cbn [fst snd report_of rr_error_count rr_json_errors rr_has_error].
  split; [rewrite Hl, Hj; reflexivity | reflexivity].
Qed.

End RowSteps.

(** ** A blank cell in a required column *)

Section RequiredBlank.
Context {RT : PyRuntime}.
Variable env : frappe.
Variable clk : clock.

Lemma filter_required_entries cx row_idx rd col :
  NoDup (cx_required_columns cx) -> col ∈ cx_required_columns cx ->
  in_blank_tuple (row_get rd col) = true ->
  filter (fun je => je_column je = col) (required_entries cx row_idx rd)
  = [required_error cx row_idx col].
Proof.
  unfold required_entries. generalize (cx_required_columns cx) as cols.
  induction cols as [|c cols IH]; intros Hnd Hin Hb.
  - apply elem_of_nil in Hin as [].
  - apply NoDup_cons in Hnd as [Hc Hnd]. simpl. rewrite filter_app.
    apply elem_of_cons in Hin as [<-|Hin].
    + rewrite Hb. rewrite filter_cons_True by reflexivity. rewrite filter_nil.
      simpl. f_equal. apply filter_none. intros je Hje Hcol.
      apply list_elem_of_In, in_flat_map in Hje as (c' & Hc' & Hje).
      destruct (in_blank_tuple (row_get rd c')); [|destruct Hje].
      destruct Hje as [<-|[]]. simpl in Hcol. subst c'.
      apply Hc. now apply list_elem_of_In.
    + rewrite IH by auto.
      assert (Hne : c <> col) by (intros ->; contradiction).
      destruct (in_blank_tuple (row_get rd c)); [|reflexivity].
      rewrite filter_cons_False by (simpl; congruence). reflexivity.
Qed.

Lemma filter_dtype_json cx row_idx rd col errs :
  filter (fun je => je_column je = col) (map (dtype_json cx row_idx rd) errs)
  = map (dtype_json cx row_idx rd) (filter (fun e => de_column e = col) errs).
Proof.
  induction errs as [|e errs IH]; [reflexivity|]. simpl.
  destruct (decide (de_column e = col)) as [Hc|Hc].
  - rewrite !filter_cons_True by exact Hc. simpl. now rewrite IH.
  - rewrite !filter_cons_False by exact Hc. exact IH.
Qed.

(** C2 (amended).  When a required column of a row that is not empty holds
    the empty string, the row carries a [REQUIRED_FIELD_EMPTY] error for
    that column from the required-field check and, unless the column is
    optional by its name, a second [REQUIRED_FIELD_EMPTY] error for the same
    cell from the type rules; no other check reports on that column, the
    row has an error, and its error count is at least two. *)
Theorem required_blank_cell cx row_idx row tr s rep tr' s' col :
  let rd := dict_zip (cx_headers cx) row in
  col ∈ cx_required_columns cx -> NoDup (cx_required_columns cx) ->
  col ∈ map fst rd -> row_get rd col = CStr "" ->
  col <> "Entire Row" ->
  is_empty_row cx row = false ->
  validate_row env clk cx row_idx row tr s = (Return (rep, tr'), s') ->
  let on_column := filter (fun je => je_column je = col) (rr_json_errors rep) in
  on_column
  = required_error cx row_idx col
    :: (if is_optional_column col then []
        else [dtype_json cx row_idx rd
                (mk_error row_idx col "REQUIRED_FIELD_EMPTY"
                   ("Field '" ++ col ++ "' is empty"))])
  /\ Forall (fun je => je_code je = get_readable_error_code "REQUIRED_FIELD_EMPTY")
       on_column
  /\ rr_has_error rep = true
  /\ (is_optional_column col = false -> 2 <= rr_error_count rep).
Proof.
  intros rd Hreq Hnd Hin Hval Hcol Hne Hrun on_column.
  destruct (validate_row_inv env clk cx row_idx row tr s rep tr' s' Hne Hrun)
    as (errs & late & Hdt & Hjson & Hlate & _ & Hcount & Hhas).
  fold rd in Hdt, Hjson, Hlate.
  assert (Hblank : in_blank_tuple (row_get rd col) = true) by (rewrite Hval; reflexivity).
  assert (Hon : on_column
                = required_error cx row_idx col
                  :: (if is_optional_column col then []
                      else [dtype_json cx row_idx rd
                              (mk_error row_idx col "REQUIRED_FIELD_EMPTY"
                                 ("Field '" ++ col ++ "' is empty"))])).
  { unfold on_column. rewrite Hjson, !filter_app.
    rewrite filter_required_entries by auto.
    rewrite filter_dtype_json.
    assert (Hitem : (col, CStr "") ∈ rd).
    { apply list_elem_of_fmap in Hin as ([k v] & -> & Hkv). simpl in *.
      erewrite <- (f_equal (fun v => (k, v))); [exact Hkv|].
      unfold row_get in Hval.
      rewrite (assoc_get_NoDup k v rd (dict_zip_NoDup _ _) Hkv) in Hval.
      exact Hval. }
    unfold validate_datatypes in Hdt.
    rewrite (validate_items_blank_column env clk _ _ _ _ _ _ _ _ _ Hdt
               (dict_zip_NoDup _ _) Hitem eq_refl).
    assert (Hdup : filter (fun je => je_column je = col)
                     (if bool_decide (signature_of cx row ∈ seen_rows tr)
                      then [duplicate_row_error cx row_idx] else []) = []).
    { destruct (bool_decide _); [|reflexivity].
      apply filter_none. intros je [->|[]%elem_of_nil]%elem_of_cons Hc.
      simpl in Hc. congruence. }
    assert (Hlt : filter (fun je => je_column je = col) late = []).
    { apply filter_none. intros je Hje Hc. rewrite Forall_forall in Hlate.
      destruct (Hlate je Hje) as (c & Ht & [->| ->]); simpl in Hc; subst c;
        rewrite Hval in Ht; discriminate. }
    rewrite Hdup, Hlt, !app_nil_r.
    destruct (is_optional_column col); reflexivity. }
  split; [exact Hon|]. split.
  { rewrite Hon. destruct (is_optional_column col); repeat constructor. }
  assert (Hlen : length on_column <= rr_error_count rep).
  { rewrite Hcount. apply length_filter. }
  rewrite Hon in Hlen. split.
  - rewrite Hhas. apply Nat.ltb_lt.
    destruct (is_optional_column col); cbn [length] in Hlen; lia.
  - intros Hopt. rewrite Hopt in Hlen. cbn [length] in Hlen. lia.
Qed.

End RequiredBlank.

(** The schema requires "Email"; the row has an empty "Email". *)
Lemma required_blank_cell_witness :
  match fst (validate_row Examples.site Examples.calm_clock
               (Examples.student_ctx ["Name"; "Email"] false) 2
               [CStr "Asha"; CStr ""] (new_tracker []) empty_state) with
  | Return (rep, _) =>
      length (filter (fun je => je_column je = "Email") (rr_json_errors rep)) = 2%nat
      /\ rr_has_error rep = true
  | Throw _ => False
  end.
Proof.
  assert (Hret : returned (validate_row Examples.site Examples.calm_clock
                             (Examples.student_ctx ["Name"; "Email"] false) 2
                             [CStr "Asha"; CStr ""] (new_tracker []) empty_state)
                 = true) by (vm_compute; reflexivity).
  destruct (validate_row Examples.site Examples.calm_clock
              (Examples.student_ctx ["Name"; "Email"] false) 2
              [CStr "Asha"; CStr ""] (new_tracker []) empty_state)
    as [[[rep tr']|e] s'] eqn:Hrun; cbn [fst].
  - destruct (required_blank_cell Examples.site Examples.calm_clock
                (Examples.student_ctx ["Name"; "Email"] false) 2
                [CStr "Asha"; CStr ""] (new_tracker []) empty_state rep tr' s' "Email")
      as (Hon & _ & Hhas & _).
    + vm_compute. apply list_elem_of_In. simpl. tauto.
    + vm_compute. repeat constructor. apply not_elem_of_nil.
    + vm_compute. apply list_elem_of_In. simpl. tauto.
    + reflexivity.
    + discriminate.
    + reflexivity.
    + exact Hrun.
    + rewrite Hon. split; [reflexivity | exact Hhas].
  - discriminate Hret.
Defined.

(** C2 as stated fails: the blank "Email" cell is reported twice, and the
    row's error count is 2. *)
Lemma required_blank_cell_counterexample :
  row_summary (validate_row Examples.site Examples.calm_clock
                 (Examples.student_ctx ["Name"; "Email"] false) 2
                 [CStr "Asha"; CStr ""] (new_tracker []) empty_state)
  = Some (true, 2%nat, [("Email", "Required Field Empty");
                        ("Email", "Required Field Empty")]).
Proof. vm_compute. reflexivity. Qed.

(** ** Duplicate rows *)

Section DuplicateRows.
Context {RT : PyRuntime}.
Variable env : frappe.
Variable clk : clock.

Lemma dt_code_not_duplicate code :
  code ∈ dt_codes ->
  String.eqb (get_readable_error_code code) (get_readable_error_code "DUPLICATE_ROW") = false.
Proof.
  intros H. unfold dt_codes in H.
  repeat (apply elem_of_cons in H as [->|H]); try reflexivity.
  apply elem_of_nil in H as [].
Qed.

Lemma existsb_false_Forall {A} (f : A -> bool) l :
  Forall (fun x => f x = false) l -> existsb f l = false.
Proof. induction 1 as [|x l Hx _ IH]; simpl; [reflexivity | now rewrite Hx, IH]. Qed.

(** The duplicate flag of a row that is not empty is the membership test
    on the signatures seen so far, and the row's signature is seen from
    then on. *)
Lemma validate_row_flag cx row_idx row tr s rep tr' s' :
  is_empty_row cx row = false ->
  validate_row env clk cx row_idx row tr s = (Return (rep, tr'), s') ->
  flagged_duplicate rep = bool_decide (signature_of cx row ∈ seen_rows tr)
  /\ seen_rows tr' = signature_of cx row :: seen_rows tr.
Proof.
  intros Hne Hrun.
  destruct (validate_row_inv env clk cx row_idx row tr s rep tr' s' Hne Hrun)
    as (errs & late & Hdt & Hjson & Hlate & Hseen & _).
  split; [|exact Hseen].
  unfold flagged_duplicate. rewrite Hjson, !existsb_app.
  assert (H1 : existsb (fun je => String.eqb (je_code je) (get_readable_error_code "DUPLICATE_ROW"))
                 (required_entries cx row_idx (dict_zip (cx_headers cx) row)) = false).
  { apply existsb_false_Forall. unfold required_entries.
    apply Forall_forall. intros je Hje.
    apply list_elem_of_In, in_flat_map in Hje as (c & _ & Hje).
    destruct (in_blank_tuple _); [|destruct Hje]. destruct Hje as [<-|[]]. reflexivity. }
  assert (H2 : existsb (fun je => String.eqb (je_code je) (get_readable_error_code "DUPLICATE_ROW"))
                 (map (dtype_json cx row_idx (dict_zip (cx_headers cx) row)) errs) = false).
  { apply existsb_false_Forall, Forall_fmap.
    unfold validate_datatypes in Hdt. apply validate_items_shape in Hdt.
    eapply Forall_impl; [exact Hdt|]. intros e (l & _ & _ & Hcode). simpl.
    now apply dt_code_not_duplicate. }
  assert (H3 : existsb (fun je => String.eqb (je_code je) (get_readable_error_code "DUPLICATE_ROW"))
                 late = false).
  { apply existsb_false_Forall. eapply Forall_impl; [exact Hlate|].
    intros je (c & _ & [->| ->]); reflexivity. }
  rewrite H1, H2, H3, orb_false_r. simpl.
  destruct (bool_decide _); reflexivity.
Qed.

Lemma validate_row_empty cx row_idx row tr s rep tr' s' :
  is_empty_row cx row = true ->
  validate_row env clk cx row_idx row tr s = (Return (rep, tr'), s') ->
  flagged_duplicate rep = false /\ tr' = tr.
Proof.
  intros He. unfold validate_row. unfold is_empty_row in He. rewrite He.
  intros H. apply ret_inv in H as [H _].
  pose proof (f_equal fst H) as Hrep. pose proof (f_equal snd H) as Htr.
  cbn [fst snd] in Hrep, Htr. subst rep tr'. split; reflexivity.
Qed.

(** A row is flagged exactly when it is not empty and its signature was
    seen: before the loop, or on an earlier row that was not empty. *)
Lemma process_rows_flags cx sheet_no rows :
  forall row_idx tr s reports s',
  process_rows env clk cx sheet_no row_idx rows tr s = (Return reports, s') ->
  length reports = length rows
  /\ forall j row rep,
       rows !! j = Some row -> reports !! j = Some rep ->
       (flagged_duplicate rep = true <->
        is_empty_row cx row = false
        /\ (signature_of cx row ∈ seen_rows tr
            \/ exists i row_i, (i < j)%nat /\ rows !! i = Some row_i
                 /\ is_empty_row cx row_i = false
                 /\ signature_of cx row_i = signature_of cx row)).
Proof.
  induction rows as [|row0 rest IH]; intros row_idx tr s reports s' H.
  - apply ret_inv in H as [<- _]. split; [reflexivity|]. intros j row rep Hj. discriminate Hj.
  - cbn [process_rows] in H.
    apply bind_inv in H as ([] & s0 & _ & H).
    apply bind_inv in H as ([rep0 tr1] & s1 & Hrow & H).
    apply bind_inv in H as (reports' & s2 & Hrest & H).
    apply ret_inv in H as [<- _]. cbn [fst snd] in *.
    destruct (IH _ _ _ _ _ Hrest) as [Hlen Hflags].
    split; [simpl; congruence|].
    assert (Hseen : forall sig, sig ∈ seen_rows tr1 <->
              sig ∈ seen_rows tr \/ (is_empty_row cx row0 = false /\ signature_of cx row0 = sig)).
    { intros sig. destruct (is_empty_row cx row0) eqn:He.
      - destruct (validate_row_empty _ _ _ _ _ _ _ _ He Hrow) as [_ ->].
        split; [auto | intros [?|[? _]]; [assumption | discriminate]].
      - destruct (validate_row_flag _ _ _ _ _ _ _ _ He Hrow) as [_ ->].
        rewrite elem_of_cons. split.
        + intros [->|?]; auto.
        + intros [?|[_ <-]]; auto. }
    intros [|j] row rep Hj Hr; simpl in Hj, Hr.
    + injection Hj as <-. injection Hr as <-.
      destruct (is_empty_row cx row0) eqn:He.
      * destruct (validate_row_empty _ _ _ _ _ _ _ _ He Hrow) as [-> _].
        split; [discriminate | intros [? _]; discriminate].
      * destruct (validate_row_flag _ _ _ _ _ _ _ _ He Hrow) as [-> _].
        rewrite bool_decide_eq_true. split.
        -- intros Hin. split; [reflexivity | left; exact Hin].
        -- intros [_ [Hin|(i & ? & Hi & _)]]; [exact Hin | lia].
    + rewrite (Hflags j row rep Hj Hr). rewrite Hseen.
      split; intros [Hne Hcase]; (split; [exact Hne|]).
      * destruct Hcase as [[Hin|[He0 Hs0]]|(i & row_i & Hi & Hri & Hei & Hsi)].
        -- left. exact Hin.
        -- right. exists 0%nat, row0. repeat split; auto. lia.
        -- right. exists (S i), row_i. repeat split; auto. lia.
      * destruct Hcase as [Hin|(i & row_i & Hi & Hri & Hei & Hsi)].
        -- left. left. exact Hin.
        -- destruct i as [|i]; simpl in Hri.
           ++ injection Hri as <-. left. right. auto.
           ++ right. exists i, row_i. repeat split; auto. lia.
Qed.

(** C6.  The row loop tests a row's signature against the seen set
    before it inserts it: among the rows of a sheet that reach the
    duplicate check (an entirely blank row is reported as an empty row and
    skips every further check), a row is flagged [DUPLICATE_ROW] exactly
    when an earlier such row has the same signature.  So the first row
    bearing a signature is never flagged, and every later row bearing it
    is. *)
Theorem duplicate_rows_flagged cx sheet_no row_idx rows tr s reports s' :
  seen_rows tr = [] ->
  process_rows env clk cx sheet_no row_idx rows tr s = (Return reports, s') ->
  length reports = length rows
  /\ forall j row rep,
       rows !! j = Some row -> reports !! j = Some rep ->
       (flagged_duplicate rep = true <->
        is_empty_row cx row = false
        /\ exists i row_i, (i < j)%nat /\ rows !! i = Some row_i
             /\ is_empty_row cx row_i = false
             /\ signature_of cx row_i = signature_of cx row).
Proof.
  intros Hseen Hrun.
  destruct (process_rows_flags _ _ _ _ _ _ _ _ Hrun) as [Hlen Hflags].
  split; [exact Hlen|]. intros j row rep Hj Hr.
  rewrite (Hflags j row rep Hj Hr), Hseen.
  split; intros [Hne Hcase]; (split; [exact Hne|]).
  - destruct Hcase as [Hin|Hex]; [|exact Hex]. apply elem_of_nil in Hin as [].
  - right. exact Hcase.
Qed.

End DuplicateRows.

(** Two different rows and a repetition of the first: the third is
    flagged. *)
Lemma duplicate_rows_flagged_witness :
  match fst (process_rows Examples.site Examples.calm_clock
               (Examples.student_ctx ["Name"; "Email"] false) 1 2
               [[CStr "Asha"; CStr "a@x.in"]; [CStr "Bina"; CStr "b@x.in"];
                [CStr "Asha"; CStr "a@x.in"]] (new_tracker []) empty_state) with
  | Return reports =>
      exists rep, reports !! 2%nat = Some rep /\ flagged_duplicate rep = true
  | Throw _ => False
  end.
Proof.
  assert (Hret : returned (process_rows Examples.site Examples.calm_clock
                             (Examples.student_ctx ["Name"; "Email"] false) 1 2
                             [[CStr "Asha"; CStr "a@x.in"]; [CStr "Bina"; CStr "b@x.in"];
                              [CStr "Asha"; CStr "a@x.in"]] (new_tracker []) empty_state)
                 = true) by (vm_compute; reflexivity).
  destruct (process_rows Examples.site Examples.calm_clock
              (Examples.student_ctx ["Name"; "Email"] false) 1 2
              [[CStr "Asha"; CStr "a@x.in"]; [CStr "Bina"; CStr "b@x.in"];
               [CStr "Asha"; CStr "a@x.in"]] (new_tracker []) empty_state)
    as [[reports|e] s'] eqn:Hrun; cbn [fst].
  - destruct (duplicate_rows_flagged Examples.site Examples.calm_clock _ _ _ _
                (new_tracker []) _ _ _ eq_refl Hrun) as [Hlen Hflags].
    destruct reports as [|r0 [|r1 [|r2 [|r3 reports]]]]; try discriminate Hlen.
    exists r2. split; [reflexivity|].
    apply (Hflags 2%nat [CStr "Asha"; CStr "a@x.in"] r2 eq_refl eq_refl).
    split; [reflexivity|].
    exists 0%nat, [CStr "Asha"; CStr "a@x.in"].
    repeat split; first [lia | reflexivity].
  - discriminate Hret.
Defined.

(** ** Normalisation of signatures and of primary keys *)

Section Normalisation.
Context {RT : PyRuntime}.

Lemma str_in_false s l : s ∉ l -> str_in s l = false.
Proof.
  intros H. destruct (str_in s l) eqn:E; [|reflexivity].
  apply str_in_elem in E. contradiction.
Qed.





End Normalisation.



(** ** Where a timeout can come from *)

Create HintDb no_timeout.

Section NoTimeout.
Context {RT : PyRuntime}.
Variable env : frappe.
Variable clk : clock.

Lemma no_timeout_ret {A} (a : A) : no_timeout (ret a).
Proof. intros s msg s' H. discriminate H. Qed.

Lemma no_timeout_raise {A} msg : no_timeout (raise (A := A) (PyException msg)).
Proof. intros s m s' H. discriminate H. Qed.

Lemma no_timeout_bind {A B} (m : M A) (f : A -> M B) :
  no_timeout m -> (forall a, no_timeout (f a)) -> no_timeout (bind m f).
Proof.
  intros Hm Hf s msg s' H. unfold bind in H.
  destruct (m s) as [[a|e] s1] eqn:E.
  - exact (Hf a s1 msg s' H).
  - injection H as -> ->. exact (Hm s msg s' E).
Qed.

Lemma no_timeout_try {A} (m : M A) (h : pyexn -> M A) :
  (forall e, no_timeout (h e)) -> no_timeout (try_except m h).
Proof.
  intros Hh s msg s' H. unfold try_except in H.
  destruct (m s) as [[a|e] s1]; [discriminate H | exact (Hh e s1 msg s' H)].
Qed.

Lemma no_timeout_lift {A} (o : outcome A) : no_timeout (lift_outcome o).
Proof. destruct o; [apply no_timeout_ret | apply no_timeout_raise]. Qed.

Lemma no_timeout_state {A} (f : state -> A * state) :
  no_timeout (fun s => (Return (fst (f s)), snd (f s))).
Proof. intros s msg s' H. discriminate H. Qed.

Ltac nt :=
  repeat first
    [ apply no_timeout_ret
    | apply no_timeout_raise
    | apply no_timeout_lift
    | apply no_timeout_try; intros ?
    | apply no_timeout_bind; [|intros ?]
    | progress (intros ? ? ? ?; discriminate)
    | match goal with
      | |- no_timeout (if ?c then _ else _) => destruct c
      | |- no_timeout (match ?x with _ => _ end) => destruct x
      | |- no_timeout (let '(_, _) := ?x in _) => destruct x
      end ].

Lemma no_timeout_log c : no_timeout (log_call c).
Proof. intros s msg s' H. discriminate H. Qed.

Lemma no_timeout_cache_get dt : no_timeout (cache_get dt).
Proof. intros s msg s' H. discriminate H. Qed.

Lemma no_timeout_cache_set dt l : no_timeout (cache_set dt l).
Proof. intros s msg s' H. discriminate H. Qed.

Lemma no_timeout_sizes_get dt : no_timeout (sizes_get dt).
Proof. intros s msg s' H. discriminate H. Qed.

Lemma no_timeout_sizes_set dt n : no_timeout (sizes_set dt n).
Proof. intros s msg s' H. discriminate H. Qed.

Lemma no_timeout_exists dt n : no_timeout (frappe_db_exists env dt n).
Proof. unfold frappe_db_exists. apply no_timeout_bind; [apply no_timeout_log | intros; nt]. Qed.

Lemma no_timeout_count dt : no_timeout (frappe_db_count env dt).
Proof. unfold frappe_db_count. apply no_timeout_bind; [apply no_timeout_log | intros; nt]. Qed.

Lemma no_timeout_get_all dt : no_timeout (frappe_get_all env dt).
Proof. unfold frappe_get_all. apply no_timeout_bind; [apply no_timeout_log | intros; nt]. Qed.

Lemma no_timeout_get_meta dt : no_timeout (frappe_get_meta env dt).
Proof. unfold frappe_get_meta. apply no_timeout_bind; [apply no_timeout_log | intros; nt]. Qed.

#[local] Hint Resolve no_timeout_log no_timeout_cache_get no_timeout_cache_set
  no_timeout_sizes_get no_timeout_sizes_set no_timeout_exists no_timeout_count
  no_timeout_get_all no_timeout_get_meta : no_timeout.

Ltac nt' := nt; auto with no_timeout.

Lemma no_timeout_link_exists dt name cs : no_timeout (link_exists env dt name cs).
Proof. unfold link_exists. nt'. Qed.

Lemma no_timeout_suggestions dt name n : no_timeout (get_link_suggestions env dt name n).
Proof. unfold get_link_suggestions. nt'. Qed.

Lemma no_timeout_link_field df value label row_idx skip original :
  no_timeout (validate_link_field env df value label row_idx skip original).
Proof.
  unfold validate_link_field. nt'; try apply no_timeout_suggestions.
Qed.

Lemma no_timeout_year value : no_timeout (validate_year_value value).
Proof. unfold validate_year_value. nt'. Qed.

Lemma no_timeout_item fm skip row_idx label value :
  no_timeout (validate_item env clk fm skip row_idx label value).
Proof.
  unfold validate_item. nt'; try apply no_timeout_year; try apply no_timeout_link_field.
Qed.

Lemma no_timeout_items fm skip row_idx items :
  no_timeout (validate_items env clk fm skip row_idx items).
Proof.
  induction items as [|[label value] items IH]; simpl; nt';
    try apply no_timeout_item.
Qed.

Lemma no_timeout_row cx row_idx row tr :
  no_timeout (validate_row env clk cx row_idx row tr).
Proof.
  unfold validate_row. nt'; try apply no_timeout_items.
Qed.

Lemma no_timeout_prefetch m : no_timeout (prefetch_link_caches env m).
Proof.
  unfold prefetch_link_caches. induction (set_iter (link_doctypes m)) as [|dt l IH]; simpl.
  - nt.
  - apply no_timeout_bind; [|intros; exact IH]. unfold prefetch_one. nt'.
Qed.

Lemma no_timeout_safe_meta dt : no_timeout (safe_get_meta env dt).
Proof. unfold safe_get_meta. nt'. Qed.

End NoTimeout.

(** ** The steps of a sheet before its rows *)

Section SheetSteps.
Context {RT : PyRuntime}.
Variable env : frappe.
Variable clk : clock.

(** Prefetching swallows what the store raises. *)
Lemma prefetch_one_returns dt s : fst (prefetch_one env dt s) = Return tt.
Proof.
  unfold prefetch_one, try_except.
  destruct (bind _ _ s) as [[[]|e] t]; reflexivity.
Qed.

Lemma for_each_prefetch_returns l : forall s,
  fst (for_each l (prefetch_one env) s) = Return tt.
Proof.
  induction l as [|dt r IH]; intros s; cbn [for_each]; [reflexivity|].
  unfold bind. pose proof (prefetch_one_returns dt s) as E.
  destruct (prefetch_one env dt s) as [res t]. cbn [fst] in E. subst res. apply IH.
Qed.

(** [safe_get_meta] makes its one call and returns. *)
Lemma safe_get_meta_run doctype s :
  safe_get_meta env doctype s
  = (Return (match get_meta env doctype with Ok m => Some m | Raised _ => None end),
     logged s (CallGetMeta doctype)).
Proof.
  unfold safe_get_meta, try_except, bind, frappe_get_meta, bind, log_call.
  destruct (get_meta env doctype); reflexivity.
Qed.

(** [process_sheet_with_validation] on the sheet it finds: it fails on a
    header defect, or hands the header names and the data rows on. *)
Lemma process_sheet_found wb doctype skip k s sheet :
  sheet_of wb doctype = Some sheet ->
  process_sheet_with_validation env clk wb doctype skip k s
  = try_except
      (match ws_rows sheet with
       | [] | [] :: _ =>
           ret (create_error_sheet doctype "NO_HEADER" "Header row missing")
       | header_row :: all_rows =>
           if bool_decide (header_names header_row = []) then
             ret (create_error_sheet doctype "EMPTY_HEADERS"
                    "The header row is empty or the sheet is blank.")
           else if existsb is_blank_header header_row then
             ret (create_error_sheet doctype "EMPTY_HEADERS"
                    "The header row contains blank cells between columns.")
           else if negb (bool_decide (NoDup (header_names header_row))) then
             ret (create_error_sheet doctype "DUPLICATE_HEADERS"
                    "The header row contains duplicate column names.")
           else process_validated_sheet env clk doctype skip k
                  (header_names header_row) all_rows
       end)
      (fun e => match e with
                | ValidationTimeout _ => raise e
                | PyException msg =>
                    ret (create_error_sheet doctype "PROCESSING_ERROR"
                           ("Unexpected error: " ++ msg))
                end) s.
Proof.
  unfold sheet_of, process_sheet_with_validation. intros Hs.
  destruct (dict_of _ !! _) as [title|]; [|discriminate Hs].
  rewrite Hs. reflexivity.
Qed.

End SheetSteps.

(** ** Sheets that run out of time *)

Section SheetTimeout.
Context {RT : PyRuntime}.
Variable env : frappe.
Variable clk : clock.

Lemma bind_throw_inv {A B} (m : M A) (f : A -> M B) s e s' :
  bind m f s = (Throw e, s') ->
  m s = (Throw e, s') \/ exists a s1, m s = (Return a, s1) /\ f a s1 = (Throw e, s').
Proof. unfold bind. destruct (m s) as [[a|e0] s1]; [eauto | intros [= -> ->]; auto]. Qed.

Lemma timeout_check_trips cx k row_idx s msg s' :
  (2 <= row_idx)%nat ->
  timeout_check clk cx k row_idx s = (Throw (ValidationTimeout msg), s') ->
  checkpoint_trips clk k row_idx.
Proof.
  intros Hge. unfold timeout_check.
  destruct (row_idx mod 100 =? 0)%nat eqn:Hm; [|discriminate].
  destruct (Qgt_bool _ _) eqn:Hq; [|discriminate].
  intros _. apply Nat.eqb_eq in Hm. repeat split; assumption.
Qed.

(** The row loop raises a timeout only at a checkpoint that trips. *)
Lemma process_rows_timeout cx k rows :
  forall row_idx tr s msg s',
  (2 <= row_idx)%nat ->
  process_rows env clk cx k row_idx rows tr s = (Throw (ValidationTimeout msg), s') ->
  exists r, (row_idx <= r < row_idx + length rows)%nat /\ checkpoint_trips clk k r.
Proof.
  induction rows as [|row rest IH]; intros row_idx tr s msg s' Hge H.
  - discriminate H.
  - cbn [process_rows] in H.
    apply bind_throw_inv in H as [H|([] & s0 & _ & H)].
    { exists row_idx. split; [simpl; lia|]. eapply timeout_check_trips; eauto. }
    apply bind_throw_inv in H as [H|([rep tr1] & s1 & _ & H)].
    { exfalso. eapply no_timeout_row; eauto. }
    apply bind_throw_inv in H as [H|(reports & s2 & _ & H)]; [|discriminate H].
    destruct (IH _ _ _ _ _ (Nat.le_trans _ _ _ Hge (Nat.le_succ_diag_r _)) H) as (r & Hr & Ht).
    exists r. split; [simpl; lia | exact Ht].
Qed.

Lemma process_validated_sheet_timeout doctype skip k headers all_rows s msg s' :
  process_validated_sheet env clk doctype skip k headers all_rows s
  = (Throw (ValidationTimeout msg), s') ->
  exists r, (2 <= r < 2 + length all_rows)%nat /\ checkpoint_trips clk k r.
Proof.
  unfold process_validated_sheet. intros H.
  apply bind_throw_inv in H as [H|(meta_opt & s0 & _ & H)].
  { exfalso. eapply no_timeout_safe_meta; eauto. }
  destruct meta_opt as [m|]; [|discriminate H].
  apply bind_throw_inv in H as [H|([] & s1 & _ & H)].
  { exfalso. destruct skip; [discriminate H | eapply no_timeout_prefetch; eauto]. }
  destruct (bool_decide _); [discriminate H|].
  apply bind_throw_inv in H as [H|(reports & s2 & _ & H)]; [|discriminate H].
  eapply process_rows_timeout; eauto.
Qed.

Lemma try_except_throw_inv {A} (m : M A) (h : pyexn -> M A) s e s' :
  try_except m h s = (Throw e, s') ->
  exists e0 s0, m s = (Throw e0, s0) /\ h e0 s0 = (Throw e, s').
Proof. unfold try_except. destruct (m s) as [[a|e0] s0]; [discriminate | eauto]. Qed.

(** [process_sheet_with_validation] lets one exception through: the
    timeout of the row loop. *)
Lemma process_sheet_throws wb doctype skip k s e s' :
  process_sheet_with_validation env clk wb doctype skip k s = (Throw e, s') ->
  exists msg r, e = ValidationTimeout msg /\ checkpoint_trips clk k r.
Proof.
  unfold process_sheet_with_validation. intros H.
  apply try_except_throw_inv in H as (e0 & s0 & Hin & Hh).
  destruct e0 as [msg|msg]; [|discriminate Hh]. injection Hh as <- <-.
  exists msg.
  destruct (dict_of _ !! _) as [title|]; [|discriminate Hin].
  destruct (workbook_get wb title) as [sheet|]; [|discriminate Hin].
  destruct (ws_rows sheet) as [|header_row all_rows]; [discriminate Hin|].
  destruct header_row as [|h0 hs]; [discriminate Hin|].
  repeat match type of Hin with
         | (if ?c then _ else _) _ = _ => destruct c; [discriminate Hin|]
         end.
  apply process_validated_sheet_timeout in Hin as (r & _ & Ht). eauto.
Qed.

(** When the rows before a checkpoint are processed without an exception
    and the checkpoint finds the budget exceeded, the row loop raises the
    timeout there, in the state the rows before it left. *)
Lemma process_rows_trips cx k pre row rest : forall row_idx tr s reports s1,
  process_rows env clk cx k row_idx pre tr s = (Return reports, s1) ->
  ((row_idx + length pre) mod 100 = 0)%nat ->
  Qgt_bool (elapsed_sheet clk k (row_idx + length pre)) SHEET_TIMEOUT = true ->
  process_rows env clk cx k row_idx (pre ++ row :: rest) tr s
  = (Throw (ValidationTimeout ("Sheet " ++ cx_doctype cx ++ " timeout")), s1).
Proof.
  induction pre as [|r0 pre IH]; intros row_idx tr s reports s1 Hrun Hmod Hq.
  - apply ret_inv in Hrun as [_ <-]. cbn [length] in Hmod, Hq.
    rewrite Nat.add_0_r in Hmod, Hq.
    cbn [app process_rows]. unfold bind, timeout_check.
    apply Nat.eqb_eq in Hmod. rewrite Hmod, Hq. reflexivity.
  - cbn [process_rows] in Hrun.
    apply bind_inv in Hrun as ([] & s0 & Hcheck & Hrun).
    apply bind_inv in Hrun as ([rep0 tr1] & s2 & Hrow & Hrun).
    apply bind_inv in Hrun as (reports' & s3 & Hrest & Hrun).
    apply ret_inv in Hrun as [_ <-]. cbn [fst snd] in Hrest.
    cbn [length] in Hmod, Hq.
    replace (row_idx + S (length pre))%nat with (S row_idx + length pre)%nat
      in Hmod, Hq by lia.
    change ((r0 :: pre) ++ row :: rest)%list with (r0 :: (pre ++ row :: rest))%list.
    cbn [process_rows]. unfold bind at 1. rewrite Hcheck.
    unfold bind at 1. rewrite Hrow. cbn [fst snd].
    unfold bind. rewrite (IH _ _ _ _ _ Hrest Hmod Hq). reflexivity.
Qed.

Lemma existsb_filter_valid (rows : list (list cell)) :
  existsb is_valid_row rows = true -> filter is_valid_row rows <> [].
Proof.
  intros Hex Hnil. apply existsb_exists in Hex as (r & Hin & Hv).
  assert (Hr : r ∈ filter is_valid_row rows).
  { apply list_elem_of_filter. split; [rewrite Hv; exact I | apply list_elem_of_In, Hin]. }
  rewrite Hnil in Hr. apply elem_of_nil in Hr as [].
Qed.

(** C1 (amended).  A sheet whose budget is found exceeded during row
    processing.  The entity type is registered, the header row passes the
    checks, the schema loads and some data row is not blank, so that the
    row loop runs; the rows before the [n]-th data row are processed
    without an exception; and at that row, whose index [n + 2] is a
    multiple of 100, the checkpoint finds the sheet budget exceeded.  Then
    the row loop raises the timeout, and the coordinator records for the
    sheet the distinct timed-out outcome: [success] false, error
    [TIMEOUT_ERROR], one synthetic sheet-level entry, [error_count] 1 and
    [total_rows] 0, whatever the rows before the cutoff reported; the
    totals of the batch are left as they were. *)
Theorem timed_out_sheet_outcome wb skip sheet_idx sheet_name st s s0
    sheet header_row all_rows m n reports s1 :
  check_doctype_exists env sheet_name s = (Return true, s0) ->
  sheet_of wb sheet_name = Some sheet ->
  ws_rows sheet = header_row :: all_rows ->
  headers_ok header_row = true ->
  get_meta env sheet_name = Ok m ->
  existsb is_valid_row all_rows = true ->
  (n < length all_rows)%nat ->
  let cx := sheet_context sheet_name skip m (header_names header_row) in
  process_rows env clk cx sheet_idx 2 (take n all_rows)
    (new_tracker (cx_unique_columns cx)) (rows_start env sheet_name skip m s0)
  = (Return reports, s1) ->
  checkpoint_trips clk sheet_idx (n + 2) ->
  let r := create_error_sheet sheet_name "TIMEOUT_ERROR"
             "Sheet processing exceeded 60s timeout" in
  process_sheet_with_validation env clk wb sheet_name skip sheet_idx s0
  = (Throw (ValidationTimeout ("Sheet " ++ sheet_name ++ " timeout")), s1)
  /\ process_one_sheet env clk wb skip sheet_idx sheet_name st s
     = (Return (record_aborted st r), s1)
  /\ sheet_results (record_aborted st r) = (sheet_results st ++ [r])%list
  /\ sr_success r = false /\ sr_error r = Some "TIMEOUT_ERROR"
  /\ sr_total_rows r = 0%nat /\ sr_error_count r = 1%nat
  /\ sr_json_errors r
     = [mk_json sheet_name 0 "Sheet" "Processing Timeout"
          "Sheet processing exceeded 60s timeout" "" "Processing Timeout"]
  /\ total_rows (record_aborted st r) = total_rows st
  /\ total_errors (record_aborted st r) = total_errors st
  /\ validated_sheets (record_aborted st r) = validated_sheets st.
Proof.
  intros Hex Hsheet Hrows Hhead Hmeta Hvalid Hn cx Hpre (Hmod & _ & Hq) r.
  assert (Hthrow : process_sheet_with_validation env clk wb sheet_name skip sheet_idx s0
                   = (Throw (ValidationTimeout ("Sheet " ++ sheet_name ++ " timeout")), s1)).
  { rewrite (process_sheet_found env clk _ _ _ _ _ _ Hsheet), Hrows.
    unfold headers_ok in Hhead.
    apply andb_true_iff in Hhead as [Hhead Hnd].
    apply andb_true_iff in Hhead as [Hne Hblank].
    apply negb_true_iff in Hne, Hblank.
    destruct header_row as [|h0 hs]; [discriminate Hne|].
    rewrite Hne, Hblank, Hnd. cbn [negb].
    unfold try_except, process_validated_sheet. unfold bind at 1.
    rewrite safe_get_meta_run, Hmeta.
    unfold bind at 1.
    assert (Hstart : (if skip then ret tt else prefetch_link_caches env m)
                       (logged s0 (CallGetMeta sheet_name))
                     = (Return tt, rows_start env sheet_name skip m s0)).
    { unfold rows_start. destruct skip; [reflexivity|].
      pose proof (for_each_prefetch_returns env (set_iter (link_doctypes m))
                    (logged s0 (CallGetMeta sheet_name))) as Hp.
      unfold prefetch_link_caches.
      destruct (for_each _ _ _) as [res t]. cbn [fst] in Hp. subst res. reflexivity. }
    rewrite Hstart.
    rewrite bool_decide_eq_false_2 by (apply existsb_filter_valid, Hvalid).
    fold (sheet_context sheet_name skip m (header_names (h0 :: hs))). fold cx.
    destruct (drop n all_rows) as [|row rest] eqn:Hdrop.
    { apply (f_equal length) in Hdrop. rewrite length_drop in Hdrop.
      cbn [length] in Hdrop. lia. }
    assert (Hsplit : all_rows = (take n all_rows ++ row :: rest)%list)
      by (rewrite <- Hdrop; symmetry; apply take_drop).
    assert (Hlen : length (take n all_rows) = n) by (rewrite length_take; lia).
    unfold bind. rewrite Hsplit at 1.
    rewrite (process_rows_trips cx sheet_idx (take n all_rows) row rest 2 _ _ _ _ Hpre).
    - reflexivity.
    - rewrite Hlen. replace (2 + n)%nat with (n + 2)%nat by lia. exact Hmod.
    - rewrite Hlen. replace (2 + n)%nat with (n + 2)%nat by lia. exact Hq. }
  split; [exact Hthrow|]. split.
  - unfold process_one_sheet, bind. rewrite Hex. cbn [negb].
    unfold try_except, bind. rewrite Hthrow. reflexivity.
  - repeat split.
Qed.

End SheetTimeout.

(** The [Student] sheet of 500 rows on the clock that runs out from row
    350 on: the data rows before the 399th, of index 2 to 399, are
    processed, and the checkpoint of row 400 trips. *)
Lemma timed_out_sheet_outcome_witness :
  let st0 := {| total_sheets := 1; validated_sheets := 0; total_errors := 0;
                total_rows := 0; sheet_results := []; all_json_errors := [] |} in
  match fst (process_one_sheet Examples.site Examples.slow_clock Examples.roster_book
               false 1 "Student" st0 empty_state) with
  | Return st' =>
      map sheet_summary (sheet_results st')
      = [("Student", false, Some "TIMEOUT_ERROR", 1%nat, 0%nat,
          [(0%nat, "Sheet", "Processing Timeout")])]
      /\ total_rows st' = 0%nat
  | Throw _ => False
  end.
Proof.
  intros st0.
  set (s0 := snd (check_doctype_exists (RT := ExampleRuntime.runtime)
                    Examples.site "Student" empty_state)).
  set (cx := sheet_context (RT := ExampleRuntime.runtime) "Student" false
               Examples.student_meta
               (header_names (RT := ExampleRuntime.runtime)
                  [CStr "Name"; CStr "Email"])).
  set (rows_run := process_rows (RT := ExampleRuntime.runtime) Examples.site Examples.slow_clock cx 1 2
                (take 398 (Examples.roster 500)) (new_tracker (cx_unique_columns cx))
                (rows_start Examples.site "Student" false Examples.student_meta s0)).
  assert (Hret : returned rows_run = true) by (vm_compute; reflexivity).
  destruct rows_run as [[reports|e] s1] eqn:Hrun; [|discriminate Hret].
  destruct (timed_out_sheet_outcome (RT := ExampleRuntime.runtime) Examples.site Examples.slow_clock
              Examples.roster_book false 1 "Student" st0 empty_state s0
              {| ws_title := "Student";
                 ws_rows := [CStr "Name"; CStr "Email"] :: Examples.roster 500 |}
              [CStr "Name"; CStr "Email"] (Examples.roster 500)
              Examples.student_meta 398 reports s1) as (_ & Hone & _).
  - apply injective_projections; [vm_compute; reflexivity | reflexivity].
  - reflexivity.
  - reflexivity.
  - vm_compute. reflexivity.
  - reflexivity.
  - vm_compute. reflexivity.
  - unfold Examples.roster. rewrite length_map, length_seq. lia.
  - exact Hrun.
  - split; [reflexivity|]. split; [lia | reflexivity].
  - rewrite Hone. cbn [fst]. split; reflexivity.
Defined.

(** C1 as stated fails: with the budget running out at row 350 of 500, the
    sheet's result has [total_rows] 0, not 349, and its error list holds
    the synthetic timeout entry alone, although the rows processed before
    the cutoff had errors (the first data row has two). *)
Lemma timed_out_sheet_counterexample :
  response_summary (validate_and_add_error_columns Examples.site Examples.slow_clock
                      Examples.roster_book "0" empty_state)
  = Some (true, 0%nat, 0%nat, [],
          [("Student", false, Some "TIMEOUT_ERROR", 1%nat, 0%nat,
            [(0%nat, "Sheet", "Processing Timeout")])])
  /\ row_summary (validate_row Examples.site Examples.slow_clock
                    (Examples.student_ctx ["Name"; "Email"] false) 2
                    [CStr "Student 1"; CStr ""] (new_tracker []) empty_state)
     = Some (true, 2%nat, [("Email", "Required Field Empty");
                           ("Email", "Required Field Empty")]).
Proof. split; vm_compute; reflexivity. Qed.

(** ** The totals of the batch report *)

Section BatchReport.
Context {RT : PyRuntime}.
Variable env : frappe.
Variable clk : clock.

Lemma counted_errors_app l r :
  counted_errors (l ++ [r])
  = (counted_errors l + (if uncounted_result r then 0 else sr_error_count r))%nat.
Proof. induction l as [|x l IH]; simpl; [lia | rewrite IH; lia]. Qed.

Lemma try_except_return_inv {A} (m : M A) (h : pyexn -> M A) s a s' :
  try_except m h s = (Return a, s') ->
  m s = (Return a, s')
  \/ exists e s0, m s = (Throw e, s0) /\ h e s0 = (Return a, s').
Proof. unfold try_except. destruct (m s) as [[a0|e] s0]; eauto. Qed.

Lemma process_validated_sheet_counted doctype skip k headers all_rows s r s' :
  process_validated_sheet env clk doctype skip k headers all_rows s = (Return r, s') ->
  uncounted_result r = false.
Proof.
  unfold process_validated_sheet. intros H.
  apply bind_inv in H as (meta_opt & s0 & _ & H).
  destruct meta_opt as [m|]; [|apply ret_inv in H as [<- _]; reflexivity].
  apply bind_inv in H as ([] & s1 & _ & H).
  destruct (bool_decide _); [apply ret_inv in H as [<- _]; reflexivity|].
  apply bind_inv in H as (reports & s2 & _ & H).
  apply ret_inv in H as [<- _]. reflexivity.
Qed.

(** A sheet result that [process_sheet_with_validation] returns is counted. *)
Lemma process_sheet_counted wb doctype skip k s r s' :
  process_sheet_with_validation env clk wb doctype skip k s = (Return r, s') ->
  uncounted_result r = false.
Proof.
  unfold process_sheet_with_validation. intros H.
  apply try_except_return_inv in H as [H|(e & s0 & _ & H)].
  - destruct (dict_of _ !! _) as [title|]; [|apply ret_inv in H as [<- _]; reflexivity].
    destruct (workbook_get wb title) as [sheet|]; [|discriminate H].
    destruct (ws_rows sheet) as [|header_row all_rows];
      [apply ret_inv in H as [<- _]; reflexivity|].
    destruct header_row as [|h0 hs]; [apply ret_inv in H as [<- _]; reflexivity|].
    repeat match type of H with
           | (if ?c then _ else _) _ = _ =>
               destruct c; [apply ret_inv in H as [<- _]; reflexivity|]
           end.
    eapply process_validated_sheet_counted; eauto.
  - destruct e as [msg|msg]; [discriminate H|].
    apply ret_inv in H as [<- _]. reflexivity.
Qed.

Lemma check_doctype_exists_returns name s :
  exists b s', check_doctype_exists env name s = (Return b, s').
Proof.
  unfold check_doctype_exists, try_except.
  destruct (frappe_db_exists env "DocType" (CStr name) s) as [[b|e] s']; eauto.
Qed.

Lemma stats_ok_unknown st name msg :
  stats_ok st ->
  stats_ok (record_unknown st (create_error_sheet name "DOCTYPE_NOT_FOUND" msg)).
Proof.
  intros [Ht Hin]. split; simpl.
  - rewrite counted_errors_app. simpl. lia.
  - intros r Hr He je Hje. apply elem_of_app.
    apply elem_of_app in Hr as [Hr|Hr].
    + left. eapply Hin; eauto.
    + apply list_elem_of_singleton in Hr as ->. right. exact Hje.
Qed.

Lemma stats_ok_processed st r :
  stats_ok st -> uncounted_result r = false -> stats_ok (record_processed st r).
Proof.
  intros [Ht Hin] Hc. split; simpl.
  - rewrite counted_errors_app, Hc. lia.
  - intros r' Hr He je Hje. apply elem_of_app.
    apply elem_of_app in Hr as [Hr|Hr].
    + left. eapply Hin; eauto.
    + apply list_elem_of_singleton in Hr as ->. right. exact Hje.
Qed.

Lemma stats_ok_timeout st name msg :
  stats_ok st ->
  stats_ok (record_aborted st (create_error_sheet name "TIMEOUT_ERROR" msg)).
Proof.
  intros [Ht Hin]. split; simpl.
  - rewrite counted_errors_app. simpl. lia.
  - intros r Hr He je Hje.
    apply elem_of_app in Hr as [Hr|Hr].
    + eapply Hin; eauto.
    + apply list_elem_of_singleton in Hr as ->. discriminate He.
Qed.

Lemma process_one_sheet_ok wb skip idx name st s :
  stats_ok st ->
  exists st' s', process_one_sheet env clk wb skip idx name st s = (Return st', s')
                 /\ stats_ok st'.
Proof.
  intros Hok. unfold process_one_sheet, bind.
  destruct (check_doctype_exists_returns name s) as (b & s0 & ->).
  destruct b; simpl.
  - unfold try_except, bind.
    destruct (process_sheet_with_validation env clk wb name skip idx s0)
      as [[r|e] s1] eqn:Hrun.
    + eexists _, _. split; [reflexivity|].
      apply stats_ok_processed; [exact Hok|]. eapply process_sheet_counted; eauto.
    + destruct (process_sheet_throws _ _ _ _ _ _ _ _ _ Hrun) as (msg & r & -> & _).
      eexists _, _. split; [reflexivity|]. now apply stats_ok_timeout.
  - eexists _, _. split; [reflexivity|]. now apply stats_ok_unknown.
Qed.

Lemma process_sheets_ok wb skip names :
  forall idx st s, stats_ok st ->
  exists st' s', process_sheets env clk wb skip idx names st s = (Return st', s')
                 /\ stats_ok st'.
Proof.
  induction names as [|name rest IH]; intros idx st s Hok; cbn [process_sheets].
  - eexists _, _. split; [reflexivity | exact Hok].
  - destruct (Qgt_bool _ _); [eexists _, _; split; [reflexivity | exact Hok]|].
    unfold bind.
    destruct (process_one_sheet_ok wb skip idx name st s Hok) as (st1 & s1 & -> & Hok1).
    apply IH. exact Hok1.
Qed.

End BatchReport.

(** C9.  The code at the failing input, and the sibling path beside it.
    A [Student] sheet of 120 rows whose budget is found exceeded at the
    checkpoint of row 100: the report is valid with a total of 0 errors,
    the sheet result holds the synthetic timeout entry, and the flattened
    error list is empty, so the entry is missing from it.  A sheet of an
    unknown entity type followed by a clean sheet: the report is valid
    with a total of 0 errors as well, and here the synthetic entry of the
    failed sheet is in the flattened error list. *)
Theorem timed_out_error_unlisted :
  response_summary (validate_and_add_error_columns Examples.site
                      Examples.expired_clock Examples.short_book "0" empty_state)
  = Some (true, 0%nat, 0%nat, [],
          [("Student", false, Some "TIMEOUT_ERROR", 1%nat, 0%nat,
            [(0%nat, "Sheet", "Processing Timeout")])])
  /\ response_summary (validate_and_add_error_columns Examples.site
                         Examples.calm_clock Examples.mixed_book "0" empty_state)
     = Some (true, 0%nat, 2%nat, [(0%nat, "Sheet", "DocType Not Found")],
             [("Ghost", false, Some "DOCTYPE_NOT_FOUND", 1%nat, 0%nat,
               [(0%nat, "Sheet", "DocType Not Found")]);
              ("Student", true, None, 0%nat, 2%nat, [])]).
Proof. split; vm_compute; reflexivity. Qed.

(** ** Runs against an unchanged backing store *)

Section Relational.
Context {RT : PyRuntime}.
Variable env : frappe.
Variable clk : clock.

Lemma good_weaken D s : good env D s -> good env [] s.
Proof. intros [Hc _]. split; [exact Hc|]. intros dt Hin. apply elem_of_nil in Hin as []. Qed.

Lemma good_log D s c :
  good env D s ->
  good env D {| link_cache := link_cache s; link_cache_sizes := link_cache_sizes s;
                db_log := db_log s ++ [c] |}.
Proof. intros H. exact H. Qed.

Lemma rel_ret {A} D (a : A) : rel env D (ret a).
Proof. intros s1 s2 H1 H2. simpl. auto. Qed.

Lemma rel_raise {A} D e : rel env D (raise (A := A) e).
Proof. intros s1 s2 H1 H2. simpl. auto. Qed.

Lemma rel_bind {A B} D (m : M A) (f : A -> M B) :
  rel env D m -> (forall a, rel env D (f a)) -> rel env D (bind m f).
Proof.
  intros Hm Hf s1 s2 H1 H2. destruct (Hm s1 s2 H1 H2) as (Hr & G1 & G2).
  unfold bind. destruct (m s1) as [[a1|e1] t1], (m s2) as [[a2|e2] t2];
    simpl in *; try discriminate.
  - injection Hr as <-. exact (Hf a1 t1 t2 G1 G2).
  - injection Hr as <-. auto.
Qed.

Lemma rel_try {A} D (m : M A) (h : pyexn -> M A) :
  rel env D m -> (forall e, rel env D (h e)) -> rel env D (try_except m h).
Proof.
  intros Hm Hh s1 s2 H1 H2. destruct (Hm s1 s2 H1 H2) as (Hr & G1 & G2).
  unfold try_except. destruct (m s1) as [[a1|e1] t1], (m s2) as [[a2|e2] t2];
    simpl in *; try discriminate.
  - auto.
  - injection Hr as <-. exact (Hh e1 t1 t2 G1 G2).
Qed.

Lemma rel_lift {A} D (o : outcome A) : rel env D (lift_outcome o).
Proof. destruct o; [apply rel_ret | apply rel_raise]. Qed.

Lemma rel_log D c : rel env D (log_call c).
Proof. intros s1 s2 H1 H2. simpl. auto. Qed.

Lemma rel_exists D dt n : rel env D (frappe_db_exists env dt n).
Proof. apply rel_bind; [apply rel_log | intros; apply rel_lift]. Qed.

Lemma rel_count D dt : rel env D (frappe_db_count env dt).
Proof. apply rel_bind; [apply rel_log | intros; apply rel_lift]. Qed.

Lemma rel_get_all D dt : rel env D (frappe_get_all env dt).
Proof. apply rel_bind; [apply rel_log | intros; apply rel_lift]. Qed.

Lemma rel_get_meta D dt : rel env D (frappe_get_meta env dt).
Proof. apply rel_bind; [apply rel_log | intros; apply rel_lift]. Qed.

Lemma rel_cache_get D dt : dt ∈ D -> rel env D (cache_get dt).
Proof.
  intros Hin s1 s2 H1 H2. simpl. split; [|auto].
  destruct H1 as [_ S1], H2 as [_ S2]. rewrite (S1 dt Hin), (S2 dt Hin). reflexivity.
Qed.

Lemma rel_weaken {A} D (m : M A) :
  rel env [] m -> (forall s, good env D s -> good env D (snd (m s))) -> rel env D m.
Proof.
  intros Hm Hk s1 s2 H1 H2.
  destruct (Hm s1 s2 (good_weaken _ _ H1) (good_weaken _ _ H2)) as (Hr & _ & _).
  auto.
Qed.

(** Recording a size that is the count, or caching the canonical entry,
    keeps a state good. *)
Lemma good_sizes_set D s dt c :
  db_count env dt = Ok c -> good env D s -> good env D (snd (sizes_set dt c s)).
Proof.
  intros Hc [[C1 C2] S]. split; [split|]; simpl; auto.
  intros dt' c'. destruct (decide (dt = dt')) as [<-|Hne].
  - rewrite lookup_insert_eq. intros [= <-]. exact Hc.
  - rewrite lookup_insert_ne by exact Hne. apply C2.
Qed.

Lemma good_cache_set D s dt names :
  canonical env dt = Some names -> good env D s ->
  good env D (snd (cache_set dt names s)).
Proof.
  intros Hc [[C1 C2] S]. split; [split|]; simpl; auto.
  - intros dt' l. destruct (decide (dt = dt')) as [<-|Hne].
    + rewrite lookup_insert_eq. intros [= <-]. exact Hc.
    + rewrite lookup_insert_ne by exact Hne. apply C1.
  - intros dt' Hin. destruct (decide (dt = dt')) as [<-|Hne].
    + rewrite lookup_insert_eq. symmetry. exact Hc.
    + rewrite lookup_insert_ne by exact Hne. apply S, Hin.
Qed.


Lemma keeps_ret {A} D (a : A) : keeps env D (ret a).
Proof. intros s H. exact H. Qed.

Lemma keeps_raise {A} D e : keeps env D (raise (A := A) e).
Proof. intros s H. exact H. Qed.

Lemma keeps_bind {A B} D (m : M A) (f : A -> M B) :
  keeps env D m -> (forall a, keeps env D (f a)) -> keeps env D (bind m f).
Proof.
  intros Hm Hf s H. specialize (Hm s H). unfold bind.
  destruct (m s) as [[a|e] t]; simpl in *; [apply Hf, Hm | exact Hm].
Qed.

Lemma keeps_try {A} D (m : M A) (h : pyexn -> M A) :
  keeps env D m -> (forall e, keeps env D (h e)) -> keeps env D (try_except m h).
Proof.
  intros Hm Hh s H. specialize (Hm s H). unfold try_except.
  destruct (m s) as [[a|e] t]; simpl in *; [exact Hm | apply Hh, Hm].
Qed.

Lemma keeps_exists D dt n : keeps env D (frappe_db_exists env dt n).
Proof.
  intros s H. unfold frappe_db_exists, bind, log_call. simpl.
  destruct (db_exists env dt n); exact H.
Qed.

(** A count that is used is the count of the store. *)
Lemma keeps_count {B} D dt (f : Z -> M B) :
  (forall c, db_count env dt = Ok c -> keeps env D (f c)) ->
  keeps env D (bind (frappe_db_count env dt) f).
Proof.
  intros Hf s H. unfold frappe_db_count, bind, log_call. simpl.
  destruct (db_count env dt) as [c|e] eqn:Hc; simpl.
  - apply (Hf c eq_refl). exact H.
  - exact H.
Qed.

Lemma keeps_get_all {B} D dt (f : list string -> M B) :
  (forall l, get_all env dt = Ok l -> keeps env D (f l)) ->
  keeps env D (bind (frappe_get_all env dt) f).
Proof.
  intros Hf s H. unfold frappe_get_all, bind, log_call. simpl.
  destruct (get_all env dt) as [c|e] eqn:Hc; simpl.
  - apply (Hf c eq_refl). exact H.
  - exact H.
Qed.

Lemma keeps_sizes_set D dt c :
  db_count env dt = Ok c -> keeps env D (sizes_set dt c).
Proof. intros Hc s H. apply good_sizes_set; assumption. Qed.

Lemma keeps_cache_set D dt names :
  canonical env dt = Some names -> keeps env D (cache_set dt names).
Proof. intros Hc s H. apply good_cache_set; assumption. Qed.

Lemma keeps_cache_get D dt : keeps env D (cache_get dt).
Proof. intros s H. exact H. Qed.

Lemma keeps_sizes_get D dt : keeps env D (sizes_get dt).
Proof. intros s H. exact H. Qed.

Lemma canonical_small dt c names :
  db_count env dt = Ok c -> (LINK_CACHE_LIMIT <? c)%Z = false ->
  get_all env dt = Ok names -> canonical env dt = Some names.
Proof. intros Hc Hl Hn. unfold canonical. rewrite Hc, Hn, Hl. reflexivity. Qed.

Lemma keeps_link_exists_fill D dt name : keeps env D (link_exists_fill env dt name).
Proof.
  unfold link_exists_fill. apply keeps_try; [|intros; apply keeps_ret].
  apply keeps_count. intros c Hc.
  destruct (LINK_CACHE_LIMIT <? c)%Z eqn:Hl.
  - apply keeps_bind; [apply keeps_sizes_set, Hc|]. intros _.
    apply keeps_bind; [apply keeps_exists | intros; apply keeps_ret].
  - apply keeps_get_all. intros names Hn.
    apply keeps_bind; [|intros; apply keeps_ret].
    apply keeps_cache_set. eapply canonical_small; eauto.
Qed.

Lemma keeps_link_exists D dt name cs : keeps env D (link_exists env dt name cs).
Proof.
  unfold link_exists. destruct (_ || _); [apply keeps_ret|].
  apply keeps_try; [|intros; apply keeps_ret].
  apply keeps_bind; [apply keeps_exists|]. intros is_dt.
  destruct (negb is_dt); [apply keeps_ret|].
  apply keeps_bind; [apply keeps_sizes_get|]. intros size.
  destruct (match size with Some n => _ | None => false end);
    [apply keeps_exists|].
  apply keeps_bind; [apply keeps_cache_get|]. intros cached.
  apply keeps_bind.
  { destruct cached; [apply keeps_ret | apply keeps_link_exists_fill]. }
  intros [b|]; [apply keeps_ret|].
  apply keeps_bind; [apply keeps_cache_get|]. intros [names|]; [|apply keeps_raise].
  destruct cs; apply keeps_ret.
Qed.

(** [link_exists] returns: it raises nothing. *)
Lemma link_exists_returns dt name cs s :
  exists b, fst (link_exists env dt name cs s) = Return b.
Proof.
  unfold link_exists. destruct (_ || _); [eexists; reflexivity|].
  unfold try_except. destruct (bind _ _ s) as [[b|e] t]; eexists; reflexivity.
Qed.

(** Suggestions for a settled entity type do not depend on the state. *)
Lemma rel_get_link_suggestions D dt name n :
  dt ∈ D -> rel env D (get_link_suggestions env dt name n).
Proof.
  intros Hin s1 s2 H1 H2. unfold get_link_suggestions.
  assert (Hone : forall s, good env D s ->
            exists t, get_link_suggestions env dt name n s
            = (Return (match canonical env dt with
                       | Some names =>
                           collect_suggestions n (PyStr.lower name) (set_iter names) []
                       | None => []
                       end), t)
            /\ good env D t).
  { intros s H. unfold get_link_suggestions.
    pose proof (proj2 H dt Hin) as Hs.
    unfold bind at 1. unfold cache_get at 1. rewrite Hs.
    destruct (canonical env dt) as [names|] eqn:Hc.
    - exists s. unfold bind, ret, cache_get. simpl. rewrite Hs. auto.
    - pose proof (keeps_link_exists D dt (CStr "__init__") false s H) as Hk.
      destruct (link_exists_returns dt (CStr "__init__") false s) as [b Hb].
      unfold bind at 1, try_except, bind at 1.
      destruct (link_exists env dt (CStr "__init__") false s) as [r t].
      simpl in Hb, Hk. subst r. exists t. simpl.
      unfold bind, cache_get. rewrite (proj2 Hk dt Hin), Hc. auto. }
  destruct (Hone s1 H1) as (t1 & E1 & G1), (Hone s2 H2) as (t2 & E2 & G2).
  fold (get_link_suggestions env dt name n).
  rewrite E1, E2. auto.
Qed.

Lemma rel_validate_link_field D df value label row_idx skip original :
  skip = true \/ str_truthy (options df) = false \/ default "" (options df) ∈ D ->
  rel env D (validate_link_field env df value label row_idx skip original).
Proof.
  intros Hcond. unfold validate_link_field.
  destruct (skip || negb (truthy value)) eqn:Hs; [apply rel_ret|].
  destruct (negb (str_truthy (options df))) eqn:Ho; [apply rel_ret|].
  assert (Hin : default "" (options df) ∈ D).
  { destruct Hcond as [->|[Hf|Hin]]; [discriminate Hs| |exact Hin].
    rewrite Hf in Ho. discriminate Ho. }
  apply rel_bind; [apply rel_exists|]. intros found.
  destruct found; [apply rel_ret|].
  apply rel_bind; [apply rel_cache_get, Hin|]. intros existing.
  destruct (existsb _ _); [apply rel_ret|].
  apply rel_bind; [apply rel_get_link_suggestions, Hin | intros; apply rel_ret].
Qed.

Lemma rel_validate_year_value D value : rel env D (validate_year_value value).
Proof.
  destruct value; cbn [validate_year_value]; try apply rel_ret.
  - destruct (PyStr.four_digits _); apply rel_ret.
  - apply rel_bind; [apply rel_lift | intros; apply rel_ret].
Qed.

Lemma rel_validate_item D fm skip row_idx label value :
  skip = true \/ links_in fm D ->
  rel env D (validate_item env clk fm skip row_idx label value).
Proof.
  intros Hcond. unfold validate_item.
  destruct (blank_for_datatypes value); [apply rel_ret|].
  destruct (fm !! clean_header label) as [df|] eqn:Hdf.
  - apply rel_bind.
    { destruct (_ || _ || _ || _); [|apply rel_ret].
      apply rel_bind; [apply rel_validate_year_value|].
      intros [y|]; apply rel_ret. }
    intros [year_errors done]. destruct done; [apply rel_ret|].
    destruct (String.eqb (fieldtype df) "Link") eqn:Hft; [|apply rel_ret].
    apply rel_bind; [|intros; apply rel_ret].
    apply rel_validate_link_field.
    destruct Hcond as [->|Hl]; [auto|]. right.
    destruct (str_truthy (options df)) eqn:Ho; [right|auto].
    apply String.eqb_eq in Hft. eapply Hl; eauto.
  - destruct (_ && _); [|apply rel_ret].
    apply rel_bind.
    { destruct (_ || _ || _ || _); [|apply rel_ret].
      apply rel_bind; [apply rel_validate_year_value|].
      intros [y|]; apply rel_ret. }
    intros [year_errors done]. destruct done; [apply rel_ret|].
    cbn [dummy_field fieldtype]. apply rel_ret.
Qed.

Lemma rel_validate_items D fm skip row_idx items :
  skip = true \/ links_in fm D ->
  rel env D (validate_items env clk fm skip row_idx items).
Proof.
  intros Hcond. induction items as [|[label value] r IH]; cbn [validate_items].
  - apply rel_ret.
  - apply rel_bind; [apply rel_validate_item, Hcond|]. intros errs.
    apply rel_bind; [exact IH | intros; apply rel_ret].
Qed.

End Relational.

(** ** The response does not depend on the cache *)

Section RelationalSheets.
Context {RT : PyRuntime}.
Variable env : frappe.
Variable clk : clock.

(** *** The field map holds fields of the schema, or guessed ones *)

Lemma add_field_sound fm df k d :
  add_field fm df !! k = Some d -> fm !! k = Some d \/ d = df.
Proof.
  unfold add_field.
  set (fm1 := if str_truthy (label df) then _ else fm).
  assert (H1 : fm1 !! k = Some d -> fm !! k = Some d \/ d = df).
  { subst fm1. destruct (str_truthy (label df)); [|auto].
    destruct (decide (clean_header (default "" (label df)) = k)) as [<-|Hne].
    - rewrite lookup_insert_eq. intros [= <-]. auto.
    - rewrite lookup_insert_ne by exact Hne. auto. }
  destruct (str_truthy (fieldname df)); [|exact H1].
  destruct (fm1 !! clean_header (default "" (fieldname df))) eqn:Hk; [exact H1|].
  destruct (decide (clean_header (default "" (fieldname df)) = k)) as [<-|Hne].
  - rewrite lookup_insert_eq. intros [= <-]. auto.
  - rewrite lookup_insert_ne by exact Hne. exact H1.
Qed.

Lemma fold_add_field_sound l : forall fm k d,
  fold_left add_field l fm !! k = Some d -> fm !! k = Some d \/ d ∈ l.
Proof.
  induction l as [|df r IH]; intros fm k d H; cbn [fold_left] in H.
  - auto.
  - destruct (IH _ _ _ H) as [H1|H1].
    + destruct (add_field_sound _ _ _ _ H1) as [H2| ->]; [auto|].
      right. apply elem_of_cons. auto.
    + right. apply elem_of_cons. auto.
Qed.

Lemma fold_simple_field_sound l : forall (fm : gmap string docfield) k d,
  fold_left (fun fm h => <[clean_header h := simple_field h]> fm) l fm !! k = Some d ->
  fm !! k = Some d \/ exists h, h ∈ l /\ d = simple_field h.
Proof.
  induction l as [|h r IH]; intros fm k d H; cbn [fold_left] in H.
  - auto.
  - destruct (IH _ _ _ H) as [H1|(h' & Hin & ->)].
    + destruct (decide (clean_header h = k)) as [<-|Hne].
      * rewrite lookup_insert_eq in H1. injection H1 as <-.
        right. exists h. split; [apply elem_of_cons; auto | reflexivity].
      * rewrite lookup_insert_ne in H1 by exact Hne. auto.
    + right. exists h'. split; [apply elem_of_cons; auto | reflexivity].
Qed.

Lemma build_field_map_sound m headers k d :
  build_field_map m headers !! k = Some d ->
  d ∈ fields m \/ exists h, h ∈ headers /\ d = simple_field h.
Proof.
  unfold build_field_map. destruct (_ && _).
  - intros H. apply fold_simple_field_sound in H as [H|H]; [|auto].
    rewrite lookup_empty in H. discriminate H.
  - intros H. apply fold_add_field_sound in H as [H|H]; [|auto].
    rewrite lookup_empty in H. discriminate H.
Qed.

Lemma link_doctypes_elem m d :
  d ∈ fields m -> fieldtype d = "Link" -> str_truthy (options d) = true ->
  default "" (options d) ∈ link_doctypes m.
Proof.
  intros Hin Hft Ho. unfold link_doctypes. apply list_elem_of_In, in_flat_map.
  exists d. split; [apply list_elem_of_In, Hin|].
  rewrite Hft, Ho. simpl. auto.
Qed.

Lemma links_in_field_map m headers D :
  (forall x, x ∈ link_doctypes m -> x ∈ D) ->
  links_in (build_field_map m headers) D.
Proof.
  intros HD k d Hk Hft Ho.
  destruct (build_field_map_sound _ _ _ _ Hk) as [Hin|(h & _ & ->)].
  - apply HD, link_doctypes_elem; assumption.
  - discriminate Ho.
Qed.

(** *** Prefetching settles the targets it walks *)

Lemma good_subset D D' s :
  (forall x, x ∈ D' -> x ∈ D) -> good env D s -> good env D' s.
Proof. intros Hsub [Hc Hs]. split; [exact Hc | intros dt Hin; apply Hs, Hsub, Hin]. Qed.

Lemma good_settle D dt s :
  good env D s -> link_cache s !! dt = canonical env dt -> good env (dt :: D) s.
Proof.
  intros [Hc Hs] Hdt. split; [exact Hc|]. intros x Hin.
  apply elem_of_cons in Hin as [->|Hin]; [exact Hdt | apply Hs, Hin].
Qed.

Lemma good_settle_none D dt s :
  good env D s -> canonical env dt = None -> good env (dt :: D) s.
Proof.
  intros H Hn. apply good_settle; [exact H|]. rewrite Hn.
  destruct (link_cache s !! dt) as [l|] eqn:Hl; [|reflexivity].
  rewrite (proj1 (proj1 H) _ _ Hl) in Hn. discriminate Hn.
Qed.

Lemma prefetch_one_settles D dt s :
  good env D s ->
  fst (prefetch_one env dt s) = Return tt
  /\ good env (dt :: D) (snd (prefetch_one env dt s)).
Proof.
  intros H.
  pose proof (good_log env D s (CallCount dt) H) as H0.
  unfold prefetch_one, try_except, bind, frappe_db_count, frappe_get_all, log_call,
    sizes_set, cache_set, ret.
  destruct (db_count env dt) as [c|e] eqn:Hc; simpl.
  - pose proof (good_sizes_set env D _ dt c Hc H0) as H1. simpl in H1.
    destruct (LINK_CACHE_LIMIT <? c)%Z eqn:Hl; simpl.
    + split; [reflexivity|]. apply good_settle_none; [exact H1|].
      unfold canonical. rewrite Hc. destruct (get_all env dt); rewrite ?Hl; reflexivity.
    + pose proof (good_log env D _ (CallGetAll dt) H1) as H2. simpl in H2.
      destruct (get_all env dt) as [names|e] eqn:Hn; simpl.
      * split; [reflexivity|].
        pose proof (canonical_small env dt c names Hc Hl Hn) as Hcan.
        apply good_settle.
        -- exact (good_cache_set env D _ dt names Hcan H2).
        -- simpl. rewrite lookup_insert_eq, Hcan. reflexivity.
      * split; [reflexivity|]. apply good_settle_none; [exact H2|].
        unfold canonical. rewrite Hc, Hn. reflexivity.
  - split; [reflexivity|]. apply good_settle_none; [exact H0|].
    unfold canonical. rewrite Hc. reflexivity.
Qed.

Lemma for_each_prefetch_settles l : forall D s,
  good env D s ->
  fst (for_each l (prefetch_one env) s) = Return tt
  /\ good env (l ++ D) (snd (for_each l (prefetch_one env) s)).
Proof.
  induction l as [|dt r IH]; intros D s H; cbn [for_each].
  - split; [reflexivity | exact H].
  - destruct (prefetch_one_settles D dt s H) as [E G].
    unfold bind. destruct (prefetch_one env dt s) as [res s1].
    cbn [fst snd] in E, G. subst res.
    destruct (IH _ _ G) as [E' G']. split; [exact E'|].
    eapply good_subset; [|exact G'].
    intros x Hin. apply elem_of_app. apply elem_of_cons in Hin as [->|Hin].
    + right. apply elem_of_cons. auto.
    + apply elem_of_app in Hin as [Hin|Hin]; [auto|].
      right. apply elem_of_cons. auto.
Qed.

(** [prefetch_link_caches] returns, and on a consistent state it settles
    every target it iterates over. *)
Lemma prefetch_settles m s :
  good env [] s ->
  fst (prefetch_link_caches env m s) = Return tt
  /\ good env (set_iter (link_doctypes m)) (snd (prefetch_link_caches env m s)).
Proof.
  intros H. unfold prefetch_link_caches.
  destruct (for_each_prefetch_settles (set_iter (link_doctypes m)) [] s H) as [E G].
  split; [exact E|]. rewrite app_nil_r in G. exact G.
Qed.


(** *** Rows, sheets and the batch *)

Lemma rel_validate_row D cx row_idx row tr :
  cx_skip_links cx = true \/ links_in (cx_field_map cx) D ->
  rel env D (validate_row env clk cx row_idx row tr).
Proof.
  intros Hcond. unfold validate_row.
  destruct (forallb _ _); [apply rel_ret|].
  apply rel_bind; [|intros; apply rel_ret].
  unfold validate_datatypes. apply rel_validate_items, Hcond.
Qed.

Lemma rel_timeout_check D cx k row_idx : rel env D (timeout_check clk cx k row_idx).
Proof.
  unfold timeout_check. destruct (_ =? _)%nat; [|apply rel_ret].
  destruct (Qgt_bool _ _); [apply rel_raise | apply rel_ret].
Qed.

Lemma rel_process_rows D cx k rows :
  cx_skip_links cx = true \/ links_in (cx_field_map cx) D ->
  forall row_idx tr, rel env D (process_rows env clk cx k row_idx rows tr).
Proof.
  intros Hcond. induction rows as [|row rest IH]; intros row_idx tr; cbn [process_rows].
  - apply rel_ret.
  - apply rel_bind; [apply rel_timeout_check|]. intros _.
    apply rel_bind; [apply rel_validate_row, Hcond|]. intros rt.
    apply rel_bind; [apply IH | intros; apply rel_ret].
Qed.

Lemma rel_safe_get_meta D doctype : rel env D (safe_get_meta env doctype).
Proof.
  unfold safe_get_meta. apply rel_try; [|intros; apply rel_ret].
  apply rel_bind; [apply rel_get_meta | intros; apply rel_ret].
Qed.

(** From a state good for [D] on, a computation that is relational for
    [D] gives one result and consistent states. *)
Lemma rel_from D {A} (m : M A) s1 s2 :
  rel env D m -> good env D s1 -> good env D s2 ->
  fst (m s1) = fst (m s2) /\ good env [] (snd (m s1)) /\ good env [] (snd (m s2)).
Proof.
  intros Hm H1 H2. destruct (Hm s1 s2 H1 H2) as (E & G1 & G2).
  eauto using good_weaken.
Qed.

Hypothesis set_iter_elem : forall (l : list string) x, x ∈ l -> x ∈ set_iter l.

Lemma rel_process_validated_sheet doctype skip k headers all_rows :
  rel env [] (process_validated_sheet env clk doctype skip k headers all_rows).
Proof.
  unfold process_validated_sheet.
  apply rel_bind; [apply rel_safe_get_meta|]. intros [m|]; [|apply rel_ret].
  set (cx := {| cx_doctype := doctype; cx_headers := headers;
                cx_required_columns := required_columns_of m headers;
                cx_unique_columns := get_unique_columns m headers;
                cx_primary_key := get_primary_key m headers;
                cx_field_map := build_field_map m headers;
                cx_skip_links := skip |}).
  set (rest := if bool_decide (filter is_valid_row all_rows = []) then _ else _).
  destruct skip.
  - apply rel_bind; [apply rel_ret|]. intros _. subst rest.
    destruct (bool_decide _); [apply rel_ret|].
    apply rel_bind; [|intros; apply rel_ret].
    apply rel_process_rows. left. reflexivity.
  - assert (Hrest : rel env (set_iter (link_doctypes m)) rest).
    { subst rest. destruct (bool_decide _); [apply rel_ret|].
      apply rel_bind; [|intros; apply rel_ret].
      apply rel_process_rows. right. apply links_in_field_map.
      intros x Hx. apply set_iter_elem, Hx. }
    intros s1 s2 H1 H2. unfold bind.
    destruct (prefetch_settles m s1 H1) as [E1 G1].
    destruct (prefetch_settles m s2 H2) as [E2 G2].
    destruct (prefetch_link_caches env m s1) as [r1 t1].
    destruct (prefetch_link_caches env m s2) as [r2 t2].
    cbn [fst snd] in *. subst r1 r2.
    exact (rel_from _ rest t1 t2 Hrest G1 G2).
Qed.

Lemma rel_process_sheet wb doctype skip k :
  rel env [] (process_sheet_with_validation env clk wb doctype skip k).
Proof.
  unfold process_sheet_with_validation. apply rel_try.
  - destruct (dict_of _ !! _) as [title|]; [|apply rel_ret].
    destruct (workbook_get wb title) as [sheet|]; [|apply rel_raise].
    destruct (ws_rows sheet) as [|header_row all_rows]; [apply rel_ret|].
    destruct header_row as [|h0 hs]; [apply rel_ret|].
    repeat match goal with
           | |- rel _ _ (if ?c then _ else _) => destruct c; [apply rel_ret|]
           end.
    apply rel_process_validated_sheet.
  - intros [msg|msg]; [apply rel_raise | apply rel_ret].
Qed.

Lemma rel_check_doctype_exists D name : rel env D (check_doctype_exists env name).
Proof.
  unfold check_doctype_exists. apply rel_try; [apply rel_exists | intros; apply rel_ret].
Qed.

Lemma rel_process_one_sheet wb skip k name st :
  rel env [] (process_one_sheet env clk wb skip k name st).
Proof.
  unfold process_one_sheet.
  apply rel_bind; [apply rel_check_doctype_exists|]. intros ex.
  destruct (negb ex); [apply rel_ret|].
  apply rel_try.
  - apply rel_bind; [apply rel_process_sheet | intros; apply rel_ret].
  - intros [msg|msg]; apply rel_ret.
Qed.

Lemma rel_process_sheets wb skip names :
  forall k st, rel env [] (process_sheets env clk wb skip k names st).
Proof.
  induction names as [|name rest IH]; intros k st; cbn [process_sheets].
  - apply rel_ret.
  - destruct (Qgt_bool _ _); [apply rel_ret|].
    apply rel_bind; [apply rel_process_one_sheet | intros; apply IH].
Qed.

Lemma rel_validate_and_add_error_columns wb skip :
  rel env [] (validate_and_add_error_columns env clk wb skip).
Proof.
  unfold validate_and_add_error_columns. apply rel_try; [|intros; apply rel_ret].
  apply rel_bind; [apply rel_process_sheets|]. intros st.
  apply rel_bind; [|intros; apply rel_ret].
  unfold save_output. destruct (bool_decide _); [apply rel_raise | apply rel_ret].
Qed.

End RelationalSheets.

Section Populated.
Context {RT : PyRuntime}.
Variable env : frappe.
Hypothesis set_iter_elem : forall (l : list string) x, x ∈ l -> x ∈ set_iter l.

Lemma good_empty : good env [] empty_state.
Proof.
  split; [split|].
  - intros dt l H. cbn in H. rewrite lookup_empty in H. discriminate H.
  - intros dt c H. cbn in H. rewrite lookup_empty in H. discriminate H.
  - intros dt H. apply elem_of_nil in H as [].
Qed.

Lemma populated_good s : populated env s -> good env [] s.
Proof.
  induction 1 as [|s clk wb skip _ IH]; [apply good_empty|].
  exact (proj1 (proj2 (rel_validate_and_add_error_columns env clk set_iter_elem
                         wb skip s s IH IH))).
Qed.

(** C8 (amended).  Within one process, whose sets are iterated in one
    order, and for the same readings of the clock, the response does not
    depend on what earlier runs left in the reference cache: against an
    unchanged backing store, from any two states the module can be in
    (the initial one, or the one left by any number of earlier runs over
    the same store), the same workbook with the same flag gives the same
    response, errors and their order included.  The iteration over a set
    is taken to visit every element of it. *)
Theorem cache_independent_response clk wb skip s1 s2 :
  populated env s1 -> populated env s2 ->
  fst (validate_and_add_error_columns env clk wb skip s1)
  = fst (validate_and_add_error_columns env clk wb skip s2).
Proof.
  intros P1 P2.
  exact (proj1 (rel_validate_and_add_error_columns env clk set_iter_elem wb skip
                  s1 s2 (populated_good _ P1) (populated_good _ P2))).
Qed.

End Populated.

(** A [Student] sheet with two references, run on the state an earlier run
    of another workbook left. *)
Lemma cache_independent_response_witness :
  let warm := snd (validate_and_add_error_columns Examples.site Examples.calm_clock
                     Examples.link_book "0" empty_state) in
  link_cache warm !! "City" = Some Examples.city_names
  /\ fst (validate_and_add_error_columns Examples.site Examples.calm_clock
            Examples.link_book "0" empty_state)
     = fst (validate_and_add_error_columns Examples.site Examples.calm_clock
              Examples.link_book "0" warm).
Proof.
  intros warm. split; [vm_compute; reflexivity|].
  apply (cache_independent_response (RT := ExampleRuntime.runtime) Examples.site).
  - intros l x Hx. apply elem_of_remove_dups. exact Hx.
  - apply populated_empty.
  - apply populated_run, populated_empty.
Defined.

(** C8 as stated fails, in two ways.
    The clock: the run that finds the cache empty spends time on filling
    it, and a run that reads a later clock at a checkpoint abandons the
    sheet the other run validates in full.  The iteration order of sets:
    it is fixed within a worker process only, and the suggestions of a
    reference error are listed in that order. *)
Lemma cache_independent_counterexample :
  (let warm := snd (validate_and_add_error_columns Examples.site Examples.calm_clock
                      Examples.short_book "0" empty_state) in
   response_summary (validate_and_add_error_columns Examples.site
                       Examples.expired_clock Examples.short_book "0" empty_state)
   <> response_summary (validate_and_add_error_columns Examples.site
                          Examples.calm_clock Examples.short_book "0" warm))
  /\ (let warm := snd (validate_and_add_error_columns (RT := Examples.reseeded)
                         town_site Examples.calm_clock town_book "0" empty_state) in
      response_suggestions
        (validate_and_add_error_columns (RT := ExampleRuntime.runtime)
           town_site Examples.calm_clock town_book "0" empty_state)
      = Some [Some ["Kanpur"; "Kannauj"; "Kanchipuram"]]
      /\ response_suggestions
           (validate_and_add_error_columns (RT := Examples.reseeded)
              town_site Examples.calm_clock town_book "0" warm)
         = Some [Some ["Kanyakumari"; "Kanchipuram"; "Kannauj"]]
      /\ response_suggestions
           (validate_and_add_error_columns (RT := ExampleRuntime.runtime)
              town_site Examples.calm_clock town_book "0" empty_state)
         <> response_suggestions
              (validate_and_add_error_columns (RT := Examples.reseeded)
                 town_site Examples.calm_clock town_book "0" warm)).
Proof.
  split.
  2:{ intros warm.
      assert (Ha : response_suggestions
                     (validate_and_add_error_columns (RT := ExampleRuntime.runtime)
                        town_site Examples.calm_clock town_book "0" empty_state)
                   = Some [Some ["Kanpur"; "Kannauj"; "Kanchipuram"]])
        by (vm_compute; reflexivity).
      assert (Hb : response_suggestions
                     (validate_and_add_error_columns (RT := Examples.reseeded)
                        town_site Examples.calm_clock town_book "0" warm)
                   = Some [Some ["Kanyakumari"; "Kanchipuram"; "Kannauj"]])
        by (vm_compute; reflexivity).
      split; [exact Ha|]. split; [exact Hb|].
      rewrite Ha, Hb. discriminate. }
  intros warm.
  assert (H1 : option_map (fun x => snd x)
                 (response_summary (validate_and_add_error_columns Examples.site
                       Examples.expired_clock Examples.short_book "0" empty_state))
               = Some [("Student", false, Some "TIMEOUT_ERROR", 1%nat, 0%nat,
                        [(0%nat, "Sheet", "Processing Timeout")])])
    by (vm_compute; reflexivity).
  assert (H2 : option_map (fun x => map (fun r => snd (fst r)) (snd x))
                 (response_summary (validate_and_add_error_columns Examples.site
                       Examples.calm_clock Examples.short_book "0" warm))
               = Some [120%nat])
    by (vm_compute; reflexivity).
  intros Heq. rewrite <- Heq in H2.
  destruct (response_summary _) as [x|]; [|discriminate H1].
  cbn [option_map] in H1, H2. injection H1 as H1. rewrite H1 in H2.
  discriminate H2.
Qed.

(** ** The reference cache: prefetching, cached lookups, suggestions *)

Section CacheFacts.
Context {RT : PyRuntime}.
Variable env : frappe.

(** X1.  [prefetch_link_caches] returns whatever the store does: a count
    or a listing that raises is swallowed.  On a state that agrees with
    the store it leaves one that agrees with it, in which every target it
    walked is settled: cached with the listed names when the count and the
    listing succeed and the count is within [LINK_CACHE_LIMIT], absent
    otherwise. *)
Theorem prefetch_outcome m s :
  fst (prefetch_link_caches env m s) = Return tt
  /\ (consistent env s ->
      consistent env (snd (prefetch_link_caches env m s))
      /\ forall dt, dt ∈ set_iter (link_doctypes m) ->
           link_cache (snd (prefetch_link_caches env m s)) !! dt = canonical env dt).
Proof.
  split; [apply for_each_prefetch_returns|]. intros Hc.
  assert (H : good env [] s).
  { split; [exact Hc|]. intros dt Hin. apply elem_of_nil in Hin as []. }
  destruct (prefetch_settles env m s H) as [_ [G1 G2]]. auto.
Qed.

(** X2.  A lookup in a materialised entity type makes one call to the
    store, the check that the entity type is registered, and leaves the
    cache as it is; its answer is read off the cached names. *)
Theorem cached_target_lookup dt name cs s names :
  consistent env s -> dt <> "" -> truthy name = true ->
  link_cache s !! dt = Some names ->
  link_exists env dt name cs s
  = (Return (match db_exists env "DocType" (CStr dt) with
             | Ok true =>
                 if cs then bool_decide (PyStr.strip (py_str name) ∈ names)
                 else existsb (fun cached_name =>
                                 String.eqb (PyStr.lower cached_name)
                                   (PyStr.lower (PyStr.strip (py_str name))))
                        (set_iter names)
             | _ => false
             end),
     {| link_cache := link_cache s; link_cache_sizes := link_cache_sizes s;
        db_log := (db_log s ++ [CallExists "DocType" (CStr dt)])%list |}).
Proof.
  intros [C1 C2] Hdt Hname Hcache. unfold link_exists.
  apply String.eqb_neq in Hdt. rewrite Hdt, Hname. cbn [orb negb].
  unfold try_except, bind at 1, frappe_db_exists, bind at 1, log_call.
  destruct (db_exists env "DocType" (CStr dt)) as [[|]|e]; cbn [lift_outcome ret raise negb];
    [|reflexivity|reflexivity].
  unfold bind at 1, sizes_get. cbn [link_cache_sizes].
  assert (Hsmall : match link_cache_sizes s !! dt with
                   | Some n => (LINK_CACHE_LIMIT <? n)%Z
                   | None => false
                   end = false).
  { destruct (link_cache_sizes s !! dt) as [n|] eqn:Hn; [|reflexivity].
    pose proof (C1 _ _ Hcache) as Hcan. unfold canonical in Hcan.
    rewrite (C2 _ _ Hn) in Hcan. destruct (get_all env dt); [|discriminate].
    destruct (LINK_CACHE_LIMIT <? n)%Z; [discriminate | reflexivity]. }
  rewrite Hsmall.
  unfold bind, cache_get. cbn [link_cache]. rewrite Hcache.
  cbn [ret link_cache]. rewrite Hcache. destruct cs; reflexivity.
Qed.

Lemma collect_suggestions_spec n q names : forall acc,
  (length acc < Nat.max 1 n)%nat ->
  (length (collect_suggestions n q names acc) <= Nat.max 1 n)%nat
  /\ forall x, x ∈ collect_suggestions n q names acc ->
       x ∈ acc
       \/ (x ∈ names
           /\ PyStr.contains (PyStr.lower x) q || PyStr.contains q (PyStr.lower x)
              = true).
Proof.
  induction names as [|c r IH]; intros acc Hlen; cbn [collect_suggestions].
  - split; [lia | auto].
  - destruct (_ || _) eqn:Hm.
    + assert (Hlen' : length (acc ++ [c]) = S (length acc))
        by (rewrite length_app; simpl; lia).
      destruct (n <=? length (acc ++ [c]))%nat eqn:Hn.
      * split; [lia|]. intros x Hx. apply elem_of_app in Hx as [Hx|Hx]; [auto|].
        apply list_elem_of_singleton in Hx as ->. right.
        split; [apply elem_of_cons; auto | exact Hm].
      * apply Nat.leb_gt in Hn. destruct (IH (acc ++ [c])%list) as [L E]; [lia|].
        split; [exact L|]. intros x Hx. destruct (E x Hx) as [Hx'|[Hx' Hq]].
        -- apply elem_of_app in Hx' as [Hx'|Hx']; [auto|].
           apply list_elem_of_singleton in Hx' as ->. right.
           split; [apply elem_of_cons; auto | exact Hm].
        -- right. split; [apply elem_of_cons; auto | exact Hq].
    + destruct (IH acc Hlen) as [L E]. split; [exact L|].
      intros x Hx. destruct (E x Hx) as [Hx'|[Hx' Hq]]; [auto|].
      right. split; [apply elem_of_cons; auto | exact Hq].
Qed.

(** A run of [get_link_suggestions]: it returns, with a bounded list of
    names of the cache as it leaves it. *)
Lemma get_link_suggestions_run dt name n s :
  exists l t,
    get_link_suggestions env dt name n s = (Return l, t)
    /\ (length l <= Nat.max 1 n)%nat
    /\ forall x, x ∈ l ->
         (exists names, link_cache t !! dt = Some names /\ x ∈ set_iter names)
         /\ PyStr.contains (PyStr.lower x) (PyStr.lower name)
            || PyStr.contains (PyStr.lower name) (PyStr.lower x) = true.
Proof.
  set (final := let* entry := cache_get dt in
                match entry with
                | Some names =>
                    ret (collect_suggestions n (PyStr.lower name) (set_iter names) [])
                | None => ret []
                end).
  set (good_list := fun (l : list string) (t : state) =>
         (length l <= Nat.max 1 n)%nat
         /\ forall x, x ∈ l ->
              (exists names, link_cache t !! dt = Some names /\ x ∈ set_iter names)
              /\ PyStr.contains (PyStr.lower x) (PyStr.lower name)
                 || PyStr.contains (PyStr.lower name) (PyStr.lower x) = true).
  assert (Hempty : forall t, good_list [] t).
  { intros t. split; [simpl; lia|]. intros x Hx. apply elem_of_nil in Hx as []. }
  assert (Hfinal : forall t, exists l, final t = (Return l, t) /\ good_list l t).
  { intros t. subst final. unfold bind, cache_get.
    destruct (link_cache t !! dt) as [names|] eqn:Hc; cbn [ret].
    - eexists. split; [reflexivity|].
      destruct (collect_suggestions_spec n (PyStr.lower name) (set_iter names) [])
        as [L E]; [simpl; lia|].
      split; [exact L|]. intros x Hx. destruct (E x Hx) as [Hx'|[Hx' Hq]].
      + apply elem_of_nil in Hx' as [].
      + split; [eauto | exact Hq].
    - exists []. split; [reflexivity | apply Hempty]. }
  unfold get_link_suggestions. fold final. unfold bind at 1, cache_get at 1.
  destruct (link_cache s !! dt) as [names0|] eqn:Hc0.
  - unfold bind at 1. cbn [ret negb].
    destruct (Hfinal s) as (l & E & G). eauto.
  - unfold bind at 1, try_except, bind at 1.
    destruct (link_exists env dt (CStr "__init__") false s) as [[b|e] t];
      cbn [ret negb].
    + destruct (Hfinal t) as (l & E & G). eauto.
    + exists [], t. split; [reflexivity | apply Hempty].
Qed.

(** X3.  [get_link_suggestions] returns, whatever the store does; it
    gives at most [max_suggestions] names (one when [max_suggestions] is
    0), each of them a name the cache holds for the entity type when it
    returns, and each containing the query or contained in it, cases
    ignored. *)
Theorem suggestions_bounded dt name n s :
  exists l,
    fst (get_link_suggestions env dt name n s) = Return l
    /\ (length l <= Nat.max 1 n)%nat
    /\ forall x, x ∈ l ->
         (exists names,
            link_cache (snd (get_link_suggestions env dt name n s)) !! dt = Some names
            /\ x ∈ set_iter names)
         /\ PyStr.contains (PyStr.lower x) (PyStr.lower name)
            || PyStr.contains (PyStr.lower name) (PyStr.lower x) = true.
Proof.
  destruct (get_link_suggestions_run dt name n s) as (l & t & E & L & P).
  exists l. rewrite E. cbn [fst snd]. auto.
Qed.

End CacheFacts.

Lemma prefetch_outcome_witness :
  link_cache (snd (prefetch_link_caches Examples.site Examples.student_meta empty_state))
    !! "City" = Some Examples.city_names
  /\ link_cache (snd (prefetch_link_caches Examples.site Examples.student_meta empty_state))
       !! "Country" = None.
Proof.
  destruct (prefetch_outcome (RT := ExampleRuntime.runtime) Examples.site
              Examples.student_meta empty_state) as [_ H].
  destruct H as [_ H]; [exact (proj1 (good_empty Examples.site))|].
  split.
  - rewrite (H "City"); [vm_compute; reflexivity|].
    apply elem_of_remove_dups. vm_compute. repeat constructor.
  - rewrite (H "Country"); [vm_compute; reflexivity|].
    apply elem_of_remove_dups. vm_compute. repeat constructor.
Defined.

Lemma cached_target_lookup_witness :
  let s := snd (prefetch_link_caches Examples.site Examples.student_meta empty_state) in
  fst (link_exists Examples.site "City" (CStr " kanpur ") false s) = Return true
  /\ fst (link_exists Examples.site "City" (CStr " kanpur ") true s) = Return false.
Proof.
  intros s.
  assert (Hc : consistent Examples.site s).
  { apply (prefetch_outcome (RT := ExampleRuntime.runtime)).
    exact (proj1 (good_empty Examples.site)). }
  assert (Hl : link_cache s !! "City" = Some Examples.city_names)
    by (vm_compute; reflexivity).
  split.
  - rewrite (cached_target_lookup Examples.site "City" (CStr " kanpur ") false s
               Examples.city_names Hc ltac:(discriminate) eq_refl Hl).
    vm_compute. reflexivity.
  - rewrite (cached_target_lookup Examples.site "City" (CStr " kanpur ") true s
               Examples.city_names Hc ltac:(discriminate) eq_refl Hl).
    vm_compute. reflexivity.
Defined.

(** ** Sheets validated with the reference checks switched off *)

Section SkipLinks.
Context {RT : PyRuntime}.
Variable env : frappe.
Variable clk : clock.

Lemma silent_ret {A} (a : A) : silent (ret a).
Proof. intros s. reflexivity. Qed.

Lemma silent_raise {A} e : silent (raise (A := A) e).
Proof. intros s. reflexivity. Qed.

Lemma silent_bind {A B} (m : M A) (f : A -> M B) :
  silent m -> (forall a, silent (f a)) -> silent (bind m f).
Proof.
  intros Hm Hf s. specialize (Hm s). unfold bind.
  destruct (m s) as [[a|e] t]; cbn [snd] in *; subst t; [apply Hf | reflexivity].
Qed.

Lemma silent_try {A} (m : M A) (h : pyexn -> M A) :
  silent m -> (forall e, silent (h e)) -> silent (try_except m h).
Proof.
  intros Hm Hh s. specialize (Hm s). unfold try_except.
  destruct (m s) as [[a|e] t]; cbn [snd] in *; subst t; [reflexivity | apply Hh].
Qed.

Lemma silent_lift {A} (o : outcome A) : silent (lift_outcome o).
Proof. destruct o; intros s; reflexivity. Qed.

Lemma silent_year value : silent (validate_year_value value).
Proof.
  destruct value; cbn [validate_year_value]; try apply silent_ret.
  - destruct (PyStr.four_digits _); apply silent_ret.
  - apply silent_bind; [apply silent_lift | intros; apply silent_ret].
Qed.

Lemma silent_item fm row_idx label value :
  silent (validate_item env clk fm true row_idx label value).
Proof.
  unfold validate_item.
  destruct (blank_for_datatypes value); [apply silent_ret|].
  set (df_opt := match fm !! clean_header label with
                 | Some df => Some df
                 | None => _
                 end).
  destruct df_opt as [df|]; [|apply silent_ret].
  apply silent_bind.
  { destruct (_ || _ || _ || _); [|apply silent_ret].
    apply silent_bind; [apply silent_year|]. intros [y|]; apply silent_ret. }
  intros [year_errors done]. destruct done; [apply silent_ret|].
  destruct (String.eqb (fieldtype df) "Link"); [|apply silent_ret].
  apply silent_bind; [|intros; apply silent_ret].
  unfold validate_link_field. cbn [orb]. apply silent_ret.
Qed.

Lemma silent_items fm row_idx items :
  silent (validate_items env clk fm true row_idx items).
Proof.
  induction items as [|[label value] r IH]; cbn [validate_items].
  - apply silent_ret.
  - apply silent_bind; [apply silent_item|]. intros errs.
    apply silent_bind; [exact IH | intros; apply silent_ret].
Qed.

Lemma silent_row cx row_idx row tr :
  cx_skip_links cx = true -> silent (validate_row env clk cx row_idx row tr).
Proof.
  intros Hs. unfold validate_row. destruct (forallb _ _); [apply silent_ret|].
  apply silent_bind; [|intros; apply silent_ret].
  unfold validate_datatypes. rewrite Hs. apply silent_items.
Qed.

Lemma silent_rows cx k rows :
  cx_skip_links cx = true ->
  forall row_idx tr, silent (process_rows env clk cx k row_idx rows tr).
Proof.
  intros Hs. induction rows as [|row rest IH]; intros row_idx tr; cbn [process_rows].
  - apply silent_ret.
  - apply silent_bind.
    { unfold timeout_check. destruct (_ =? _)%nat; [|apply silent_ret].
      destruct (Qgt_bool _ _); [apply silent_raise | apply silent_ret]. }
    intros _. apply silent_bind; [apply silent_row, Hs|]. intros rt.
    apply silent_bind; [apply IH | intros; apply silent_ret].
Qed.

(** X4.  With the reference checks switched off, validating a sheet
    leaves the reference cache and the recorded sizes as they are, and
    calls the store at most once: to load the schema. *)
Theorem skip_links_one_store_call wb doctype k s :
  let t := snd (process_sheet_with_validation env clk wb doctype true k s) in
  t = s \/ t = logged s (CallGetMeta doctype).
Proof.
  cbv zeta. unfold process_sheet_with_validation.
  set (body := match dict_of _ !! _ with Some title => _ | None => _ end).
  assert (Hbody : snd (body s) = s \/ snd (body s) = logged s (CallGetMeta doctype)).
  { subst body.
    destruct (dict_of _ !! _) as [title|]; [|auto].
    destruct (workbook_get wb title) as [sheet|]; [|auto].
    destruct (ws_rows sheet) as [|header_row all_rows]; [auto|].
    destruct header_row as [|h0 hs]; [auto|].
    repeat match goal with
           | |- context [if ?c then ret _ else _] => destruct c; [auto|]
           end.
    right. unfold process_validated_sheet. unfold bind at 1.
    rewrite safe_get_meta_run.
    destruct (get_meta env doctype) as [m|e]; [|reflexivity].
    apply silent_bind; [apply silent_ret|]. intros _.
    destruct (bool_decide _); [apply silent_ret|].
    apply silent_bind; [|intros; apply silent_ret].
    apply silent_rows. reflexivity. }
  unfold try_except. destruct (body s) as [[r|e] t]; cbn [snd] in *; [exact Hbody|].
  destruct e; exact Hbody.
Qed.

End SkipLinks.

(** ** What a row and a sheet report *)

Section SheetShape.
Context {RT : PyRuntime}.
Variable env : frappe.
Variable clk : clock.

(** Every entry a row adds to the error list is for the row and the
    sheet. *)
Lemma validate_row_entries cx row_idx row tr s rep tr' s' :
  validate_row env clk cx row_idx row tr s = (Return (rep, tr'), s') ->
  Forall (fun je => je_row je = row_idx /\ je_sheet je = cx_doctype cx)
    (rr_json_errors rep).
Proof.
  intros H. destruct (is_empty_row cx row) eqn:He.
  - unfold validate_row in H. unfold is_empty_row in He. rewrite He in H.
    apply ret_inv in H as [H _]. pose proof (f_equal fst H) as Hr. cbn [fst] in Hr.
    subst rep. cbn. repeat constructor.
  - destruct (validate_row_inv env clk cx row_idx row tr s rep tr' s' He H)
      as (errs & late & _ & Hjson & Hlate & _).
    rewrite Hjson. repeat apply Forall_app_2.
    + unfold required_entries. apply Forall_forall. intros je Hin.
      apply list_elem_of_In, in_flat_map in Hin as (col & _ & Hin).
      destruct (in_blank_tuple _); [|destruct Hin].
      destruct Hin as [<-|[]]. split; reflexivity.
    + apply Forall_forall. intros je Hin.
      apply list_elem_of_In, in_map_iff in Hin as (e & <- & _). split; reflexivity.
    + destruct (bool_decide _); repeat constructor.
    + eapply Forall_impl; [exact Hlate|].
      intros je (col & _ & [-> | ->]); split; reflexivity.
Qed.

(** X5.  The report of a row: its error count is the number of entries
    it adds to the error list and of its short messages, its error flag
    says whether there is any, the [error_val] written is "Error" or
    "No Error" accordingly, every entry is for the row and the sheet, and
    the row written has one cell for each header. *)
Theorem row_report_shape cx row_idx row tr s rep tr' s' :
  validate_row env clk cx row_idx row tr s = (Return (rep, tr'), s') ->
  rr_error_count rep = length (rr_json_errors rep)
  /\ rr_error_count rep = length (rr_short_errors rep)
  /\ rr_has_error rep = (0 <? rr_error_count rep)%nat
  /\ rr_error_val rep = (if rr_has_error rep then "Error" else "No Error")
  /\ length (rr_values rep) = length (cx_headers cx)
  /\ Forall (fun je => je_row je = row_idx /\ je_sheet je = cx_doctype cx)
       (rr_json_errors rep).
Proof.
  intros H.
  assert (Hrep : exists a, rep = report_of cx (dict_zip (cx_headers cx) row) a).
  { unfold validate_row in H. destruct (forallb _ _).
    - apply ret_inv in H as [H _]. eexists. exact (eq_sym (f_equal fst H)).
    - apply bind_inv in H as (errs & s1 & _ & H).
      apply ret_inv in H as [H _]. eexists. exact (eq_sym (f_equal fst H)). }
  destruct Hrep as [a Hrep].
  assert (Hvals : length (rr_values rep) = length (cx_headers cx)).
  { rewrite Hrep. cbn [report_of rr_values]. apply length_map. }
  assert (Hval : rr_error_val rep = (if rr_has_error rep then "Error" else "No Error")).
  { rewrite Hrep. reflexivity. }
  assert (Hshort : rr_error_count rep = length (rr_short_errors rep)).
  { rewrite Hrep. reflexivity. }
  assert (Hhas : rr_has_error rep = (0 <? rr_error_count rep)%nat).
  { rewrite Hrep. reflexivity. }
  pose proof (validate_row_entries _ _ _ _ _ _ _ _ H) as Hent.
  repeat split; try assumption.
  destruct (is_empty_row cx row) eqn:He.
  - unfold validate_row in H. unfold is_empty_row in He. rewrite He in H.
    apply ret_inv in H as [H _]. pose proof (f_equal fst H) as Hr. cbn [fst] in Hr.
    rewrite <- Hr. reflexivity.
  - destruct (validate_row_inv env clk cx row_idx row tr s rep tr' s' He H)
      as (errs & late & _ & _ & _ & _ & Hcount & _). exact Hcount.
Qed.

(** The reports of the row loop, row by row. *)
Lemma process_rows_groups cx k rows : forall row_idx tr s reports s',
  process_rows env clk cx k row_idx rows tr s = (Return reports, s') ->
  length reports = length rows
  /\ forall i rep, reports !! i = Some rep ->
       Forall (fun je => je_row je = (i + row_idx)%nat /\ je_sheet je = cx_doctype cx)
         (rr_json_errors rep).
Proof.
  induction rows as [|row rest IH]; intros row_idx tr s reports s' H;
    cbn [process_rows] in H.
  - apply ret_inv in H as [<- _]. split; [reflexivity|].
    intros i rep Hi. rewrite lookup_nil in Hi. discriminate Hi.
  - apply bind_inv in H as ([] & s0 & _ & H).
    apply bind_inv in H as ([rep0 tr1] & s1 & Hrow & H).
    apply bind_inv in H as (reports' & s2 & Hrest & H).
    apply ret_inv in H as [<- _]. cbn [fst snd] in *.
    destruct (IH _ _ _ _ _ Hrest) as [Hlen Hgroups].
    split; [cbn [length]; lia|].
    intros [|i] rep Hi; cbn in Hi.
    + injection Hi as <-.
      exact (validate_row_entries cx row_idx row tr s0 rep0 tr1 s1 Hrow).
    + replace (S i + row_idx)%nat with (i + S row_idx)%nat by lia.
      exact (Hgroups i rep Hi).
Qed.


Lemma process_validated_sheet_name doctype skip k headers all_rows s r s' :
  process_validated_sheet env clk doctype skip k headers all_rows s = (Return r, s') ->
  sr_sheet_name r = doctype.
Proof.
  unfold process_validated_sheet. intros H.
  apply bind_inv in H as (meta_opt & s0 & _ & H).
  destruct meta_opt as [m|]; [|apply ret_inv in H as [<- _]; reflexivity].
  apply bind_inv in H as ([] & s1 & _ & H).
  destruct (bool_decide _); [apply ret_inv in H as [<- _]; reflexivity|].
  apply bind_inv in H as (reports & s2 & _ & H).
  apply ret_inv in H as [<- _]. reflexivity.
Qed.

(** X6.  The result of a sheet whose header row passed the checks.  It
    carries the sheet's name, and its error count is the length of its
    error list.  A successful one counts every data row, blank ones
    included, and its errors come row by row in the order of the sheet,
    each for a spreadsheet row from 2 on; a failed one counts no row and
    is the schema failure or the sheet without data. *)
Theorem sheet_result_shape doctype skip k headers all_rows s r s' :
  process_validated_sheet env clk doctype skip k headers all_rows s = (Return r, s') ->
  sr_sheet_name r = doctype
  /\ sr_error_count r = length (sr_json_errors r)
  /\ (if sr_success r
      then sr_error r = None /\ sr_total_rows r = length all_rows
           /\ grouped_by_row doctype (length all_rows) (sr_json_errors r)
      else sr_total_rows r = 0%nat
           /\ (r = create_error_sheet doctype "DOCTYPE_ERROR"
                     "Failed to load DocType metadata"
               \/ r = create_error_sheet doctype "NO_DATA_ROWS"
                        "The file contains no data rows.")).
Proof.
  unfold process_validated_sheet. intros H.
  apply bind_inv in H as (meta_opt & s0 & _ & H).
  destruct meta_opt as [m|].
  2:{ apply ret_inv in H as [<- _]. repeat split; auto. }
  apply bind_inv in H as ([] & s1 & _ & H).
  destruct (bool_decide _).
  { apply ret_inv in H as [<- _]. repeat split; auto. }
  apply bind_inv in H as (reports & s2 & Hrows & H).
  apply ret_inv in H as [<- _]. cbn [sr_sheet_name sr_error_count sr_json_errors
                                      sr_success sr_error sr_total_rows].
  repeat split.
  destruct (process_rows_groups _ _ _ _ _ _ _ _ Hrows) as [Hlen Hgroups].
  exists (map rr_json_errors reports). split; [rewrite length_map; exact Hlen|].
  split; [apply flat_map_concat_map|].
  intros i g Hi. change (map rr_json_errors reports) with (rr_json_errors <$> reports) in Hi.
  rewrite list_lookup_fmap in Hi.
  destruct (reports !! i) as [rep|] eqn:Hrep; [|discriminate Hi].
  injection Hi as <-. exact (Hgroups i rep Hrep).
Qed.

(** The row loop of a sheet of fewer than 99 data rows meets no
    checkpoint. *)
Lemma short_sheet_no_timeout doctype skip k headers all_rows s :
  (length all_rows < 99)%nat ->
  timed_out (process_validated_sheet env clk doctype skip k headers all_rows s) = false.
Proof.
  intros Hlen. unfold timed_out.
  destruct (process_validated_sheet env clk doctype skip k headers all_rows s)
    as [[r|[msg|msg]] t] eqn:Hrun; cbn [fst]; try reflexivity.
  destruct (process_validated_sheet_timeout _ _ _ _ _ _ _ _ _ _ Hrun)
    as (r & Hr & Hm & _).
  rewrite Nat.mod_small in Hm by lia. lia.
Qed.

(** X7.  A defect of the header row fails the sheet before the store is
    touched: a blank header cell gives [EMPTY_HEADERS], two header cells
    with the same name give [DUPLICATE_HEADERS]; the result has one
    sheet-level entry and counts no row, and the state is as it was. *)
Theorem header_defect_reported wb doctype skip k s sheet header_row all_rows :
  sheet_of wb doctype = Some sheet ->
  ws_rows sheet = header_row :: all_rows ->
  existsb is_blank_header header_row = true \/ ~ NoDup (header_names header_row) ->
  exists msg,
    process_sheet_with_validation env clk wb doctype skip k s
    = (Return (create_error_sheet doctype
                 (if existsb is_blank_header header_row
                  then "EMPTY_HEADERS" else "DUPLICATE_HEADERS") msg), s).
Proof.
  intros Hs Hrows Hdef. rewrite (process_sheet_found env clk _ _ _ _ _ _ Hs), Hrows.
  destruct header_row as [|h0 hs].
  { destruct Hdef as [Hb|Hd]; [discriminate Hb|]. destruct Hd. constructor. }
  unfold try_except.
  destruct (bool_decide (header_names (h0 :: hs) = [])) eqn:He.
  - apply bool_decide_eq_true in He.
    destruct Hdef as [Hb|Hd]; [|destruct Hd; rewrite He; constructor].
    rewrite Hb. eexists. reflexivity.
  - destruct (existsb is_blank_header (h0 :: hs)) eqn:Hb; [eexists; reflexivity|].
    destruct Hdef as [Hb'|Hd]; [discriminate Hb'|].
    rewrite bool_decide_eq_false_2 by exact Hd. eexists. reflexivity.
Qed.

(** X8.  A sheet whose data rows are all blank, or that has none, fails
    with [NO_DATA_ROWS] once its schema is loaded, whatever the store
    answers to the prefetching. *)
Theorem sheet_without_data doctype skip k headers all_rows s m :
  get_meta env doctype = Ok m ->
  Forall (fun r => is_valid_row r = false) all_rows ->
  fst (process_validated_sheet env clk doctype skip k headers all_rows s)
  = Return (create_error_sheet doctype "NO_DATA_ROWS"
              "The file contains no data rows.").
Proof.
  intros Hm Hall. unfold process_validated_sheet. unfold bind at 1.
  rewrite safe_get_meta_run, Hm.
  assert (Hnone : filter is_valid_row all_rows = []).
  { apply filter_none. intros r Hr Hv.
    rewrite (proj1 (Forall_forall _ _) Hall r Hr) in Hv. exact Hv. }
  rewrite bool_decide_eq_true_2 by exact Hnone.
  unfold bind. destruct skip; [reflexivity|].
  pose proof (for_each_prefetch_returns env (set_iter (link_doctypes m))
                (logged s (CallGetMeta doctype))) as Hp.
  unfold prefetch_link_caches.
  destruct (for_each _ _ _) as [res t]. cbn [fst] in Hp. subst res. reflexivity.
Qed.

(** X9.  A sheet of at most 98 data rows always gets a result: the budget
    is checked at the rows whose index is a multiple of 100 only, which
    such a sheet does not reach, and every other failure is turned into a
    result. *)
Theorem short_sheet_reported wb doctype skip k s :
  (forall sheet, sheet_of wb doctype = Some sheet ->
                 (length (ws_rows sheet) < 100)%nat) ->
  exists r, fst (process_sheet_with_validation env clk wb doctype skip k s) = Return r.
Proof.
  intros Hshort.
  destruct (process_sheet_with_validation env clk wb doctype skip k s)
    as [[r|e] t] eqn:Hrun; [eauto|]. exfalso.
  destruct (sheet_of wb doctype) as [sheet|] eqn:Hs.
  - specialize (Hshort sheet eq_refl).
    rewrite (process_sheet_found env clk _ _ _ _ _ _ Hs) in Hrun.
    apply try_except_throw_inv in Hrun as (e0 & s0 & Hin & Hh).
    destruct e0 as [msg|msg]; [|discriminate Hh].
    destruct (ws_rows sheet) as [|header_row all_rows]; [discriminate Hin|].
    destruct header_row as [|h0 hs]; [discriminate Hin|].
    repeat match type of Hin with
           | (if ?c then _ else _) _ = _ => destruct c; [discriminate Hin|]
           end.
    pose proof (short_sheet_no_timeout doctype skip k (header_names (h0 :: hs))
                  all_rows s) as Hno.
    unfold timed_out in Hno. rewrite Hin in Hno. cbn [fst length] in *.
    assert (false = true -> False) by discriminate. apply H. symmetry. apply Hno. lia.
  - unfold sheet_of in Hs. unfold process_sheet_with_validation in Hrun.
    apply try_except_throw_inv in Hrun as (e0 & s0 & Hin & Hh).
    destruct (dict_of _ !! _) as [title|]; [|discriminate Hin].
    rewrite Hs in Hin. injection Hin as <- <-. discriminate Hh.
Qed.

End SheetShape.

(** A row of the [Student] sheet with a blank required cell. *)
Lemma row_report_shape_witness :
  match fst (validate_row Examples.site Examples.calm_clock
               (Examples.student_ctx ["Name"; "Email"] false) 2
               [CStr "Asha"; CStr ""] (new_tracker []) empty_state) with
  | Return (rep, _) =>
      rr_error_count rep = length (rr_json_errors rep)
      /\ length (rr_values rep) = 2%nat
  | Throw _ => False
  end.
Proof.
  assert (Hret : returned (validate_row Examples.site Examples.calm_clock
                             (Examples.student_ctx ["Name"; "Email"] false) 2
                             [CStr "Asha"; CStr ""] (new_tracker []) empty_state)
                 = true) by (vm_compute; reflexivity).
  destruct (validate_row Examples.site Examples.calm_clock
              (Examples.student_ctx ["Name"; "Email"] false) 2
              [CStr "Asha"; CStr ""] (new_tracker []) empty_state)
    as [[[rep tr']|e] s'] eqn:Hrun; cbn [fst].
  - destruct (row_report_shape Examples.site Examples.calm_clock _ _ _ _ _ _ _ _ Hrun)
      as (Hcount & _ & _ & _ & Hvals & _).
    split; [exact Hcount | exact Hvals].
  - discriminate Hret.
Defined.

(** The three data rows of a [Student] sheet, one of them naming a city
    the site does not hold. *)
Lemma sheet_result_shape_witness :
  match fst (process_validated_sheet Examples.site Examples.calm_clock "Student"
               false 1 ["Name"; "Email"; "City"]
               [[CStr "Asha"; CStr "a@x.in"; CStr "Delhi"];
                [CStr "Bina"; CStr "b@x.in"; CStr "Kanpu"]] empty_state) with
  | Return r =>
      sr_sheet_name r = "Student"
      /\ sr_error_count r = length (sr_json_errors r)
  | Throw _ => False
  end.
Proof.
  assert (Hret : returned (process_validated_sheet Examples.site Examples.calm_clock
                             "Student" false 1 ["Name"; "Email"; "City"]
                             [[CStr "Asha"; CStr "a@x.in"; CStr "Delhi"];
                              [CStr "Bina"; CStr "b@x.in"; CStr "Kanpu"]] empty_state)
                 = true) by (vm_compute; reflexivity).
  destruct (process_validated_sheet Examples.site Examples.calm_clock
              "Student" false 1 ["Name"; "Email"; "City"]
              [[CStr "Asha"; CStr "a@x.in"; CStr "Delhi"];
               [CStr "Bina"; CStr "b@x.in"; CStr "Kanpu"]] empty_state)
    as [[r|e] s'] eqn:Hrun; cbn [fst].
  - destruct (sheet_result_shape Examples.site Examples.calm_clock _ _ _ _ _ _ _ _ Hrun)
      as (Hname & Hcount & _).
    split; [exact Hname | exact Hcount].
  - discriminate Hret.
Defined.

(** A [Student] sheet whose header row names "Name" twice. *)
Lemma header_defect_reported_witness :
  exists msg,
    process_sheet_with_validation Examples.site Examples.calm_clock
      Examples.twin_book "Student" false 1 empty_state
    = (Return (create_error_sheet "Student" "DUPLICATE_HEADERS" msg), empty_state).
Proof.
  apply (header_defect_reported Examples.site Examples.calm_clock Examples.twin_book
           "Student" false 1 empty_state
           {| ws_title := "Student";
              ws_rows := [[CStr "Name"; CStr "Name"]; [CStr "Asha"; CStr "Bina"]] |}
           [CStr "Name"; CStr "Name"] [[CStr "Asha"; CStr "Bina"]]).
  - reflexivity.
  - reflexivity.
  - right. change (~ NoDup ["Name"; "Name"]). intros Hnd.
    apply NoDup_cons in Hnd as [Hn _]. apply Hn, elem_of_cons. auto.
Defined.

(** A [Student] sheet whose two data rows hold nothing. *)
Lemma sheet_without_data_witness :
  fst (process_validated_sheet Examples.site Examples.calm_clock "Student" false 1
         ["Name"] [[CNone]; [CStr "  "]] empty_state)
  = Return (create_error_sheet "Student" "NO_DATA_ROWS"
              "The file contains no data rows.").
Proof.
  apply (sheet_without_data Examples.site Examples.calm_clock "Student" false 1
           ["Name"] [[CNone]; [CStr "  "]] empty_state Examples.student_meta).
  - reflexivity.
  - repeat constructor.
Defined.

(** A sheet of two data rows on the clock on which every checkpoint
    trips. *)
Lemma short_sheet_reported_witness :
  exists r,
    fst (process_sheet_with_validation Examples.site Examples.expired_clock
           Examples.link_book "Student" false 1 empty_state) = Return r.
Proof.
  apply (short_sheet_reported Examples.site Examples.expired_clock Examples.link_book
           "Student" false 1 empty_state).
  intros sheet Hs.
  assert (Hfound : sheet_of Examples.link_book "Student"
                   = Some {| ws_title := "Student";
                             ws_rows := [[CStr "Name"; CStr "Email"; CStr "City"];
                                         [CStr "Asha"; CStr "a@x.in"; CStr "Delhi"];
                                         [CStr "Bina"; CStr "b@x.in"; CStr "Kanpu"]] |})
    by reflexivity.
  rewrite Hfound in Hs. injection Hs as <-. cbn [ws_rows length]. lia.
Defined.

(** ** The batch report *)

Section BatchShape.
Context {RT : PyRuntime}.
Variable env : frappe.
Variable clk : clock.

Lemma process_sheet_name wb doctype skip k s r s' :
  process_sheet_with_validation env clk wb doctype skip k s = (Return r, s') ->
  sr_sheet_name r = doctype.
Proof.
  unfold process_sheet_with_validation. intros H.
  apply try_except_return_inv in H as [H|(e & s0 & _ & H)].
  - destruct (dict_of _ !! _) as [title|]; [|apply ret_inv in H as [<- _]; reflexivity].
    destruct (workbook_get wb title) as [sheet|]; [|discriminate H].
    destruct (ws_rows sheet) as [|header_row all_rows];
      [apply ret_inv in H as [<- _]; reflexivity|].
    destruct header_row as [|h0 hs]; [apply ret_inv in H as [<- _]; reflexivity|].
    repeat match type of H with
           | (if ?c then _ else _) _ = _ =>
               destruct c; [apply ret_inv in H as [<- _]; reflexivity|]
           end.
    exact (process_validated_sheet_name env clk _ _ _ _ _ _ _ _ H).
  - destruct e; [discriminate H|]. apply ret_inv in H as [<- _]. reflexivity.
Qed.

(** One iteration of the sheet loop returns, and records one result. *)
Lemma process_one_sheet_step wb skip idx name st s :
  exists st' s' r,
    process_one_sheet env clk wb skip idx name st s = (Return st', s')
    /\ sheet_results st' = (sheet_results st ++ [r])%list
    /\ sr_sheet_name r = name
    /\ validated_sheets st'
       = (validated_sheets st + length (List.filter sr_success [r]))%nat
    /\ total_rows st' = (total_rows st + sr_total_rows r)%nat
    /\ total_sheets st' = total_sheets st.
Proof.
  unfold process_one_sheet, bind.
  destruct (check_doctype_exists_returns env name s) as (b & s0 & ->).
  destruct b; cbn [negb].
  - unfold try_except, bind.
    destruct (process_sheet_with_validation env clk wb name skip idx s0)
      as [[r|e] s1] eqn:Hrun.
    + exists (record_processed st r), s1, r. split; [reflexivity|].
      split; [reflexivity|]. split; [eapply process_sheet_name; eauto|].
      cbn [record_processed validated_sheets total_rows total_sheets List.filter].
      destruct (sr_success r); cbn [length]; repeat split; lia.
    + destruct e; eexists _, _, _; (split; [reflexivity|]);
        (split; [reflexivity|]);
        cbn [record_aborted create_error_sheet sheet_results sr_sheet_name
             validated_sheets total_rows total_sheets List.filter sr_success
             sr_total_rows length];
        repeat split; lia.
  - eexists _, _, _. split; [reflexivity|]. split; [reflexivity|].
    cbn [record_unknown create_error_sheet sheet_results sr_sheet_name
         validated_sheets total_rows total_sheets List.filter sr_success
         sr_total_rows length].
    repeat split; lia.
Qed.

Lemma process_sheets_shape wb skip names : forall k st s,
  exists st' s' new,
    process_sheets env clk wb skip k names st s = (Return st', s')
    /\ sheet_results st' = (sheet_results st ++ new)%list
    /\ map sr_sheet_name new `prefix_of` names
    /\ validated_sheets st'
       = (validated_sheets st + length (List.filter sr_success new))%nat
    /\ total_rows st' = (total_rows st + list_sum (map sr_total_rows new))%nat
    /\ total_sheets st' = total_sheets st
    /\ ((forall j, Qgt_bool (elapsed_total clk j) VALIDATION_TIMEOUT = false) ->
        map sr_sheet_name new = names)
    /\ (new = [] <->
        names = [] \/ Qgt_bool (elapsed_total clk k) VALIDATION_TIMEOUT = true).
Proof.
  induction names as [|name rest IH]; intros k st s; cbn [process_sheets].
  - exists st, s, []. rewrite app_nil_r. cbn.
    repeat split; try lia; auto; try apply prefix_nil.
  - destruct (Qgt_bool (elapsed_total clk k) VALIDATION_TIMEOUT) eqn:Hq.
    + exists st, s, []. rewrite app_nil_r. cbn.
      repeat split; try lia; auto; try apply prefix_nil.
      intros Hall. rewrite Hall in Hq. discriminate Hq.
    + destruct (process_one_sheet_step wb skip k name st s)
        as (st1 & s1 & r & Hone & Hres & Hname & Hval & Hrows & Htot).
      unfold bind. rewrite Hone.
      destruct (IH (S k) st1 s1)
        as (st' & s' & new & Hrun & Hres' & Hpre & Hval' & Hrows' & Htot' & Hfull & _).
      exists st', s', (r :: new). split; [exact Hrun|].
      split; [rewrite Hres', Hres, <- app_assoc; reflexivity|].
      split; [cbn [map]; rewrite Hname; apply prefix_cons, Hpre|].
      split.
      { rewrite Hval', Hval. cbn [List.filter]. destruct (sr_success r); cbn; lia. }
      split.
      { rewrite Hrows', Hrows. cbn [map].
        change (list_sum (sr_total_rows r :: map sr_total_rows new))
          with (sr_total_rows r + list_sum (map sr_total_rows new))%nat. lia. }
      split; [congruence|].
      split; [intros Hall; cbn [map]; rewrite Hname, (Hfull Hall); reflexivity|].
      split; [discriminate|]. intros [Hn|Hn]; discriminate Hn.
Qed.

(** X10.  The answer of [validate_and_add_error_columns], from the
    loaded workbook on.  When no sheet is processed (the overall budget is
    found exceeded before the first sheet, or the workbook has no sheet),
    the output workbook has no sheet, saving it raises, and the answer is
    the [PROCESSING_ERROR] failure.  Otherwise the answer is a report,
    whatever the sheets and the store do: it counts the sheets of the
    workbook; its sheet results are those of the first sheets of the
    workbook, in order, at least one, and of all of them when the overall
    budget is never found exceeded; [validated_sheets] is the number of
    successful results, [total_rows] the sum of their row counts,
    [total_errors] the sum of the error counts of the results that are
    counted, and [structure_valid] says that [total_errors] is 0. *)
Theorem batch_report_shape wb skip s :
  (wb = [] \/ Qgt_bool (elapsed_total clk 1) VALIDATION_TIMEOUT = true ->
   fst (validate_and_add_error_columns env clk wb skip s)
   = Return (fail "PROCESSING_ERROR" ("Unexpected error: " ++ SAVE_EMPTY_MESSAGE)))
  /\ (wb <> [] -> Qgt_bool (elapsed_total clk 1) VALIDATION_TIMEOUT = false ->
      exists rep,
        fst (validate_and_add_error_columns env clk wb skip s) = Return (Report rep)
        /\ r_total_sheets rep = length wb
        /\ r_sheet_results rep <> []
        /\ map sr_sheet_name (r_sheet_results rep) `prefix_of` sheetnames wb
        /\ r_validated_sheets rep
           = length (List.filter sr_success (r_sheet_results rep))
        /\ r_total_rows rep = list_sum (map sr_total_rows (r_sheet_results rep))
        /\ r_total_errors rep = counted_errors (r_sheet_results rep)
        /\ structure_valid rep = (r_total_errors rep =? 0)%nat
        /\ ((forall j, Qgt_bool (elapsed_total clk j) VALIDATION_TIMEOUT = false) ->
            map sr_sheet_name (r_sheet_results rep) = sheetnames wb)).
Proof.
  set (st0 := {| total_sheets := length (sheetnames wb); validated_sheets := 0;
                 total_errors := 0; total_rows := 0; sheet_results := [];
                 all_json_errors := [] |}).
  destruct (process_sheets_shape wb (String.eqb skip "1") (sheetnames wb) 1 st0 s)
    as (st' & s' & new & Hrun & Hres & Hpre & Hval & Hrows & Htot & Hfull & Hnil).
  assert (Hok0 : stats_ok st0).
  { split; [reflexivity|]. intros r Hr. apply elem_of_nil in Hr as []. }
  destruct (process_sheets_ok env clk wb (String.eqb skip "1") (sheetnames wb) 1 st0 s
              Hok0) as (st2 & s2 & Hrun2 & [Hcount _]).
  rewrite Hrun in Hrun2. injection Hrun2 as <- <-.
  cbn [sheet_results app validated_sheets total_rows total_sheets] in Hres, Hval, Hrows, Htot.
  assert (Hnames : sheetnames wb = [] <-> wb = []).
  { unfold sheetnames. split; [apply map_eq_nil | intros ->; reflexivity]. }
  unfold validate_and_add_error_columns, try_except, bind. fold st0. rewrite Hrun.
  unfold save_output. split.
  - intros Hcut. rewrite bool_decide_eq_true_2; [reflexivity|].
    rewrite Hres. apply Hnil. destruct Hcut as [Hw|Hq]; [left; apply Hnames, Hw | auto].
  - intros Hwb Hq. rewrite bool_decide_eq_false_2.
    2:{ rewrite Hres. intros Hn. apply Hnil in Hn as [Hn|Hn].
        - apply Hwb, Hnames, Hn.
        - rewrite Hq in Hn. discriminate Hn. }
    eexists. split; [reflexivity|].
    cbn [r_total_sheets r_sheet_results r_validated_sheets r_total_rows structure_valid
         r_total_errors].
    rewrite Htot, Hres. change (total_sheets st0) with (length (sheetnames wb)).
    unfold sheetnames at 1. rewrite length_map.
    assert (Hne : new <> []).
    { intros Hn. apply Hnil in Hn as [Hn|Hn].
      - apply Hwb, Hnames, Hn.
      - rewrite Hq in Hn. discriminate Hn. }
    rewrite Hres in Hcount.
    repeat split; auto.
Qed.

End BatchShape.

(** The overall budget found exceeded before the first sheet: the answer
    is the failure; on a clock that never runs out, a report on both sheets
    of the workbook. *)
Lemma batch_report_shape_witness :
  response_summary (validate_and_add_error_columns Examples.site Examples.late_clock
                      Examples.mixed_book "0" empty_state) = None
  /\ exists rep,
       fst (validate_and_add_error_columns Examples.site Examples.calm_clock
              Examples.mixed_book "0" empty_state) = Return (Report rep)
       /\ map sr_sheet_name (r_sheet_results rep) = ["Ghost"; "Student"].
Proof.
  destruct (batch_report_shape (RT := ExampleRuntime.runtime) Examples.site
              Examples.late_clock Examples.mixed_book "0" empty_state) as [Hfail _].
  destruct (batch_report_shape (RT := ExampleRuntime.runtime) Examples.site
              Examples.calm_clock Examples.mixed_book "0" empty_state) as [_ Hrep].
  split.
  - unfold response_summary. rewrite Hfail; [reflexivity | right; reflexivity].
  - destruct Hrep as (rep & Hrun & _ & _ & _ & _ & _ & _ & _ & Hall);
      [discriminate | reflexivity |].
    exists rep. split; [exact Hrun|]. apply Hall. intros j. reflexivity.
Defined.

(** ** Header normalisation *)

Lemma lower_char_facts c :
  PyStr.is_space (PyStr.lower_char c) = PyStr.is_space c
  /\ Ascii.eqb (PyStr.lower_char c) "(" = Ascii.eqb c "("
  /\ Ascii.eqb (PyStr.lower_char c) ")" = Ascii.eqb c ")"
  /\ Ascii.eqb (PyStr.lower_char c) "010" = Ascii.eqb c "010"
  /\ PyStr.lower_char (PyStr.lower_char c) = PyStr.lower_char c
  /\ PyStr.is_upper (PyStr.lower_char c) = false.
Proof.
  destruct c as [[] [] [] [] [] [] [] []]; vm_compute; repeat split.
Qed.

Lemma drop_spaces_lower l :
  PyStr.drop_spaces (map PyStr.lower_char l) = map PyStr.lower_char (PyStr.drop_spaces l).
Proof.
  induction l as [|c r IH]; [reflexivity|]. cbn [map PyStr.drop_spaces].
  rewrite (proj1 (lower_char_facts c)). destruct (PyStr.is_space c); [exact IH | reflexivity].
Qed.

Lemma no_newline_lower l :
  forallb (fun c => negb (Ascii.eqb c "010")) (map PyStr.lower_char l)
  = forallb (fun c => negb (Ascii.eqb c "010")) l.
Proof.
  induction l as [|c r IH]; [reflexivity|]. cbn [map forallb].
  rewrite IH. now rewrite (proj1 (proj2 (proj2 (proj2 (lower_char_facts c))))).
Qed.

Lemma paren_tail_lower l :
  PyStr.paren_tail (map PyStr.lower_char l) = PyStr.paren_tail l.
Proof.
  destruct l as [|c rest]; [reflexivity|]. cbn [map].
  destruct (lower_char_facts c) as (_ & Hopen & _).
  unfold PyStr.paren_tail.
  assert (Hc : forall (d : ascii) (X Y : bool),
            (Ascii.eqb d "(" = true -> X = Y) ->
            match d with "("%char => X | _ => false end
            = if Ascii.eqb d "(" then Y else false).
  { intros d X Y HXY. destruct (Ascii.eqb d "(") eqn:E.
    - apply Ascii.eqb_eq in E as ->. apply HXY. reflexivity.
    - destruct d as [[] [] [] [] [] [] [] []]; try reflexivity. discriminate E. }
  set (tail := fun rest : list ascii =>
         match rev rest with
         | ")"%char :: mid => forallb (fun c => negb (Ascii.eqb c "010")) mid
         | _ => false
         end).
  change (match PyStr.lower_char c with "("%char => tail (map PyStr.lower_char rest)
                                   | _ => false end
          = match c with "("%char => tail rest | _ => false end).
  assert (Ht : tail (map PyStr.lower_char rest) = tail rest).
  { subst tail. cbv beta. rewrite <- map_rev.
    destruct (rev rest) as [|d mid]; [reflexivity|]. cbn [map].
    destruct (lower_char_facts d) as (_ & _ & Hclose & _).
    assert (Hd : forall (d : ascii) (X Y : bool),
              (Ascii.eqb d ")" = true -> X = Y) ->
              match d with ")"%char => X | _ => false end
              = if Ascii.eqb d ")" then Y else false).
    { intros d0 X Y HXY. destruct (Ascii.eqb d0 ")") eqn:E.
      - apply Ascii.eqb_eq in E as ->. apply HXY. reflexivity.
      - destruct d0 as [[] [] [] [] [] [] [] []]; try reflexivity. discriminate E. }
    rewrite (Hd (PyStr.lower_char d) _
               (forallb (fun c => negb (Ascii.eqb c "010")) mid)).
    - rewrite Hclose. symmetry. apply Hd. auto.
    - intros _. apply no_newline_lower. }
  rewrite (Hc (PyStr.lower_char c) _ (tail rest)) by (intros _; exact Ht).
  rewrite Hopen. symmetry. apply Hc. auto.
Qed.

Lemma sub_paren_lower l :
  PyStr.sub_paren (map PyStr.lower_char l) = map PyStr.lower_char (PyStr.sub_paren l).
Proof.
  induction l as [|c r IH].
  - reflexivity.
  - cbn [PyStr.sub_paren map].
    change (PyStr.lower_char c :: map PyStr.lower_char r)
      with (map PyStr.lower_char (c :: r)) at 1.
    rewrite drop_spaces_lower, paren_tail_lower.
    destruct (PyStr.paren_tail _); [reflexivity|]. cbn [map]. now rewrite IH.
Qed.

Lemma chars_lower s : PyStr.chars (PyStr.lower s) = map PyStr.lower_char (PyStr.chars s).
Proof. unfold PyStr.lower. apply chars_of_chars. Qed.

Lemma strip_lower s : PyStr.strip (PyStr.lower s) = PyStr.lower (PyStr.strip s).
Proof.
  unfold PyStr.strip. rewrite chars_lower, drop_spaces_lower, <- map_rev,
    drop_spaces_lower, <- map_rev.
  unfold PyStr.lower. now rewrite chars_of_chars.
Qed.

Lemma lower_lower s : PyStr.lower (PyStr.lower s) = PyStr.lower s.
Proof.
  unfold PyStr.lower at 1. rewrite chars_lower, map_map. unfold PyStr.lower.
  f_equal. apply map_ext. intros c.
  exact (proj1 (proj2 (proj2 (proj2 (proj2 (lower_char_facts c)))))).
Qed.

(** X11.  The key [clean_header] gives a header holds no space and no
    upper-case letter, and it does not depend on the case of the header:
    headers are matched to schema labels with cases and spaces ignored. *)
Theorem clean_header_key h :
  Forall (fun c => c <> " "%char /\ PyStr.is_upper c = false)
    (PyStr.chars (clean_header h))
  /\ clean_header (PyStr.lower h) = clean_header h.
Proof.
  split.
  - unfold clean_header, PyStr.remove_spaces. rewrite chars_of_chars, chars_lower.
    apply Forall_forall. intros c Hc. apply list_elem_of_filter in Hc as [Hsp Hin].
    split.
    + intros ->. exact Hsp.
    + apply list_elem_of_In, in_map_iff in Hin as (d & <- & _).
      exact (proj2 (proj2 (proj2 (proj2 (proj2 (lower_char_facts d)))))).
  - unfold clean_header. rewrite strip_lower, chars_lower, sub_paren_lower.
    f_equal. unfold PyStr.lower. rewrite !chars_of_chars, map_map.
    f_equal. apply map_ext. intros c.
    exact (proj1 (proj2 (proj2 (proj2 (proj2 (lower_char_facts c)))))).
Qed.

(** *** A parenthesised suffix *)

Lemma paren_tail_not_open c l :
  Ascii.eqb c "(" = false -> PyStr.paren_tail (c :: l) = false.
Proof.
  intros E. destruct c as [[] [] [] [] [] [] [] []]; try reflexivity. discriminate E.
Qed.

Lemma drop_spaces_Forall (P : ascii -> Prop) l :
  Forall P l -> Forall P (PyStr.drop_spaces l).
Proof.
  induction 1 as [|c r Hc Hr IH]; cbn [PyStr.drop_spaces]; [constructor|].
  destruct (PyStr.is_space c); [exact IH | now constructor].
Qed.

Lemma drop_spaces_app l m :
  PyStr.drop_spaces (l ++ m)
  = if forallb PyStr.is_space l then PyStr.drop_spaces m
    else (PyStr.drop_spaces l ++ m)%list.
Proof.
  induction l as [|c r IH]; [reflexivity|].
  cbn [app PyStr.drop_spaces forallb]. destruct (PyStr.is_space c); [exact IH | reflexivity].
Qed.

Lemma drop_spaces_all l :
  forallb PyStr.is_space l = true -> PyStr.drop_spaces l = [].
Proof.
  induction l as [|c r IH]; [reflexivity|]. cbn [forallb PyStr.drop_spaces].
  destruct (PyStr.is_space c); [exact IH | discriminate].
Qed.

Lemma drop_spaces_some l :
  forallb PyStr.is_space l = false ->
  exists d rest, PyStr.drop_spaces l = d :: rest /\ d ∈ l.
Proof.
  induction l as [|c r IH]; [discriminate|]. cbn [forallb PyStr.drop_spaces].
  destruct (PyStr.is_space c).
  - intros H. destruct (IH H) as (d & rest & E & Hin).
    exists d, rest. split; [exact E | apply elem_of_cons; auto].
  - intros _. exists c, r. split; [reflexivity | apply elem_of_cons; auto].
Qed.

Lemma sub_paren_id l :
  Forall (fun c => Ascii.eqb c "(" = false) l -> PyStr.sub_paren l = l.
Proof.
  induction 1 as [|c r Hc Hr IH]; [reflexivity|].
  cbn [PyStr.sub_paren].
  assert (Hp : PyStr.paren_tail (PyStr.drop_spaces (c :: r)) = false).
  { pose proof (drop_spaces_Forall _ (c :: r) (Forall_cons_2 _ _ _ Hc Hr)) as Hd.
    destruct (PyStr.drop_spaces (c :: r)) as [|d rest]; [reflexivity|].
    apply paren_tail_not_open. apply Forall_cons in Hd as [Hd _]. exact Hd. }
  rewrite Hp, IH. reflexivity.
Qed.

Lemma forallb_is_space_rev l :
  forallb PyStr.is_space (rev l) = forallb PyStr.is_space l.
Proof.
  induction l as [|c r IH]; [reflexivity|]. cbn [rev forallb].
  rewrite forallb_app, IH. cbn [forallb]. rewrite andb_true_r. apply andb_comm.
Qed.

(** The tail a parenthesised suffix leaves is the text before it, without
    the spaces that end it. *)
Lemma sub_paren_suffix (a u : list ascii) :
  Forall (fun c => Ascii.eqb c "(" = false) a ->
  forallb (fun c => negb (Ascii.eqb c "010")) u = true ->
  PyStr.sub_paren (a ++ "("%char :: u ++ [")"%char])%list
  = rev (PyStr.drop_spaces (rev a)).
Proof.
  intros Ha Hu.
  set (x := ("("%char :: u ++ [")"%char])%list).
  assert (Hdx : PyStr.drop_spaces x = x) by reflexivity.
  assert (Hx : PyStr.paren_tail x = true).
  { subst x. unfold PyStr.paren_tail. rewrite rev_app_distr. cbn [rev app].
    rewrite forallb_forall in Hu. apply forallb_forall. intros y Hy.
    apply Hu. apply in_rev. exact Hy. }
  assert (Hsx : PyStr.sub_paren x = []).
  { unfold x at 1. cbn [PyStr.sub_paren]. fold x. rewrite Hdx, Hx. reflexivity. }
  clearbody x.
  induction Ha as [|c r Hc Hr IH].
  - exact Hsx.
  - change ((c :: r) ++ x)%list with (c :: (r ++ x))%list.
    cbn [PyStr.sub_paren].
    change (c :: (r ++ x))%list with ((c :: r) ++ x)%list.
    rewrite drop_spaces_app.
    destruct (forallb PyStr.is_space (c :: r)) eqn:Hall.
    + rewrite Hdx, Hx. rewrite drop_spaces_all; [reflexivity|].
      rewrite forallb_is_space_rev. exact Hall.
    + destruct (drop_spaces_some _ Hall) as (d & rest & E & Hin).
      rewrite E. cbn [app].
      rewrite paren_tail_not_open.
      2:{ apply elem_of_cons in Hin as [->|Hin]; [exact Hc|].
          exact (proj1 (Forall_forall _ _) Hr d Hin). }
      rewrite IH. cbn [rev]. rewrite drop_spaces_app.
      destruct (forallb PyStr.is_space (rev r)) eqn:Hr'.
      * rewrite forallb_is_space_rev in Hr'. cbn [forallb] in Hall.
        rewrite Hr', andb_true_r in Hall.
        cbn [PyStr.drop_spaces]. rewrite Hall.
        rewrite drop_spaces_all by (rewrite forallb_is_space_rev; exact Hr').
        reflexivity.
      * rewrite rev_app_distr. reflexivity.
Qed.

Lemma chars_app a b : PyStr.chars (a ++ b) = (PyStr.chars a ++ PyStr.chars b)%list.
Proof.
  induction a as [|c r IH]; [reflexivity|].
  change (PyStr.chars (String c (r ++ b)) = c :: (PyStr.chars r ++ PyStr.chars b)%list).
  change (PyStr.chars (String c (r ++ b))) with (c :: PyStr.chars (r ++ b)).
  now rewrite IH.
Qed.

(** X12.  A parenthesised suffix without a line break, such as a unit,
    is not part of the key: a header that carries one gets the key of the
    text before it. *)
Theorem parenthesised_suffix_ignored h u :
  Forall (fun c => Ascii.eqb c "(" = false) (PyStr.chars h) ->
  forallb (fun c => negb (Ascii.eqb c "010")) (PyStr.chars u) = true ->
  clean_header (h ++ "(" ++ u ++ ")") = clean_header h.
Proof.
  intros Hh Hu.
  set (a := PyStr.drop_spaces (PyStr.chars h)).
  assert (Ha : Forall (fun c => Ascii.eqb c "(" = false) a)
    by (apply drop_spaces_Forall; exact Hh).
  assert (Hstrip : PyStr.chars (PyStr.strip h) = rev (PyStr.drop_spaces (rev a))).
  { unfold PyStr.strip. apply chars_of_chars. }
  assert (Hlong : PyStr.chars (PyStr.strip (h ++ "(" ++ u ++ ")"))
                  = (a ++ "("%char :: PyStr.chars u ++ [")"%char])%list).
  { unfold PyStr.strip. rewrite chars_of_chars, !chars_app.
    change (PyStr.chars "(") with ["("%char]. change (PyStr.chars ")") with [")"%char].
    cbn [app].
    set (x := ("("%char :: PyStr.chars u ++ [")"%char])%list).
    assert (Hdx : PyStr.drop_spaces x = x) by reflexivity.
    assert (Hrx : forall l, PyStr.drop_spaces (rev (l ++ x)) = rev (l ++ x)).
    { intros l. subst x.
      change (l ++ "("%char :: PyStr.chars u ++ [")"%char])%list
        with (l ++ ("("%char :: PyStr.chars u) ++ [")"%char])%list.
      rewrite app_assoc, rev_app_distr. reflexivity. }
    clearbody x.
    rewrite drop_spaces_app. fold a.
    destruct (forallb PyStr.is_space (PyStr.chars h)) eqn:Hall.
    - assert (Ea : a = []) by (apply drop_spaces_all; exact Hall). rewrite Ea, Hdx.
      specialize (Hrx []). cbn [app] in Hrx.
      rewrite Hrx. apply rev_involutive.
    - rewrite Hrx. apply rev_involutive. }
  unfold clean_header. rewrite Hlong, Hstrip, (sub_paren_suffix a _ Ha Hu).
  rewrite sub_paren_id; [reflexivity|].
  apply Forall_rev, drop_spaces_Forall, Forall_rev, Ha.
Qed.

Lemma clean_header_key_witness :
  clean_header "Student NAME" = "studentname"
  /\ clean_header (PyStr.lower "Student NAME") = clean_header "Student NAME".
Proof.
  split; [vm_compute; reflexivity|].
  exact (proj2 (clean_header_key "Student NAME")).
Defined.

Lemma parenthesised_suffix_ignored_witness :
  clean_header ("Fee Amount " ++ "(" ++ "INR" ++ ")") = clean_header "Fee Amount ".
Proof.
  apply parenthesised_suffix_ignored.
  - vm_compute. repeat constructor.
  - reflexivity.
Defined.

(** ** Columns and fields bound to headers *)

Lemma dict_of_sound {A} (l : list (string * A)) : forall (m : gmap string A) k v,
  fold_left (fun m kv => <[fst kv := snd kv]> m) l m !! k = Some v ->
  m !! k = Some v \/ (k, v) ∈ l.
Proof.
  induction l as [|[k' v'] r IH]; intros m k v H; cbn [fold_left fst snd] in H.
  - auto.
  - destruct (IH _ _ _ H) as [H1|H1].
    + destruct (decide (k' = k)) as [->|Hne].
      * rewrite lookup_insert_eq in H1. injection H1 as ->.
        right. apply elem_of_cons. auto.
      * rewrite lookup_insert_ne in H1 by exact Hne. auto.
    + right. apply elem_of_cons. auto.
Qed.

Lemma headers_norm_sound headers k h :
  headers_norm_of headers !! k = Some h -> h ∈ headers /\ clean_header h = k.
Proof.
  unfold headers_norm_of, dict_of. intros H.
  apply dict_of_sound in H as [H|H].
  - rewrite lookup_empty in H. discriminate H.
  - apply list_elem_of_In, in_map_iff in H as (h' & [= <- <-] & Hin).
    split; [apply list_elem_of_In, Hin | reflexivity].
Qed.

Section Columns.
Context {RT : PyRuntime}.

Lemma bound_column_sound headers df h :
  bound_column (headers_norm_of headers) df = Some h ->
  h ∈ headers
  /\ (clean_header h = norm_attr (label df)
      \/ clean_header h = norm_attr (fieldname df)).
Proof.
  unfold bound_column.
  destruct (headers_norm_of headers !! norm_attr (label df)) as [h'|] eqn:E.
  - intros [= <-]. destruct (headers_norm_sound _ _ _ E). auto.
  - intros E'. destruct (headers_norm_sound _ _ _ E'). auto.
Qed.

(** X13.  The columns the sheet processor checks are columns of the
    sheet: a required column, a unique column and the primary-key column
    are headers, each one bound to a field of the schema with the flag in
    question by the key of its label or of its field name. *)
Theorem checked_columns_are_headers m headers :
  (forall c, c ∈ required_columns_of m headers ->
     c ∈ headers
     /\ exists df, df ∈ fields m /\ reqd df = true
          /\ (clean_header c = norm_attr (label df)
              \/ clean_header c = norm_attr (fieldname df)))
  /\ (forall c, c ∈ get_unique_columns m headers ->
        c ∈ headers
        /\ exists df, df ∈ fields m /\ unique df = true
             /\ (clean_header c = norm_attr (label df)
                 \/ clean_header c = norm_attr (fieldname df)))
  /\ (forall c, get_primary_key m headers = Some c ->
        c ∈ headers
        /\ exists df, df ∈ fields m /\ fieldname df = Some "name"
             /\ (clean_header c = norm_attr (label df) \/ clean_header c = "name")).
Proof.
  split; [|split].
  - intros c Hc. unfold required_columns_of in Hc.
    apply list_elem_of_In, in_flat_map in Hc as (df & Hdf & Hc).
    destruct (reqd df) eqn:Hr; [|destruct Hc]. cbn [andb] in Hc.
    destruct (negb _); [|destruct Hc].
    destruct (bound_column _ df) as [h|] eqn:Hb; [|destruct Hc].
    destruct Hc as [<-|[]]. destruct (bound_column_sound _ _ _ Hb) as [Hin Hk].
    split; [exact Hin|]. exists df. split; [apply list_elem_of_In, Hdf | auto].
  - intros c Hc. unfold get_unique_columns in Hc.
    apply list_elem_of_In, in_flat_map in Hc as (df & Hdf & Hc).
    destruct (unique df) eqn:Hu; [|destruct Hc].
    destruct (bound_column _ df) as [h|] eqn:Hb; [|destruct Hc].
    destruct Hc as [<-|[]]. destruct (bound_column_sound _ _ _ Hb) as [Hin Hk].
    split; [exact Hin|]. exists df. split; [apply list_elem_of_In, Hdf | auto].
  - intros c. unfold get_primary_key.
    induction (fields m) as [|df r IH]; cbn [primary_key_in]; [discriminate|].
    assert (Hrest : primary_key_in (headers_norm_of headers) r = Some c ->
              c ∈ headers
              /\ exists df0, df0 ∈ df :: r /\ fieldname df0 = Some "name"
                   /\ (clean_header c = norm_attr (label df0)
                       \/ clean_header c = "name")).
    { intros H. destruct (IH H) as (Hin & df0 & Hdf0 & Hrest).
      split; [exact Hin|]. exists df0. split; [apply elem_of_cons; auto | exact Hrest]. }
    destruct (fieldname df) as [f|] eqn:Hf; [|exact Hrest].
    destruct (String.eqb f "name") eqn:Hname; [|exact Hrest].
    apply String.eqb_eq in Hname as ->.
    destruct (headers_norm_of headers !! norm_attr (label df)) as [h|] eqn:E.
    { intros [= <-]. destruct (headers_norm_sound _ _ _ E) as [Hin Hk].
      split; [exact Hin|]. exists df. split; [apply elem_of_cons; auto | auto]. }
    destruct (headers_norm_of headers !! "name") as [h|] eqn:E'; [|exact Hrest].
    intros [= <-]. destruct (headers_norm_sound _ _ _ E') as [Hin Hk].
    split; [exact Hin|]. exists df. split; [apply elem_of_cons; auto | auto].
Qed.

End Columns.

(** ** The field map *)

Section FieldMap.
Context {RT : PyRuntime}.

Lemma add_field_keeps_label fm df k : by_label fm k -> by_label (add_field fm df) k.
Proof.
  intros (d & Hd & Hl & Hk). unfold add_field.
  set (fm1 := if str_truthy (label df) then _ else fm).
  assert (H1 : by_label fm1 k).
  { subst fm1. destruct (str_truthy (label df)) eqn:Hdf; [|exists d; auto].
    destruct (decide (clean_header (default "" (label df)) = k)) as [E|Hne].
    - exists df. rewrite <- E at 1. rewrite lookup_insert_eq. auto.
    - exists d. rewrite lookup_insert_ne by exact Hne. auto. }
  destruct (str_truthy (fieldname df)); [|exact H1].
  destruct (fm1 !! clean_header (default "" (fieldname df))) eqn:E; [exact H1|].
  destruct H1 as (d1 & Hd1 & Hl1 & Hk1). exists d1.
  rewrite lookup_insert_ne; [auto|]. intros <-. rewrite E in Hd1. discriminate Hd1.
Qed.

Lemma add_field_binds_label fm df :
  str_truthy (label df) = true ->
  by_label (add_field fm df) (clean_header (default "" (label df))).
Proof.
  intros Hl. unfold add_field. rewrite Hl.
  set (fm1 := <[_ := df]> fm).
  assert (H1 : by_label fm1 (clean_header (default "" (label df)))).
  { exists df. subst fm1. rewrite lookup_insert_eq. auto. }
  destruct (str_truthy (fieldname df)); [|exact H1].
  destruct (fm1 !! clean_header (default "" (fieldname df))) eqn:E; [exact H1|].
  destruct H1 as (d1 & Hd1 & Hl1 & Hk1). exists d1.
  rewrite lookup_insert_ne; [auto|]. intros Heq. rewrite Heq, Hd1 in E. discriminate E.
Qed.

Lemma fold_add_field_keeps_label l : forall fm k,
  by_label fm k -> by_label (fold_left add_field l fm) k.
Proof.
  induction l as [|df r IH]; intros fm k H; cbn [fold_left]; [exact H|].
  apply IH, add_field_keeps_label, H.
Qed.

Lemma fold_add_field_binds_label l : forall fm df,
  df ∈ l -> str_truthy (label df) = true ->
  by_label (fold_left add_field l fm) (clean_header (default "" (label df))).
Proof.
  induction l as [|df0 r IH]; intros fm df Hin Hl; cbn [fold_left].
  - apply elem_of_nil in Hin as [].
  - apply elem_of_cons in Hin as [->|Hin].
    + apply fold_add_field_keeps_label, add_field_binds_label, Hl.
    + apply IH; assumption.
Qed.

Lemma add_field_attr fm df k d :
  add_field fm df !! k = Some d -> fm !! k = Some d \/ (d = df /\ by_attr k df).
Proof.
  unfold add_field.
  set (fm1 := if str_truthy (label df) then _ else fm).
  assert (H1 : fm1 !! k = Some d -> fm !! k = Some d \/ (d = df /\ by_attr k df)).
  { subst fm1. destruct (str_truthy (label df)) eqn:Hl; [|auto].
    destruct (decide (clean_header (default "" (label df)) = k)) as [<-|Hne].
    - rewrite lookup_insert_eq. intros [= <-]. right. split; [reflexivity|].
      left. auto.
    - rewrite lookup_insert_ne by exact Hne. auto. }
  destruct (str_truthy (fieldname df)) eqn:Hf; [|exact H1].
  destruct (fm1 !! clean_header (default "" (fieldname df))) eqn:Hk; [exact H1|].
  destruct (decide (clean_header (default "" (fieldname df)) = k)) as [<-|Hne].
  - rewrite lookup_insert_eq. intros [= <-]. right. split; [reflexivity|].
    right. auto.
  - rewrite lookup_insert_ne by exact Hne. exact H1.
Qed.

Lemma fold_add_field_attr l : forall fm k d,
  fold_left add_field l fm !! k = Some d ->
  fm !! k = Some d \/ (d ∈ l /\ by_attr k d).
Proof.
  induction l as [|df r IH]; intros fm k d H; cbn [fold_left] in H.
  - auto.
  - destruct (IH _ _ _ H) as [H1|[H1 Ha]].
    + destruct (add_field_attr _ _ _ _ H1) as [H2|[-> Ha]]; [auto|].
      right. split; [apply elem_of_cons; auto | exact Ha].
    + right. split; [apply elem_of_cons; auto | exact Ha].
Qed.

Lemma fold_simple_field_key l : forall (fm : gmap string docfield) k d,
  fold_left (fun fm h => <[clean_header h := simple_field h]> fm) l fm !! k = Some d ->
  fm !! k = Some d \/ exists h, h ∈ l /\ d = simple_field h /\ k = clean_header h.
Proof.
  induction l as [|h r IH]; intros fm k d H; cbn [fold_left] in H.
  - auto.
  - destruct (IH _ _ _ H) as [H1|(h' & Hin & -> & ->)].
    + destruct (decide (clean_header h = k)) as [<-|Hne].
      * rewrite lookup_insert_eq in H1. injection H1 as <-.
        right. exists h. split; [apply elem_of_cons; auto | auto].
      * rewrite lookup_insert_ne in H1 by exact Hne. auto.
    + right. exists h'. split; [apply elem_of_cons; auto | auto].
Qed.

(** X14.  What [build_field_map] binds.  An entry is a field of the
    schema under the key of its label or of its field name, or, when the
    schema yields no entry at all, a field guessed from a header under the
    header's key, which is never required, never unique and never a
    reference.  And the key of a label is always bound by a label: a field
    name does not take over a key that a label of the schema has. *)
Theorem field_map_binding m headers :
  (forall k d, build_field_map m headers !! k = Some d ->
     (d ∈ fields m
      /\ ((str_truthy (label d) = true /\ k = clean_header (default "" (label d)))
          \/ (str_truthy (fieldname d) = true
              /\ k = clean_header (default "" (fieldname d)))))
     \/ (fold_left add_field (fields m) ∅ = ∅
         /\ exists h, h ∈ headers /\ k = clean_header h /\ d = simple_field h
              /\ reqd d = false /\ unique d = false /\ options d = None))
  /\ (forall df, df ∈ fields m -> str_truthy (label df) = true ->
        exists d, build_field_map m headers !! clean_header (default "" (label df))
                  = Some d
                  /\ d ∈ fields m /\ str_truthy (label d) = true
                  /\ clean_header (default "" (label d))
                     = clean_header (default "" (label df))).
Proof.
  split.
  - intros k d. unfold build_field_map.
    destruct (bool_decide (fold_left add_field (fields m) ∅ = ∅)) eqn:Hempty;
      cbn [andb].
    + apply bool_decide_eq_true in Hempty.
      destruct (negb _).
      * intros H. apply fold_simple_field_key in H as [H|(h & Hin & -> & ->)].
        { rewrite lookup_empty in H. discriminate H. }
        right. split; [exact Hempty|]. exists h. repeat split; auto.
      * rewrite Hempty, lookup_empty. discriminate.
    + intros H. apply fold_add_field_attr in H as [H|[Hin Ha]].
      * rewrite lookup_empty in H. discriminate H.
      * left. split; [exact Hin | exact Ha].
  - intros df Hin Hl.
    destruct (fold_add_field_binds_label (fields m) ∅ df Hin Hl) as (d & Hd & Hld & Hk).
    assert (Hne : fold_left add_field (fields m) ∅ <> (∅ : gmap string docfield)).
    { intros E. rewrite E, lookup_empty in Hd. discriminate Hd. }
    unfold build_field_map. rewrite bool_decide_eq_false_2 by exact Hne. cbn [andb].
    exists d. split; [exact Hd|]. split; [|auto].
    apply fold_add_field_attr in Hd as [Hd|[Hd _]]; [|exact Hd].
    rewrite lookup_empty in Hd. discriminate Hd.
Qed.

End FieldMap.

(** ** Converting a report to the import-log format *)

Section Conversion.
Context {RT : PyRuntime}.
Variable env : frappe.
Variable clk : clock.

Lemma result_ok_error_sheet name code msg : result_ok (create_error_sheet name code msg).
Proof.
  split; [reflexivity|]. constructor; [|constructor]. right. split; reflexivity.
Qed.

Lemma process_validated_sheet_result_ok doctype skip k headers all_rows s r s' :
  process_validated_sheet env clk doctype skip k headers all_rows s = (Return r, s') ->
  result_ok r.
Proof.
  unfold process_validated_sheet. intros H.
  apply bind_inv in H as (meta_opt & s0 & _ & H).
  destruct meta_opt as [m|];
    [|apply ret_inv in H as [<- _]; apply result_ok_error_sheet].
  apply bind_inv in H as ([] & s1 & _ & H).
  destruct (bool_decide _); [apply ret_inv in H as [<- _]; apply result_ok_error_sheet|].
  apply bind_inv in H as (reports & s2 & Hrows & H).
  apply ret_inv in H as [<- _]. split; [reflexivity|]. cbn [sr_json_errors].
  destruct (process_rows_groups env clk _ _ _ _ _ _ _ _ Hrows) as [_ Hgroups].
  apply Forall_forall. intros je Hin.
  apply list_elem_of_In, in_flat_map in Hin as (rep & Hrep & Hin).
  apply list_elem_of_In, list_elem_of_lookup in Hrep as [i Hi].
  pose proof (proj1 (Forall_forall _ _) (Hgroups i rep Hi) je
                (proj2 (list_elem_of_In _ _) Hin)) as [Hrow _].
  left. lia.
Qed.

Lemma process_sheet_result_ok wb doctype skip k s r s' :
  process_sheet_with_validation env clk wb doctype skip k s = (Return r, s') ->
  result_ok r.
Proof.
  unfold process_sheet_with_validation. intros H.
  apply try_except_return_inv in H as [H|(e & s0 & _ & H)].
  - destruct (dict_of _ !! _) as [title|];
      [|apply ret_inv in H as [<- _]; apply result_ok_error_sheet].
    destruct (workbook_get wb title) as [sheet|]; [|discriminate H].
    destruct (ws_rows sheet) as [|header_row all_rows];
      [apply ret_inv in H as [<- _]; apply result_ok_error_sheet|].
    destruct header_row as [|h0 hs];
      [apply ret_inv in H as [<- _]; apply result_ok_error_sheet|].
    repeat match type of H with
           | (if ?c then _ else _) _ = _ =>
               destruct c; [apply ret_inv in H as [<- _]; apply result_ok_error_sheet|]
           end.
    eapply process_validated_sheet_result_ok; eauto.
  - destruct e; [discriminate H|]. apply ret_inv in H as [<- _].
    apply result_ok_error_sheet.
Qed.

Lemma process_one_sheet_results_ok wb skip idx name st s st' s' :
  Forall result_ok (sheet_results st) ->
  process_one_sheet env clk wb skip idx name st s = (Return st', s') ->
  Forall result_ok (sheet_results st').
Proof.
  intros Hok. unfold process_one_sheet, bind.
  destruct (check_doctype_exists_returns env name s) as (b & s0 & ->).
  destruct b; cbn [negb].
  - unfold try_except, bind.
    destruct (process_sheet_with_validation env clk wb name skip idx s0)
      as [[r|e] s1] eqn:Hrun.
    + intros H. apply ret_inv in H as [<- _]. cbn [record_processed sheet_results].
      apply Forall_app_2; [exact Hok|]. constructor; [|constructor].
      eapply process_sheet_result_ok; eauto.
    + destruct e; intros H; apply ret_inv in H as [<- _];
        cbn [record_aborted sheet_results];
        (apply Forall_app_2; [exact Hok|]); constructor;
        try apply result_ok_error_sheet; constructor.
  - intros H. apply ret_inv in H as [<- _]. cbn [record_unknown sheet_results].
    apply Forall_app_2; [exact Hok|]. constructor; [|constructor].
    apply result_ok_error_sheet.
Qed.

Lemma process_sheets_results_ok wb skip names : forall k st s st' s',
  Forall result_ok (sheet_results st) ->
  process_sheets env clk wb skip k names st s = (Return st', s') ->
  Forall result_ok (sheet_results st').
Proof.
  induction names as [|name rest IH]; intros k st s st' s' Hok H;
    cbn [process_sheets] in H.
  - apply ret_inv in H as [<- _]. exact Hok.
  - destruct (Qgt_bool _ _); [apply ret_inv in H as [<- _]; exact Hok|].
    apply bind_inv in H as (st1 & s1 & Hone & H).
    eapply IH; [|exact H]. eapply process_one_sheet_results_ok; eauto.
Qed.

End Conversion.

Lemma convert_errors_ok errors :
  Forall entry_ok errors ->
  forall logs warnings,
  exists logs' warnings',
    convert_errors errors logs warnings = Ok ((logs ++ logs')%list, (warnings ++ warnings')%list)
    /\ (length logs' + length warnings' = length errors)%nat
    /\ Forall (fun l => il_status l = "error" /\ il_document l = None
                        /\ exists row, il_rows l = [row] /\ (2 <= row)%nat) logs'
    /\ Forall (fun w => iw_col w = 0%Z /\ iw_type w = "warning") warnings'.
Proof.
  induction 1 as [|err rest Herr Hrest IH]; intros logs warnings.
  - exists [], []. rewrite !app_nil_r. repeat split; constructor.
  - cbn [convert_errors]. destruct Herr as [Hrow|[Hrow Hcol]].
    + assert (Hpos : (0 <? je_row err)%nat = true) by (apply Nat.ltb_lt; lia).
      rewrite Hpos.
      destruct (IH (logs ++ [{| il_rows := [je_row err]; il_status := "error";
                                il_document := None;
                                il_message := je_message err |}])%list warnings)
        as (logs' & warnings' & E & Hlen & Hl & Hw).
      eexists (_ :: logs'), warnings'. rewrite E, <- app_assoc. cbn [app length].
      repeat split; [lia| |exact Hw].
      constructor; [|exact Hl]. repeat split. eauto.
    + rewrite Hrow, Hcol. cbn [Nat.ltb Nat.leb].
      change (PyStr.contains "Sheet" "Column") with false. cbv iota.
      destruct (IH logs (warnings ++ [{| iw_col := 0; iw_message := je_message err;
                                         iw_type := "warning" |}])%list)
        as (logs' & warnings' & E & Hlen & Hl & Hw).
      eexists logs', (_ :: warnings'). rewrite E, <- app_assoc. cbn [app length].
      repeat split; [lia|exact Hl|].
      constructor; [|exact Hw]. split; reflexivity.
Qed.

Lemma convert_sheets_ok now results :
  Forall result_ok results ->
  forall k message,
  exists msg,
    convert_sheets now k results message = Ok msg
    /\ (forall name e, (name, e) ∈ msg ->
          (name, e) ∈ message \/ exists r, r ∈ results /\ converted r name e)
    /\ (forall name, name ∈ map fst message \/ name ∈ map sr_sheet_name results ->
          name ∈ map fst msg).
Proof.
  induction 1 as [|r rest [Hcount Hent] Hrest IH]; intros k message.
  - exists message. split; [reflexivity|]. split; [auto|].
    intros name [Hn|Hn]; [exact Hn|]. apply elem_of_nil in Hn as [].
  - cbn [convert_sheets].
    destruct (convert_errors_ok _ Hent [] []) as (logs & warnings & E & Hlen & Hl & Hw).
    rewrite E. cbn [app].
    set (entry := {| si_data_import := _; si_status := _; si_logs := logs;
                     si_warnings := warnings |}).
    destruct (IH (S k) (odict_set (sr_sheet_name r) entry message))
      as (msg & Hrun & Hsound & Hkeys).
    exists msg. split; [exact Hrun|]. split.
    + intros name e Hin. destruct (Hsound name e Hin) as [Hm|(r' & Hr' & Hc)].
      * apply odict_set_elem in Hm as [[= -> ->]|Hm]; [|auto].
        right. exists r. split; [apply elem_of_cons; auto|].
        split; [reflexivity|]. subst entry. cbn [si_status si_logs si_warnings].
        split; [|rewrite Hcount; auto].
        rewrite Hcount. destruct (sr_json_errors r); reflexivity.
      * right. exists r'. split; [apply elem_of_cons; auto | exact Hc].
    + intros name Hn. apply Hkeys. rewrite odict_set_keys.
      cbn [map] in Hn. case_bool_decide as Hk.
      * destruct Hn as [Hn|Hn]; [auto|].
        apply elem_of_cons in Hn as [->|Hn]; auto.
      * destruct Hn as [Hn|Hn].
        -- left. apply elem_of_app. auto.
        -- apply elem_of_cons in Hn as [->|Hn]; [|auto].
           left. apply elem_of_app. right. apply elem_of_cons. auto.
Qed.

Section ReportConversion.
Context {RT : PyRuntime}.
Variable env : frappe.
Variable clk : clock.

(** X16.  [convert_to_frappe_format] never raises on a response of
    [validate_and_add_error_columns], report or failure: the column of a
    sheet-level entry is "Sheet", so the number parsing is not reached.
    Every sheet result of the response has an entry under its name, and
    every entry renders a sheet result: status "Error" exactly when the
    sheet has errors, one log for each error of a data row and one warning
    on column 0 for the sheet-level error of a failed sheet.  For a
    failure, which holds no sheet result, the conversion is empty. *)
Theorem report_conversion wb skip s now :
  exists resp msg,
    fst (validate_and_add_error_columns env clk wb skip s) = Return resp
    /\ convert_to_frappe_format now resp = Ok msg
    /\ (forall name e, (name, e) ∈ msg ->
          exists r, r ∈ results_of resp /\ converted r name e)
    /\ (forall r, r ∈ results_of resp -> sr_sheet_name r ∈ map fst msg)
    /\ (forall code message error_type,
          resp = Failure code message error_type -> msg = []).
Proof.
  unfold validate_and_add_error_columns, try_except, bind.
  set (st0 := {| total_sheets := length (sheetnames wb); validated_sheets := 0;
                 total_errors := 0; total_rows := 0; sheet_results := [];
                 all_json_errors := [] |}).
  destruct (process_sheets_shape env clk wb (String.eqb skip "1") (sheetnames wb) 1 st0 s)
    as (st' & s' & new & Hrun & _).
  assert (Hok0 : Forall result_ok (sheet_results st0)) by constructor.
  pose proof (process_sheets_results_ok env clk wb _ _ _ st0 _ _ _ Hok0 Hrun) as Hok.
  rewrite Hrun. unfold save_output.
  destruct (bool_decide (sheet_results st' = [])); cbn [raise ret fst].
  - eexists _, []. split; [reflexivity|]. split; [reflexivity|].
    split; [|split].
    + intros name e Hin. apply elem_of_nil in Hin as [].
    + intros r Hr. cbn [fail results_of] in Hr. apply elem_of_nil in Hr as [].
    + reflexivity.
  - destruct (convert_sheets_ok now (sheet_results st') Hok 0 [])
      as (msg & Hconv & Hsound & Hkeys).
    eexists _, msg. split; [reflexivity|].
    unfold convert_to_frappe_format. cbn [results_of r_sheet_results].
    split; [exact Hconv|]. split; [|split].
    + intros name e Hin. destruct (Hsound name e Hin) as [Hm|Hr]; [|exact Hr].
      apply elem_of_nil in Hm as [].
    + intros r Hr. apply Hkeys. right.
      apply list_elem_of_In, in_map, list_elem_of_In, Hr.
    + intros code message error_type Hf. discriminate Hf.
Qed.

End ReportConversion.

(** A warning on a numbered column carries the number; a column text that
    holds no number makes the conversion raise. *)
Lemma convert_errors_column_number :
  convert_errors [mk_json "S" 0 "Column 3" "c" "m" "" "t"] [] []
  = Ok ([], [{| iw_col := 3; iw_message := "m"; iw_type := "warning" |}])
  /\ convert_errors [mk_json "S" 0 "Column B" "c" "m" "" "t"] [] []
     = Raised "invalid literal for int() with base 10: 'B'".
Proof. split; vm_compute; reflexivity. Qed.

(** ** Reference errors *)

Section LinkErrors.
Context {RT : PyRuntime}.
Variable env : frappe.

(** X17.  What [validate_link_field] reports.  An error is reported only
    with the checks switched on and for a truthy value; it is for the row
    and the column.  It is [LINK_CONFIG_ERROR], without a store call, when
    the field names no target; otherwise it is [LINK_NOT_FOUND]: the store
    has answered that the stripped value does not exist, the message
    quotes the value as entered, and at most three suggestions come with
    it. *)
Theorem link_error_shape df value label row_idx skip original s e s' :
  validate_link_field env df value label row_idx skip original s = (Return (Some e), s') ->
  skip = false /\ truthy value = true
  /\ de_row e = row_idx /\ de_column e = label
  /\ ((str_truthy (options df) = false /\ de_code e = "LINK_CONFIG_ERROR"
       /\ de_suggestions e = None /\ s' = s)
      \/ (str_truthy (options df) = true /\ de_code e = "LINK_NOT_FOUND"
          /\ db_exists env (default "" (options df))
               (CStr (PyStr.strip (py_str value))) = Ok false
          /\ de_message e = label ++ ": '" ++ py_str original ++ "' not found in "
                            ++ default "" (options df)
          /\ exists l, de_suggestions e = Some l /\ (length l <= 3)%nat)).
Proof.
  unfold validate_link_field.
  destruct skip; [intros H; discriminate H|].
  destruct (truthy value); [|intros H; discriminate H]. cbn [orb negb].
  destruct (str_truthy (options df)); cbn [negb].
  2:{ intros H. apply ret_inv in H as [H ->]. injection H as <-.
      repeat split. left. repeat split. }
  intros H. apply bind_inv in H as (found & s1 & Hfound & H).
  destruct found; [discriminate H|].
  apply bind_inv in H as (existing & s2 & _ & H).
  match type of H with (if ?c then _ else _) _ = _ => destruct c end; [discriminate H|].
  destruct (get_link_suggestions_run env (default "" (options df))
              (PyStr.strip (py_str value)) 3 s2) as (l & t & E & L & _).
  unfold bind in H. rewrite E in H. apply ret_inv in H as [H _]. injection H as <-.
  repeat split. right. repeat split.
  - unfold frappe_db_exists, bind, log_call in Hfound.
    destruct (db_exists env _ _) as [b|msg]; [|discriminate Hfound].
    apply ret_inv in Hfound as [-> _]. reflexivity.
  - exists l. split; [reflexivity | exact L].
Qed.

End LinkErrors.

(** The city "Kanpu" is not a record of the site; "Kanpur" is suggested. *)
Lemma link_error_shape_witness :
  match fst (validate_link_field Examples.site
               (Examples.field "City" "city" "Link" false (Some "City"))
               (CStr "Kanpu") "City" 3 false (CStr "Kanpu") empty_state) with
  | Return (Some e) => de_code e = "LINK_NOT_FOUND" /\ de_row e = 3%nat
  | _ => False
  end.
Proof.
  destruct (validate_link_field Examples.site
              (Examples.field "City" "city" "Link" false (Some "City"))
              (CStr "Kanpu") "City" 3 false (CStr "Kanpu") empty_state)
    as [[[e|]|x] s'] eqn:Hrun; cbn [fst].
  - destruct (link_error_shape (RT := ExampleRuntime.runtime) Examples.site
                _ _ _ _ _ _ _ _ _ Hrun)
      as (_ & _ & Hrow & _ & [(Hopt & _)|(_ & Hcode & _)]).
    + discriminate Hopt.
    + split; [exact Hcode | exact Hrow].
  - assert (Hn : match fst (validate_link_field Examples.site
                   (Examples.field "City" "city" "Link" false (Some "City"))
                   (CStr "Kanpu") "City" 3 false (CStr "Kanpu") empty_state) with
                 | Return (Some _) => true | _ => false end = true)
      by (vm_compute; reflexivity).
    rewrite Hrun in Hn. discriminate Hn.
  - assert (Hn : match fst (validate_link_field Examples.site
                   (Examples.field "City" "city" "Link" false (Some "City"))
                   (CStr "Kanpu") "City" 3 false (CStr "Kanpu") empty_state) with
                 | Return (Some _) => true | _ => false end = true)
      by (vm_compute; reflexivity).
    rewrite Hrun in Hn. discriminate Hn.
Defined.

(** ** Duplicate primary keys over a sheet *)

Section FirstSeen.
Context {RT : PyRuntime}.
Variable env : frappe.
Variable clk : clock.
Variable cx : sheet_ctx.

(** A check of the row loop that flags a row when its key was seen, and
    records the key of every row it applies to. *)
Variable flag : row_report -> bool.
Variable applies : list cell -> bool.
Variable keyf : list cell -> string.
Variable seenf : tracker -> list string.

Hypothesis row_step : forall row_idx row tr s rep tr' s',
  validate_row env clk cx row_idx row tr s = (Return (rep, tr'), s') ->
  flag rep = applies row && bool_decide (keyf row ∈ seenf tr)
  /\ seenf tr' = if applies row then keyf row :: seenf tr else seenf tr.

Lemma process_rows_first_seen sheet_no rows :
  forall row_idx tr s reports s',
  process_rows env clk cx sheet_no row_idx rows tr s = (Return reports, s') ->
  forall j row rep,
    rows !! j = Some row -> reports !! j = Some rep ->
    (flag rep = true <->
     applies row = true
     /\ (keyf row ∈ seenf tr
         \/ exists i row_i, (i < j)%nat /\ rows !! i = Some row_i
              /\ applies row_i = true /\ keyf row_i = keyf row)).
Proof.
  induction rows as [|row0 rest IH]; intros row_idx tr s reports s' H.
  - intros j row rep Hj. discriminate Hj.
  - cbn [process_rows] in H.
    apply bind_inv in H as ([] & s0 & _ & H).
    apply bind_inv in H as ([rep0 tr1] & s1 & Hrow & H).
    apply bind_inv in H as (reports' & s2 & Hrest & H).
    apply ret_inv in H as [<- _]. cbn [fst snd] in *.
    destruct (row_step _ _ _ _ _ _ _ Hrow) as [Hflag Hseen].
    pose proof (IH _ _ _ _ _ Hrest) as Hflags.
    intros [|j] row rep Hj Hr; cbn in Hj, Hr.
    + injection Hj as <-. injection Hr as <-. rewrite Hflag.
      rewrite andb_true_iff, bool_decide_eq_true. split.
      * intros [Ha Hin]. auto.
      * intros [Ha [Hin|(i & ? & Hi & _)]]; [auto | lia].
    + rewrite (Hflags j row rep Hj Hr), Hseen.
      split; intros [Ha Hcase]; (split; [exact Ha|]).
      * destruct Hcase as [Hin|(i & row_i & Hi & Hri & Hai & Hki)].
        -- destruct (applies row0) eqn:Ha0; [|auto].
           apply elem_of_cons in Hin as [Hk|Hin]; [|auto].
           right. exists 0%nat, row0. repeat split; auto. lia.
        -- right. exists (S i), row_i. repeat split; auto. lia.
      * destruct Hcase as [Hin|(i & row_i & Hi & Hri & Hai & Hki)].
        -- left. destruct (applies row0); [apply elem_of_cons|]; auto.
        -- destruct i as [|i]; cbn in Hri.
           ++ injection Hri as <-. left. rewrite Hai. apply elem_of_cons. auto.
           ++ right. exists i, row_i. repeat split; auto. lia.
Qed.

End FirstSeen.

Section PrimaryKeys.
Context {RT : PyRuntime}.
Variable env : frappe.
Variable clk : clock.

Lemma unique_step_codes cx row_idx rd a tr col :
  exists a' tr' extra,
    unique_step cx row_idx rd (a, tr) col = (a', tr')
    /\ new_json_errors a' = (new_json_errors a ++ extra)%list
    /\ Forall (fun je => je_code je = get_readable_error_code "DUPLICATE_UNIQUE") extra
    /\ seen_primary tr' = seen_primary tr.
Proof.
  unfold unique_step. destruct (_ && _).
  - destruct (bool_decide _).
    + eexists _, _, [_]. split; [reflexivity|]. split; [reflexivity|].
      split; [|reflexivity]. repeat constructor.
    + eexists _, _, []. split; [reflexivity|]. rewrite app_nil_r.
      split; [reflexivity|]. split; [constructor | reflexivity].
  - exists a, tr, []. rewrite app_nil_r. repeat split. constructor.
Qed.

Lemma unique_fold_codes cx row_idx rd cols : forall a tr,
  exists a' tr' extra,
    fold_left (unique_step cx row_idx rd) cols (a, tr) = (a', tr')
    /\ new_json_errors a' = (new_json_errors a ++ extra)%list
    /\ Forall (fun je => je_code je = get_readable_error_code "DUPLICATE_UNIQUE") extra
    /\ seen_primary tr' = seen_primary tr.
Proof.
  induction cols as [|col cols IH]; intros a tr; cbn [fold_left].
  - exists a, tr, []. rewrite app_nil_r. repeat split. constructor.
  - destruct (unique_step_codes cx row_idx rd a tr col) as (a1 & tr1 & x1 & -> & J1 & F1 & S1).
    destruct (IH a1 tr1) as (a2 & tr2 & x2 & E2 & J2 & F2 & S2).
    exists a2, tr2, (x1 ++ x2)%list. split; [exact E2|].
    split; [rewrite J2, J1, app_assoc; reflexivity|].
    split; [apply Forall_app; auto | congruence].
Qed.

Lemma primary_key_step_cases cx row_idx rd a tr :
  let pk_val := match cx_primary_key cx with
                | Some pk => row_get rd pk
                | None => CNone
                end in
  let usable := match cx_primary_key cx with
                | Some pk => negb (String.eqb pk "") && truthy pk_val
                             && negb (in_blank_tuple pk_val)
                | None => false
                end in
  let key := PyStr.strip (py_str pk_val) in
  exists a' tr' extra,
    primary_key_step cx row_idx rd (a, tr) = (a', tr')
    /\ new_json_errors a' = (new_json_errors a ++ extra)%list
    /\ existsb (fun je => String.eqb (je_code je)
                            (get_readable_error_code "DUPLICATE_PRIMARY_KEY")) extra
       = usable && bool_decide (key ∈ seen_primary tr)
    /\ seen_primary tr' = (if usable then key :: seen_primary tr else seen_primary tr).
Proof.
  cbv zeta. unfold primary_key_step.
  destruct (cx_primary_key cx) as [pk|].
  2:{ exists a, tr, []. rewrite app_nil_r. repeat split. }
  destruct (String.eqb pk "").
  { exists a, tr, []. rewrite app_nil_r. repeat split. }
  cbn [negb andb].
  destruct (truthy (row_get rd pk)); cbn [andb].
  2:{ exists a, tr, []. rewrite app_nil_r. repeat split. }
  destruct (in_blank_tuple (row_get rd pk)); cbn [negb].
  { exists a, tr, []. rewrite app_nil_r. repeat split. }
  destruct (bool_decide _).
  - eexists _, _, [_]. split; [reflexivity|]. split; [reflexivity|].
    split; reflexivity.
  - eexists _, _, []. split; [reflexivity|]. rewrite app_nil_r.
    split; [reflexivity|]. split; reflexivity.
Qed.

Lemma dt_code_not_key code :
  code ∈ dt_codes ->
  String.eqb (get_readable_error_code code)
    (get_readable_error_code "DUPLICATE_PRIMARY_KEY") = false.
Proof.
  intros H. unfold dt_codes in H.
  repeat (apply elem_of_cons in H as [->|H]); try reflexivity.
  apply elem_of_nil in H as [].
Qed.

(** The primary-key check of one row, in terms of the keys seen. *)
Lemma validate_row_key cx row_idx row tr s rep tr' s' :
  validate_row env clk cx row_idx row tr s = (Return (rep, tr'), s') ->
  flagged_key rep = keyed_row cx row && bool_decide (key_of cx row ∈ seen_primary tr)
  /\ seen_primary tr'
     = if keyed_row cx row then key_of cx row :: seen_primary tr else seen_primary tr.
Proof.
  intros H. unfold keyed_row. destruct (is_empty_row cx row) eqn:He; cbn [negb andb].
  - unfold validate_row in H. unfold is_empty_row in He. rewrite He in H.
    apply ret_inv in H as [H _].
    pose proof (f_equal fst H) as Hrep. pose proof (f_equal snd H) as Htr.
    cbn [fst snd] in Hrep, Htr. subst rep tr'. split; reflexivity.
  - unfold validate_row in H. unfold is_empty_row in He. rewrite He in H.
    set (rd := dict_zip (cx_headers cx) row) in *.
    apply bind_inv in H as (errs & s1 & Hdt & H).
    apply ret_inv in H as [H _].
    pose proof (f_equal fst H) as Hrep. pose proof (f_equal snd H) as Htr.
    cbn [fst snd] in Hrep, Htr. clear H. subst rep tr'.
    set (a1 := fold_left (required_step cx row_idx rd) (cx_required_columns cx) acc_empty).
    set (a2 := fold_left (dtype_step cx row_idx rd) errs a1).
    pose proof (required_fold cx row_idx rd (cx_required_columns cx) acc_empty) as G1.
    pose proof (dtype_fold cx row_idx rd errs a1) as G2. fold a1 in G1. fold a2 in G2.
    destruct (duplicate_row_step_spec cx row_idx rd a2 tr) as (a3 & -> & G3).
    unfold acc_grows in G1, G2, G3.
    destruct G1 as [G1 _], G2 as [G2 _], G3 as [G3 _].
    match goal with |- context [primary_key_step _ _ _ (a3, ?t)] =>
      destruct (primary_key_step_cases cx row_idx rd a3 t)
        as (a4 & tr4 & x4 & -> & G4 & F4 & S4)
    end.
    destruct (unique_fold_codes cx row_idx rd (cx_unique_columns cx) a4 tr4)
      as (a5 & tr5 & x5 & -> & G5 & F5 & S5).
    cbn [fst snd seen_primary] in *.
    unfold flagged_key, key_of, key_cell. fold rd.
    cbn [report_of rr_json_errors]. rewrite G5, G4, G3, G2, G1.
    cbn [acc_empty new_json_errors app]. rewrite !existsb_app, F4.
    assert (H1 : existsb (fun je => String.eqb (je_code je)
                            (get_readable_error_code "DUPLICATE_PRIMARY_KEY"))
                   (flat_map (fun col => if in_blank_tuple (row_get rd col)
                                         then [required_error cx row_idx col] else [])
                      (cx_required_columns cx)) = false).
    { apply existsb_false_Forall, Forall_forall. intros je Hje.
      apply list_elem_of_In, in_flat_map in Hje as (c & _ & Hje).
      destruct (in_blank_tuple (row_get rd c)); [|destruct Hje].
      destruct Hje as [<-|[]]. reflexivity. }
    assert (H2 : existsb (fun je => String.eqb (je_code je)
                            (get_readable_error_code "DUPLICATE_PRIMARY_KEY"))
                   (map (dtype_json cx row_idx rd) errs) = false).
    { apply existsb_false_Forall, Forall_fmap.
      unfold validate_datatypes in Hdt. apply validate_items_shape in Hdt.
      eapply Forall_impl; [exact Hdt|]. intros e (l & _ & _ & Hcode). cbn.
      now apply dt_code_not_key. }
    assert (H3 : forall b : bool,
              existsb (fun je => String.eqb (je_code je)
                            (get_readable_error_code "DUPLICATE_PRIMARY_KEY"))
                (if b then [duplicate_row_error cx row_idx] else []) = false).
    { intros []; reflexivity. }
    assert (H5 : existsb (fun je => String.eqb (je_code je)
                            (get_readable_error_code "DUPLICATE_PRIMARY_KEY")) x5 = false).
    { apply existsb_false_Forall. eapply Forall_impl; [exact F5|].
      intros je ->. reflexivity. }
    rewrite H1, H2, H3, H5, orb_false_r. cbn [orb].
    split; [reflexivity|]. rewrite S5, S4. reflexivity.
Qed.

(** X18.  Duplicate primary keys over a sheet.  Checked from an empty
    key set, a row is flagged with a duplicate-key entry exactly when it
    takes part in the check (it is not an empty row, the sheet has a
    primary-key column, the key cell is truthy and no placeholder) and an
    earlier row that takes part has the same stripped key: the first
    occurrence is never flagged, every later one is. *)
Theorem duplicate_keys_flagged cx sheet_no row_idx rows tr s reports s' :
  seen_primary tr = [] ->
  process_rows env clk cx sheet_no row_idx rows tr s = (Return reports, s') ->
  forall j row rep,
    rows !! j = Some row -> reports !! j = Some rep ->
    (flagged_key rep = true <->
     keyed_row cx row = true
     /\ exists i row_i, (i < j)%nat /\ rows !! i = Some row_i
          /\ keyed_row cx row_i = true /\ key_of cx row_i = key_of cx row).
Proof.
  intros Hseen Hrun j row rep Hj Hr.
  rewrite (process_rows_first_seen env clk cx flagged_key (keyed_row cx) (key_of cx)
             seen_primary (fun row_idx row tr s rep tr' s' =>
                             validate_row_key cx row_idx row tr s rep tr' s')
             sheet_no rows row_idx tr s reports s' Hrun j row rep Hj Hr).
  rewrite Hseen. split; intros [Ha Hcase]; (split; [exact Ha|]).
  - destruct Hcase as [Hin|Hex]; [apply elem_of_nil in Hin as [] | exact Hex].
  - right. exact Hcase.
Qed.


End PrimaryKeys.

(** Keys " abc ", "abc" and "ABC": the second repeats the first, the third
    does not. *)
Lemma duplicate_keys_flagged_witness :
  exists reports rep,
    fst (process_rows Examples.site Examples.calm_clock Examples.keyed_ctx 1 2
           [[CStr " abc "; CStr "x"]; [CStr "abc"; CStr "y"]; [CStr "ABC"; CStr "z"]]
           (new_tracker []) empty_state) = Return reports
    /\ reports !! 1%nat = Some rep /\ flagged_key rep = true.
Proof.
  assert (Hret : returned (process_rows Examples.site Examples.calm_clock
                             Examples.keyed_ctx 1 2
                             [[CStr " abc "; CStr "x"]; [CStr "abc"; CStr "y"];
                              [CStr "ABC"; CStr "z"]] (new_tracker []) empty_state)
                 = true) by (vm_compute; reflexivity).
  destruct (process_rows Examples.site Examples.calm_clock Examples.keyed_ctx 1 2
              [[CStr " abc "; CStr "x"]; [CStr "abc"; CStr "y"]; [CStr "ABC"; CStr "z"]]
              (new_tracker []) empty_state) as [[reports|e] s'] eqn:Hrun;
    [|discriminate Hret].
  destruct (process_rows_groups _ _ _ _ _ _ _ _ _ _ Hrun) as [Hlen _].
  destruct (reports !! 1%nat) as [rep|] eqn:Hrep.
  - exists reports, rep. split; [reflexivity|]. split; [exact Hrep|].
    apply (duplicate_keys_flagged Examples.site Examples.calm_clock Examples.keyed_ctx
             1 2 _ (new_tracker []) empty_state reports s' eq_refl Hrun
             1%nat [CStr "abc"; CStr "y"] rep eq_refl Hrep).
    split; [vm_compute; reflexivity|].
    exists 0%nat, [CStr " abc "; CStr "x"].
    split; [lia|]. split; [reflexivity|]. split; vm_compute; reflexivity.
  - apply lookup_ge_None in Hrep. cbn [length] in Hlen. lia.
Defined.

Section UniqueValues.
Context {RT : PyRuntime}.
Variable env : frappe.
Variable clk : clock.

Lemma unique_step_col cx row_idx rd col a tr c :
  let v := row_get rd col in
  let usable := truthy v && negb (in_blank_tuple v) in
  exists a' tr' extra,
    unique_step cx row_idx rd (a, tr) c = (a', tr')
    /\ new_json_errors a' = (new_json_errors a ++ extra)%list
    /\ existsb (fun je => String.eqb (je_code je)
                            (get_readable_error_code "DUPLICATE_UNIQUE")
                          && String.eqb (je_column je) col) extra
       = String.eqb c col && usable
         && bool_decide (PyStr.strip (py_str v) ∈ seen_values col tr)
    /\ seen_values col tr'
       = (if String.eqb c col && usable
          then PyStr.strip (py_str v) :: seen_values col tr
          else seen_values col tr)
    /\ seen_primary tr' = seen_primary tr.
Proof.
  cbv zeta. unfold unique_step, seen_values.
  destruct (String.eqb c col) eqn:Ec.
  - apply String.eqb_eq in Ec as ->. cbn [andb].
    destruct (truthy (row_get rd col) && negb (in_blank_tuple (row_get rd col))).
    + cbn [andb]. destruct (bool_decide _) eqn:Hb.
      * eexists _, _, [_]. split; [reflexivity|]. split; [reflexivity|].
        cbn [seen_unique seen_primary]. rewrite lookup_insert_eq.
        split; [|split; reflexivity].
        cbn [existsb duplicate_value_error mk_json je_code je_column].
        rewrite !String.eqb_refl. reflexivity.
      * eexists _, _, []. split; [reflexivity|]. rewrite app_nil_r.
        split; [reflexivity|].
        cbn [seen_unique seen_primary]. rewrite lookup_insert_eq.
        split; [reflexivity | split; reflexivity].
    + exists a, tr, []. rewrite app_nil_r. repeat split.
  - cbn [andb]. assert (Hne : c <> col) by (apply String.eqb_neq; exact Ec).
    destruct (truthy (row_get rd c) && negb (in_blank_tuple (row_get rd c))).
    + destruct (bool_decide _).
      * eexists _, _, [_]. split; [reflexivity|]. split; [reflexivity|].
        cbn [seen_unique seen_primary]. rewrite lookup_insert_ne by exact Hne.
        split; [|split; reflexivity].
        cbn [existsb duplicate_value_error mk_json je_code je_column].
        rewrite Ec, andb_false_r. reflexivity.
      * eexists _, _, []. split; [reflexivity|]. rewrite app_nil_r.
        split; [reflexivity|].
        cbn [seen_unique seen_primary]. rewrite lookup_insert_ne by exact Hne.
        split; [reflexivity | split; reflexivity].
    + exists a, tr, []. rewrite app_nil_r. repeat split.
Qed.

Lemma unique_fold_col cx row_idx rd col cols : forall a tr,
  NoDup cols ->
  let v := row_get rd col in
  let usable := truthy v && negb (in_blank_tuple v) in
  exists a' tr' extra,
    fold_left (unique_step cx row_idx rd) cols (a, tr) = (a', tr')
    /\ new_json_errors a' = (new_json_errors a ++ extra)%list
    /\ existsb (fun je => String.eqb (je_code je)
                            (get_readable_error_code "DUPLICATE_UNIQUE")
                          && String.eqb (je_column je) col) extra
       = bool_decide (col ∈ cols) && usable
         && bool_decide (PyStr.strip (py_str v) ∈ seen_values col tr)
    /\ seen_values col tr'
       = (if bool_decide (col ∈ cols) && usable
          then PyStr.strip (py_str v) :: seen_values col tr
          else seen_values col tr)
    /\ seen_primary tr' = seen_primary tr.
Proof.
  cbv zeta. induction cols as [|c cols IH]; intros a tr Hnd; cbn [fold_left].
  - exists a, tr, []. rewrite app_nil_r. repeat split.
  - apply NoDup_cons in Hnd as [Hc Hnd].
    destruct (unique_step_col cx row_idx rd col a tr c)
      as (a1 & tr1 & x1 & -> & J1 & F1 & S1 & P1).
    destruct (IH a1 tr1 Hnd) as (a2 & tr2 & x2 & E2 & J2 & F2 & S2 & P2).
    exists a2, tr2, (x1 ++ x2)%list. split; [exact E2|].
    split; [rewrite J2, J1, app_assoc; reflexivity|].
    split; [|split; [|congruence]].
    + rewrite existsb_app, F1, F2, S1.
      destruct (String.eqb c col) eqn:Ec.
      * apply String.eqb_eq in Ec as ->.
        rewrite (bool_decide_eq_false_2 (col ∈ cols)) by exact Hc.
        rewrite (bool_decide_eq_true_2 (col ∈ col :: cols)) by (apply elem_of_cons; auto).
        cbn [andb]. rewrite orb_false_r. reflexivity.
      * assert (Hne : c <> col) by (apply String.eqb_neq; exact Ec).
        cbn [andb orb].
        assert (Hiff : bool_decide (col ∈ c :: cols) = bool_decide (col ∈ cols)).
        { apply bool_decide_ext. rewrite elem_of_cons. split; [|auto].
          intros [->|H]; [contradiction | exact H]. }
        rewrite Hiff. reflexivity.
    + rewrite S2, S1.
      destruct (String.eqb c col) eqn:Ec.
      * apply String.eqb_eq in Ec as ->.
        rewrite (bool_decide_eq_false_2 (col ∈ cols)) by exact Hc.
        rewrite (bool_decide_eq_true_2 (col ∈ col :: cols)) by (apply elem_of_cons; auto).
        reflexivity.
      * assert (Hne : c <> col) by (apply String.eqb_neq; exact Ec).
        cbn [andb].
        assert (Hiff : bool_decide (col ∈ c :: cols) = bool_decide (col ∈ cols)).
        { apply bool_decide_ext. rewrite elem_of_cons. split; [|auto].
          intros [->|H]; [contradiction | exact H]. }
        rewrite Hiff. reflexivity.
Qed.

Lemma primary_key_step_values cx row_idx rd col a tr :
  exists a' tr' extra,
    primary_key_step cx row_idx rd (a, tr) = (a', tr')
    /\ new_json_errors a' = (new_json_errors a ++ extra)%list
    /\ Forall (fun je => je_code je = get_readable_error_code "DUPLICATE_PRIMARY_KEY")
         extra
    /\ seen_values col tr' = seen_values col tr.
Proof.
  unfold primary_key_step.
  destruct (cx_primary_key cx) as [pk|].
  2:{ exists a, tr, []. rewrite app_nil_r. repeat split. constructor. }
  destruct (String.eqb pk "").
  { exists a, tr, []. rewrite app_nil_r. repeat split. constructor. }
  destruct (_ && _).
  2:{ exists a, tr, []. rewrite app_nil_r. repeat split. constructor. }
  destruct (bool_decide _).
  - eexists _, _, [_]. split; [reflexivity|]. split; [reflexivity|].
    split; [|reflexivity]. repeat constructor.
  - eexists _, _, []. split; [reflexivity|]. rewrite app_nil_r.
    split; [reflexivity|]. split; [constructor | reflexivity].
Qed.

Lemma dt_code_not_value code :
  code ∈ dt_codes ->
  String.eqb (get_readable_error_code code)
    (get_readable_error_code "DUPLICATE_UNIQUE") = false.
Proof.
  intros H. unfold dt_codes in H.
  repeat (apply elem_of_cons in H as [->|H]); try reflexivity.
  apply elem_of_nil in H as [].
Qed.

(** The uniqueness check of one row for one column, in terms of the
    values seen. *)
Lemma validate_row_value cx col row_idx row tr s rep tr' s' :
  NoDup (cx_unique_columns cx) -> col ∈ cx_unique_columns cx ->
  validate_row env clk cx row_idx row tr s = (Return (rep, tr'), s') ->
  flagged_value col rep
  = valued_row cx col row && bool_decide (value_of cx col row ∈ seen_values col tr)
  /\ seen_values col tr'
     = if valued_row cx col row then value_of cx col row :: seen_values col tr
       else seen_values col tr.
Proof.
  intros Hnd Hcol H. unfold valued_row.
  destruct (is_empty_row cx row) eqn:He; cbn [negb andb].
  - unfold validate_row in H. unfold is_empty_row in He. rewrite He in H.
    apply ret_inv in H as [H _].
    pose proof (f_equal fst H) as Hrep. pose proof (f_equal snd H) as Htr.
    cbn [fst snd] in Hrep, Htr. subst rep tr'. split; reflexivity.
  - unfold validate_row in H. unfold is_empty_row in He. rewrite He in H.
    set (rd := dict_zip (cx_headers cx) row) in *.
    apply bind_inv in H as (errs & s1 & Hdt & H).
    apply ret_inv in H as [H _].
    pose proof (f_equal fst H) as Hrep. pose proof (f_equal snd H) as Htr.
    cbn [fst snd] in Hrep, Htr. clear H. subst rep tr'.
    set (a1 := fold_left (required_step cx row_idx rd) (cx_required_columns cx) acc_empty).
    set (a2 := fold_left (dtype_step cx row_idx rd) errs a1).
    pose proof (required_fold cx row_idx rd (cx_required_columns cx) acc_empty) as G1.
    pose proof (dtype_fold cx row_idx rd errs a1) as G2. fold a1 in G1. fold a2 in G2.
    destruct (duplicate_row_step_spec cx row_idx rd a2 tr) as (a3 & -> & G3).
    unfold acc_grows in G1, G2, G3.
    destruct G1 as [G1 _], G2 as [G2 _], G3 as [G3 _].
    match goal with |- context [primary_key_step _ _ _ (a3, ?t)] =>
      destruct (primary_key_step_values cx row_idx rd col a3 t)
        as (a4 & tr4 & x4 & -> & G4 & F4 & S4)
    end.
    destruct (unique_fold_col cx row_idx rd col (cx_unique_columns cx) a4 tr4 Hnd)
      as (a5 & tr5 & x5 & -> & G5 & F5 & S5 & _).
    rewrite (bool_decide_eq_true_2 _ Hcol) in F5, S5. cbn [andb] in F5, S5.
    cbn [fst snd] in *.
    unfold flagged_value, value_of, cell_at. fold rd.
    cbn [report_of rr_json_errors]. rewrite G5, G4, G3, G2, G1.
    cbn [acc_empty new_json_errors app]. rewrite !existsb_app, F5.
    assert (H1 : existsb (fun je => String.eqb (je_code je)
                            (get_readable_error_code "DUPLICATE_UNIQUE")
                          && String.eqb (je_column je) col)
                   (flat_map (fun c => if in_blank_tuple (row_get rd c)
                                       then [required_error cx row_idx c] else [])
                      (cx_required_columns cx)) = false).
    { apply existsb_false_Forall, Forall_forall. intros je Hje.
      apply list_elem_of_In, in_flat_map in Hje as (c & _ & Hje).
      destruct (in_blank_tuple (row_get rd c)); [|destruct Hje].
      destruct Hje as [<-|[]]. reflexivity. }
    assert (H2 : existsb (fun je => String.eqb (je_code je)
                            (get_readable_error_code "DUPLICATE_UNIQUE")
                          && String.eqb (je_column je) col)
                   (map (dtype_json cx row_idx rd) errs) = false).
    { apply existsb_false_Forall, Forall_fmap.
      unfold validate_datatypes in Hdt. apply validate_items_shape in Hdt.
      eapply Forall_impl; [exact Hdt|]. intros e (l & _ & _ & Hcode).
      unfold compose. cbn [dtype_json je_code je_column].
      rewrite (dt_code_not_value _ Hcode). reflexivity. }
    assert (H3 : forall b : bool,
              existsb (fun je => String.eqb (je_code je)
                            (get_readable_error_code "DUPLICATE_UNIQUE")
                          && String.eqb (je_column je) col)
                (if b then [duplicate_row_error cx row_idx] else []) = false).
    { intros []; reflexivity. }
    assert (H4 : existsb (fun je => String.eqb (je_code je)
                            (get_readable_error_code "DUPLICATE_UNIQUE")
                          && String.eqb (je_column je) col) x4 = false).
    { apply existsb_false_Forall. eapply Forall_impl; [exact F4|].
      intros je ->. reflexivity. }
    rewrite H1, H2, H3, H4. cbn [orb].
    assert (Hseen : seen_values col tr4 = seen_values col tr).
    { rewrite S4. reflexivity. }
    rewrite S5, Hseen. split; reflexivity.
Qed.

(** X19.  Duplicate values in a unique column.  With no column listed
    twice among the unique columns and no value recorded yet, a row is
    flagged with a duplicate-value entry for a unique column exactly when
    it takes part in the check (it is not an empty row, its cell in the
    column is truthy and no placeholder) and an earlier row that takes
    part has the same stripped value in the column. *)
Theorem duplicate_values_flagged cx col sheet_no row_idx rows tr s reports s' :
  NoDup (cx_unique_columns cx) -> col ∈ cx_unique_columns cx ->
  seen_values col tr = [] ->
  process_rows env clk cx sheet_no row_idx rows tr s = (Return reports, s') ->
  forall j row rep,
    rows !! j = Some row -> reports !! j = Some rep ->
    (flagged_value col rep = true <->
     valued_row cx col row = true
     /\ exists i row_i, (i < j)%nat /\ rows !! i = Some row_i
          /\ valued_row cx col row_i = true
          /\ value_of cx col row_i = value_of cx col row).
Proof.
  intros Hnd Hcol Hseen Hrun j row rep Hj Hr.
  rewrite (process_rows_first_seen env clk cx (flagged_value col) (valued_row cx col)
             (value_of cx col) (seen_values col)
             (fun row_idx row tr s rep tr' s' =>
                validate_row_value cx col row_idx row tr s rep tr' s' Hnd Hcol)
             sheet_no rows row_idx tr s reports s' Hrun j row rep Hj Hr).
  rewrite Hseen. split; intros [Ha Hcase]; (split; [exact Ha|]).
  - destruct Hcase as [Hin|Hex]; [apply elem_of_nil in Hin as [] | exact Hex].
  - right. exact Hcase.
Qed.

End UniqueValues.

(** Codes "A1", "B2" and " A1 ": the third repeats the first. *)
Lemma duplicate_values_flagged_witness :
  exists reports rep,
    fst (process_rows Examples.site Examples.calm_clock Examples.coded_ctx 1 2
           [[CStr "A1"; CStr "x"]; [CStr "B2"; CStr "y"]; [CStr " A1 "; CStr "z"]]
           (new_tracker ["Code"]) empty_state) = Return reports
    /\ reports !! 2%nat = Some rep /\ flagged_value "Code" rep = true.
Proof.
  assert (Hret : returned (process_rows Examples.site Examples.calm_clock
                             Examples.coded_ctx 1 2
                             [[CStr "A1"; CStr "x"]; [CStr "B2"; CStr "y"];
                              [CStr " A1 "; CStr "z"]] (new_tracker ["Code"]) empty_state)
                 = true) by (vm_compute; reflexivity).
  destruct (process_rows Examples.site Examples.calm_clock Examples.coded_ctx 1 2
              [[CStr "A1"; CStr "x"]; [CStr "B2"; CStr "y"]; [CStr " A1 "; CStr "z"]]
              (new_tracker ["Code"]) empty_state) as [[reports|e] s'] eqn:Hrun;
    [|discriminate Hret].
  destruct (process_rows_groups _ _ _ _ _ _ _ _ _ _ Hrun) as [Hlen _].
  destruct (reports !! 2%nat) as [rep|] eqn:Hrep.
  - exists reports, rep. split; [reflexivity|]. split; [exact Hrep|].
    assert (Hin : "Code" ∈ cx_unique_columns Examples.coded_ctx)
      by (apply elem_of_cons; auto).
    apply (proj2 (duplicate_values_flagged Examples.site Examples.calm_clock
                    Examples.coded_ctx "Code" 1 2 _ (new_tracker ["Code"]) empty_state
                    reports s' (NoDup_singleton _) Hin eq_refl Hrun
                    2%nat [CStr " A1 "; CStr "z"] rep eq_refl Hrep)).
    split; [vm_compute; reflexivity|].
    exists 0%nat, [CStr "A1"; CStr "x"].
    split; [lia|]. split; [reflexivity|]. split; vm_compute; reflexivity.
  - apply lookup_ge_None in Hrep. cbn [length] in Hlen. lia.
Defined.

(** ** The rules of the field types *)

Section TypeRules.
Context {RT : PyRuntime}.

Lemma valid_int_is_float v : is_valid_int v = true -> is_valid_float v = true.
Proof.
  destruct v; cbn [is_valid_int is_valid_float]; try reflexivity; try discriminate.
  destruct (float_of_str _); [reflexivity | discriminate].
Qed.

(** X20.  The numeric and date checks of [validate_datatypes] by field
    type.  A cell an integer field ([Int], [Check]) accepts, a decimal
    field ([Float], [Currency], [Percent]) accepts as well, and a cell a
    [Datetime] field accepts, a [Date] field accepts; a field of any
    other type is not checked; and a cell gets at most one error from
    these checks. *)
Theorem field_type_rules v label row_idx :
  (forall fi ff, fi ∈ ["Int"; "Check"] -> ff ∈ ["Float"; "Currency"; "Percent"] ->
     numeric_date_checks fi v label row_idx = [] ->
     numeric_date_checks ff v label row_idx = [])
  /\ (numeric_date_checks "Datetime" v label row_idx = [] ->
      numeric_date_checks "Date" v label row_idx = [])
  /\ (forall ft, ft ∉ ["Int"; "Check"; "Float"; "Currency"; "Percent"; "Date";
                       "Datetime"] ->
        numeric_date_checks ft v label row_idx = [])
  /\ (forall ft, (length (numeric_date_checks ft v label row_idx) <= 1)%nat).
Proof.
  split; [|split; [|split]].
  - intros fi ff Hi Hf.
    assert (Ei : numeric_date_checks fi v label row_idx
                 = if is_valid_int v then []
                   else [mk_error row_idx label "INVALID_INT"
                           ("'" ++ py_str v ++ "' is not a valid number")]).
    { repeat (apply elem_of_cons in Hi as [->|Hi]); try reflexivity.
      apply elem_of_nil in Hi as []. }
    assert (Ef : numeric_date_checks ff v label row_idx
                 = if is_valid_float v then []
                   else [mk_error row_idx label "INVALID_FLOAT"
                           ("'" ++ py_str v ++ "' is not a valid number")]).
    { repeat (apply elem_of_cons in Hf as [->|Hf]); try reflexivity.
      apply elem_of_nil in Hf as []. }
    rewrite Ei, Ef. destruct (is_valid_int v) eqn:Hv; [|discriminate].
    intros _. rewrite (valid_int_is_float v Hv). reflexivity.
  - unfold numeric_date_checks. cbn [str_in existsb String.eqb Ascii.eqb Bool.eqb orb].
    change (str_in "Datetime" ["Int"; "Check"]) with false.
    change (str_in "Datetime" ["Float"; "Currency"; "Percent"]) with false.
    change (str_in "Date" ["Int"; "Check"]) with false.
    change (str_in "Date" ["Float"; "Currency"; "Percent"]) with false.
    change (String.eqb "Datetime" "Date") with false.
    change (String.eqb "Datetime" "Datetime") with true.
    change (String.eqb "Date" "Date") with true.
    cbv iota. destruct v; try discriminate; reflexivity.
  - intros ft Hft. unfold numeric_date_checks.
    assert (H1 : str_in ft ["Int"; "Check"] = false).
    { apply str_in_false. intros H. apply Hft.
      repeat (apply elem_of_cons in H as [->|H]);
        [apply list_elem_of_In; simpl; tauto ..|]. apply elem_of_nil in H as []. }
    assert (H2 : str_in ft ["Float"; "Currency"; "Percent"] = false).
    { apply str_in_false. intros H. apply Hft.
      repeat (apply elem_of_cons in H as [->|H]);
        [apply list_elem_of_In; simpl; tauto ..|]. apply elem_of_nil in H as []. }
    assert (H3 : String.eqb ft "Date" = false).
    { apply String.eqb_neq. intros ->. apply Hft, list_elem_of_In. simpl. tauto. }
    assert (H4 : String.eqb ft "Datetime" = false).
    { apply String.eqb_neq. intros ->. apply Hft, list_elem_of_In. simpl. tauto. }
    rewrite H1, H2, H3, H4. reflexivity.
  - intros ft. unfold numeric_date_checks.
    repeat match goal with
      | |- context [if ?c then _ else _] => destruct c
      | |- context [match ?x with CNone => _ | _ => _ end] => destruct x
      end; cbn [length]; lia.
Qed.

End TypeRules.

